(** * CamliDraw: gesture classification and the gesture-to-canvas reducer

    A shallow embedding of
    - [src/utils/gestureDetection.ts] (the 21-landmark classifier),
    - [src/App.tsx] (the handlers that turn gestures into drawing state),
    - [src/utils/simpleGestureDetection.ts] ([detectMotion]),
    together with the properties the specification states about them.

    JavaScript's [number] is IEEE binary64.  The classifier and the reducer
    are written once over an interface [Number] of the operations they use;
    the interface is instantiated by binary64 floats (to run the code) and
    by the real numbers (to state properties of exact arithmetic).
    [detectMotion], whose property is about NaN, is modelled on binary64
    directly. *)

From Stdlib Require Import List Bool Arith ZArith Lia.
From Stdlib Require Import QArith Qreals Reals Lra.
From Stdlib Require Import Floats.
From Stdlib Require Uint63.
Import ListNotations.

Set Implicit Arguments.

(** ** The operations on [number] used by the sources *)

Class Number (num : Type) : Type := {
  lit : Q -> num;                  (* a decimal literal of the source *)
  nadd : num -> num -> num;
  nsub : num -> num -> num;
  nmul : num -> num -> num;
  ndiv : num -> num -> num;
  Math_sqrt : num -> num;
  Math_abs : num -> num;
  Math_max : num -> num -> num;
  Math_min : num -> num -> num;
  nltb : num -> num -> bool;       (* a < b *)
  neqb : num -> num -> bool;       (* a === b *)
  truthy : num -> bool             (* ToBoolean: neither 0 nor NaN *)
}.

Declare Scope num_scope.
Delimit Scope num_scope with num.
Infix "+" := nadd : num_scope.
Infix "-" := nsub : num_scope.
Infix "*" := nmul : num_scope.
Infix "/" := ndiv : num_scope.
Infix "<?" := nltb : num_scope.
Notation "a >? b" := (nltb b a) : num_scope.
Notation "a !== b" := (negb (neqb a b)) (at level 70) : num_scope.

(** *** Binary64 *)

Module F64.

Definition of_Z (z : Z) : float :=
  match z with
  | Z0 => PrimFloat.of_uint63 (Uint63.of_Z 0)
  | Zpos _ => PrimFloat.of_uint63 (Uint63.of_Z z)
  | Zneg p => PrimFloat.opp (PrimFloat.of_uint63 (Uint63.of_Z (Zpos p)))
  end.

(* A decimal literal n/10^k denotes the binary64 nearest to it; a correctly
   rounded division of the two integers gives the same float. *)
Definition lit (q : Q) : float :=
  PrimFloat.div (of_Z (Qnum q)) (of_Z (Zpos (Qden q))).

(* Math.max and Math.min: NaN when an argument is NaN, and +0 above -0. *)
Definition max (a b : float) : float :=
  if is_nan a || is_nan b then nan
  else if PrimFloat.ltb a b then b
  else if PrimFloat.ltb b a then a
  else if get_sign a then b else a.

Definition min (a b : float) : float :=
  if is_nan a || is_nan b then nan
  else if PrimFloat.ltb a b then a
  else if PrimFloat.ltb b a then b
  else if get_sign a then a else b.

Definition truthy (a : float) : bool :=
  negb (PrimFloat.eqb a PrimFloat.zero) && negb (is_nan a).

End F64.

#[export] Instance float_Number : Number float := {|
  lit := F64.lit;
  nadd := PrimFloat.add;
  nsub := PrimFloat.sub;
  nmul := PrimFloat.mul;
  ndiv := PrimFloat.div;
  Math_sqrt := PrimFloat.sqrt;
  Math_abs := PrimFloat.abs;
  Math_max := F64.max;
  Math_min := F64.min;
  nltb := PrimFloat.ltb;
  neqb := PrimFloat.eqb;
  truthy := F64.truthy
|}.

(** *** Real numbers: the same operations without rounding, NaN or
    infinities.  [x / 0] is [0] here, so this instance speaks for the code
    only where no division by zero happens. *)

Module Real.

Definition ltb (a b : R) : bool := if Rlt_dec a b then true else false.
Definition eqb (a b : R) : bool := if Req_dec_T a b then true else false.
Definition truthy (a : R) : bool := negb (eqb a 0%R).

End Real.

#[export] Instance R_Number : Number R := {|
  lit := Q2R;
  nadd := Rplus;
  nsub := Rminus;
  nmul := Rmult;
  ndiv := Rdiv;
  Math_sqrt := R_sqrt.sqrt;
  Math_abs := Rabs;
  Math_max := Rmax;
  Math_min := Rmin;
  nltb := Real.ltb;
  neqb := Real.eqb;
  truthy := Real.truthy
|}.

(** *** Real numbers with rounding: every arithmetic result is replaced by
    a nearby real.  A rounding of relative error at most [u] is the standard
    model of binary64 arithmetic away from overflow and underflow, with
    [u = 2^-53]; comparisons, [Math.abs], [Math.max] and [Math.min] are
    exact, as they are on binary64. *)

Module Rounded.

Definition number (rnd : R -> R) : Number R := {|
  lit := fun q => rnd (Q2R q);
  nadd := fun a b => rnd (a + b)%R;
  nsub := fun a b => rnd (a - b)%R;
  nmul := fun a b => rnd (a * b)%R;
  ndiv := fun a b => rnd (a / b)%R;
  Math_sqrt := fun a => rnd (R_sqrt.sqrt a);
  Math_abs := Rabs;
  Math_max := Rmax;
  Math_min := Rmin;
  nltb := Real.ltb;
  neqb := Real.eqb;
  truthy := Real.truthy
|}.

Definition accurate (u : R) (rnd : R -> R) : Prop :=
  forall x, (Rabs (rnd x - x) <= u * Rabs x)%R.

End Rounded.

(** ** Data model ([src/types/gestures.ts]) *)

Section Types.
Context {num : Type}.

Record Point : Type := mkPoint { px : num; py : num }.

Record Landmark : Type := mkLandmark { lx : num; ly : num; lz : num }.

Inductive GestureType : Type := pinch | palm | zoom | fist | none.

Record GestureState : Type := mkGesture {
  gtype : GestureType;
  confidence : num;
  position : Point;
  distance : option num
}.

Record DrawingState : Type := mkDrawingState {
  isDrawing : bool;
  isPanning : bool;
  isZooming : bool;
  isErasing : bool;
  scale : num;
  offset : Point;
  currentPath : list Point;
  paths : list (list Point)
}.

End Types.

Arguments Point : clear implicits.
Arguments Landmark : clear implicits.
Arguments GestureState : clear implicits.
Arguments DrawingState : clear implicits.

Definition GestureType_eqb (a b : GestureType) : bool :=
  match a, b with
  | pinch, pinch | palm, palm | zoom, zoom | fist, fist | none, none => true
  | _, _ => false
  end.

(** A thrown [TypeError] (a property read on [undefined]) is [None]. *)
Notation "x <- e ;; k" := (match e with Some x => k | None => None end)
  (at level 61, e at next level, right associativity).

Fixpoint filterM {A : Type} (f : A -> option bool) (l : list A) : option (list A) :=
  match l with
  | [] => Some []
  | a :: l' =>
      b <- f a ;;
      r <- filterM f l' ;;
      Some (if b then a :: r else r)
  end.

(** ** The classifier ([src/utils/gestureDetection.ts]) *)

Section Classifier.
Context {num : Type} {N : Number num}.
Local Open Scope num_scope.

(* Math.pow(v, 2), taken as the product v * v *)
Definition pow2 (v : num) : num := v * v.

Definition calculateDistance (point1 point2 : Landmark num) : num :=
  Math_sqrt (pow2 (lx point1 - lx point2) + pow2 (ly point1 - ly point2)).

Definition fingerTips : list nat := [4; 8; 12; 16; 20]%nat.
Definition fingerPips : list nat := [3; 6; 10; 14; 18]%nat.
Definition fingerMcps : list nat := [2; 5; 9; 13; 17]%nat.

(* [landmarks[table[finger]]]: [None] is [undefined]. *)
Definition getFingerTip (landmarks : list (Landmark num)) (finger : nat) : option (Landmark num) :=
  match nth_error fingerTips finger with
  | Some i => nth_error landmarks i
  | None => None
  end.

Definition getFingerPip (landmarks : list (Landmark num)) (finger : nat) : option (Landmark num) :=
  match nth_error fingerPips finger with
  | Some i => nth_error landmarks i
  | None => None
  end.

Definition getFingerMcp (landmarks : list (Landmark num)) (finger : nat) : option (Landmark num) :=
  match nth_error fingerMcps finger with
  | Some i => nth_error landmarks i
  | None => None
  end.

Definition isFingerExtended (landmarks : list (Landmark num)) (finger : nat) : option bool :=
  tip <- getFingerTip landmarks finger ;;
  pip <- getFingerPip landmarks finger ;;
  mcp <- getFingerMcp landmarks finger ;;
  if Nat.eqb finger 0 then
    let tipExtension := Math_abs (lx tip - lx mcp) in
    let pipExtension := Math_abs (lx pip - lx mcp) in
    Some (tipExtension >? pipExtension + lit 0.02)
  else
    let tipExtension := ly mcp - ly tip in
    let pipExtension := ly mcp - ly pip in
    Some (tipExtension >? pipExtension + lit 0.02).

Definition getExtendedFingerCount (landmarks : list (Landmark num)) : option nat :=
  r <- filterM (isFingerExtended landmarks) [0; 1; 2; 3; 4]%nat ;;
  Some (length r).

Definition noGesture : GestureState num :=
  mkGesture none (lit 0) (mkPoint (lit 0) (lit 0)) None.

(* Math.max(0.4, 1 - thumbIndexDistance * 15) *)
Definition pinchConfidence (thumbIndexDistance : num) : num :=
  Math_max (lit 0.4) (lit 1 - thumbIndexDistance * lit 15).

(* The argument is [None] for a null or absent landmark array. *)
Definition detectGesture (landmarks : option (list (Landmark num))) : option (GestureState num) :=
  match landmarks with
  | None => Some noGesture
  | Some landmarks =>
    if negb (Nat.eqb (length landmarks) 21) then Some noGesture
    else
      thumbTip <- getFingerTip landmarks 0 ;;
      indexTip <- getFingerTip landmarks 1 ;;
      middleTip <- getFingerTip landmarks 2 ;;
      let thumbIndexDistance := calculateDistance thumbTip indexTip in
      let thumbMiddleDistance := calculateDistance thumbTip middleTip in
      extendedFingers <- getExtendedFingerCount landmarks ;;
      if (thumbIndexDistance <? lit 0.04) && Nat.leb extendedFingers 1 then
        Some (mkGesture pinch (pinchConfidence thumbIndexDistance)
                (mkPoint ((lx thumbTip + lx indexTip) / lit 2)
                         ((ly thumbTip + ly indexTip) / lit 2))
                None)
      else
        thumbExtended <- isFingerExtended landmarks 0 ;;
        middleExtended <- isFingerExtended landmarks 2 ;;
        indexExtended <- isFingerExtended landmarks 1 ;;
        ringExtended <- isFingerExtended landmarks 3 ;;
        pinkyExtended <- isFingerExtended landmarks 4 ;;
        if thumbExtended && middleExtended && negb indexExtended
           && negb ringExtended && negb pinkyExtended then
          Some (mkGesture zoom (lit 0.8)
                  (mkPoint ((lx thumbTip + lx middleTip) / lit 2)
                           ((ly thumbTip + ly middleTip) / lit 2))
                  (Some thumbMiddleDistance))
        else if Nat.eqb extendedFingers 0 then
          l9 <- nth_error landmarks 9 ;;
          Some (mkGesture fist (lit 0.9) (mkPoint (lx l9) (ly l9)) None)
        else if Nat.leb 4 extendedFingers then
          l9 <- nth_error landmarks 9 ;;
          Some (mkGesture palm (lit 0.8) (mkPoint (lx l9) (ly l9)) None)
        else if Nat.eqb extendedFingers 1 && indexExtended then
          Some (mkGesture pinch (lit 0.4) (mkPoint (lx indexTip) (ly indexTip)) None)
        else Some noGesture
  end.

End Classifier.

(** ** The reducer ([src/App.tsx]) *)

Section Reducer.
Context {num : Type} {N : Number num}.
Local Open Scope num_scope.

(* window.innerWidth, window.innerHeight *)
Record Window : Type := mkWindow { innerWidth : num; innerHeight : num }.

(* The [useRef] cells of [App] that are written somewhere
   ([gestureTimeoutRef] is never assigned and is left out). *)
Record Refs : Type := mkRefs {
  lastGestureRef : option (GestureState num);
  lastZoomDistanceRef : option num;
  panStartRef : option (Point num);
  lastGestureTypeRef : option GestureType;
  lastDrawPositionRef : option (Point num);
  positionHistoryRef : list (Point num)
}.

Definition set_lastGestureRef v (r : Refs) : Refs :=
  mkRefs v (lastZoomDistanceRef r) (panStartRef r) (lastGestureTypeRef r)
         (lastDrawPositionRef r) (positionHistoryRef r).
Definition set_lastZoomDistanceRef v (r : Refs) : Refs :=
  mkRefs (lastGestureRef r) v (panStartRef r) (lastGestureTypeRef r)
         (lastDrawPositionRef r) (positionHistoryRef r).
Definition set_panStartRef v (r : Refs) : Refs :=
  mkRefs (lastGestureRef r) (lastZoomDistanceRef r) v (lastGestureTypeRef r)
         (lastDrawPositionRef r) (positionHistoryRef r).
Definition set_lastGestureTypeRef v (r : Refs) : Refs :=
  mkRefs (lastGestureRef r) (lastZoomDistanceRef r) (panStartRef r) v
         (lastDrawPositionRef r) (positionHistoryRef r).
Definition set_lastDrawPositionRef v (r : Refs) : Refs :=
  mkRefs (lastGestureRef r) (lastZoomDistanceRef r) (panStartRef r)
         (lastGestureTypeRef r) v (positionHistoryRef r).
Definition set_positionHistoryRef v (r : Refs) : Refs :=
  mkRefs (lastGestureRef r) (lastZoomDistanceRef r) (panStartRef r)
         (lastGestureTypeRef r) (lastDrawPositionRef r) v.

Definition MIN_DISTANCE_THRESHOLD : num := lit 0.01.
Definition SMOOTHING_WINDOW : nat := 3.

(* [drawingState] is the snapshot the callback closed over. *)
Definition screenToCanvas (w : Window) (drawingState : DrawingState num)
    (screenPoint : Point num) : Point num :=
  mkPoint ((px screenPoint * innerWidth w - px (offset drawingState)) / scale drawingState)
          ((py screenPoint * innerHeight w - py (offset drawingState)) / scale drawingState).


(* The argument of a [setDrawingState(prev => ...)] call. *)
Definition Updater : Type := DrawingState num -> DrawingState num.

Definition runUpdaters (us : list Updater) (prev : DrawingState num) : DrawingState num :=
  fold_left (fun s u => u s) us prev.

Definition isType (g : GestureState num) (t : GestureType) : bool :=
  GestureType_eqb (gtype g) t.

(** *** Drawing (lines 60-102) *)

Definition startStroke : Updater := fun prev =>
  mkDrawingState true (isPanning prev) (isZooming prev) (isErasing prev)
                 (scale prev) (offset prev) [] (paths prev).

Definition finishStroke : Updater := fun prev =>
  if Nat.ltb 1 (length (currentPath prev)) then
    mkDrawingState false (isPanning prev) (isZooming prev) (isErasing prev)
                   (scale prev) (offset prev) [] (paths prev ++ [currentPath prev])
  else
    mkDrawingState false (isPanning prev) (isZooming prev) (isErasing prev)
                   (scale prev) (offset prev) [] (paths prev).

Definition drawingChannel (drawingState : DrawingState num) (refs : Refs)
    (gesture : GestureState num) : Refs * list Updater :=
  if isType gesture pinch && (confidence gesture >? lit 0.6) then
    if negb (isDrawing drawingState) then
      (set_lastDrawPositionRef None (set_positionHistoryRef [] refs), [startStroke])
    else (refs, [])
  else if isDrawing drawingState && negb (isType gesture pinch) then
    (refs, [finishStroke])
  else (refs, []).

(** *** Panning (lines 110-166) *)

Definition setPanning (b : bool) : Updater := fun prev =>
  mkDrawingState (isDrawing prev) b (isZooming prev) (isErasing prev)
                 (scale prev) (offset prev) (currentPath prev) (paths prev).

Definition panBy (deltaX deltaY : num) : Updater := fun prev =>
  mkDrawingState (isDrawing prev) (isPanning prev) (isZooming prev) (isErasing prev)
                 (scale prev)
                 (mkPoint (px (offset prev) + deltaX) (py (offset prev) + deltaY))
                 (currentPath prev) (paths prev).

Definition panningChannel (w : Window) (drawingState : DrawingState num) (refs : Refs)
    (gesture : GestureState num) : Refs * list Updater :=
  if isType gesture palm && (confidence gesture >? lit 0.7) then
    let flippedPosition :=
      mkPoint (lit 1 - px (position gesture)) (py (position gesture)) in
    let flippedScreenPoint :=
      mkPoint (px flippedPosition * innerWidth w) (py flippedPosition * innerHeight w) in
    if negb (isPanning drawingState) then
      (set_panStartRef (Some flippedScreenPoint) refs, [setPanning true])
    else
      match panStartRef refs with
      | Some panStart =>
          let deltaX := px flippedScreenPoint - px panStart in
          let deltaY := py flippedScreenPoint - py panStart in
          (set_panStartRef (Some flippedScreenPoint) refs, [panBy deltaX deltaY])
      | None => (refs, [])
      end
  else if isPanning drawingState && negb (isType gesture palm) then
    (set_panStartRef None refs, [setPanning false])
  else (refs, []).

(** *** Zooming (lines 168-193) *)

Definition setZooming (b : bool) : Updater := fun prev =>
  mkDrawingState (isDrawing prev) (isPanning prev) b (isErasing prev)
                 (scale prev) (offset prev) (currentPath prev) (paths prev).

Definition setScale (newScale : num) : Updater := fun prev =>
  mkDrawingState (isDrawing prev) (isPanning prev) (isZooming prev) (isErasing prev)
                 newScale (offset prev) (currentPath prev) (paths prev).

(* The branch the zoom block takes. *)
Inductive ZoomAction : Type :=
| ZoomStart (d : num)              (* lines 170-175 *)
| ZoomScale (d last : num)         (* lines 176-186: divides d by last *)
| ZoomStop                         (* lines 187-192 *)
| ZoomIdle.

Definition zoomAction (drawingState : DrawingState num) (refs : Refs)
    (gesture : GestureState num) : ZoomAction :=
  match (if isType gesture zoom then
           match distance gesture with
           | Some d => if truthy d && (confidence gesture >? lit 0.7) then Some d else None
           | None => None
           end
         else None) with
  | Some d =>
      if negb (isZooming drawingState) then ZoomStart d
      else
        match lastZoomDistanceRef refs with
        | Some last => if truthy last then ZoomScale d last else ZoomIdle
        | None => ZoomIdle
        end
  | None =>
      if isZooming drawingState && negb (isType gesture zoom) then ZoomStop
      else ZoomIdle
  end.

Definition zoomChannel (drawingState : DrawingState num) (refs : Refs)
    (gesture : GestureState num) : Refs * list Updater :=
  match zoomAction drawingState refs gesture with
  | ZoomStart d => (set_lastZoomDistanceRef (Some d) refs, [setZooming true])
  | ZoomScale d last =>
      let zoomFactor := d / last in
      let newScale :=
        Math_max (lit 0.1) (Math_min (lit 5) (scale drawingState * zoomFactor)) in
      (set_lastZoomDistanceRef (Some d) refs, [setScale newScale])
  | ZoomStop => (set_lastZoomDistanceRef None refs, [setZooming false])
  | ZoomIdle => (refs, [])
  end.

(** *** Erasing (lines 195-227) *)

Definition setErasing (b : bool) : Updater := fun prev =>
  mkDrawingState (isDrawing prev) (isPanning prev) (isZooming prev) b
                 (scale prev) (offset prev) (currentPath prev) (paths prev).

Definition pointDistance (a b : Point num) : num :=
  Math_sqrt (pow2 (px a - px b) + pow2 (py a - py b)).

Definition erasePaths (canvasPoint : Point num) (eraseRadius : num) : Updater := fun prev =>
  mkDrawingState (isDrawing prev) (isPanning prev) (isZooming prev) (isErasing prev)
                 (scale prev) (offset prev) (currentPath prev)
                 (filter (fun path =>
                            negb (existsb (fun point =>
                                             pointDistance point canvasPoint <? eraseRadius)
                                          path))
                         (paths prev)).

Definition eraseChannel (w : Window) (drawingState : DrawingState num) (refs : Refs)
    (gesture : GestureState num) : Refs * list Updater :=
  if isType gesture fist && (confidence gesture >? lit 0.8) then
    let flippedPosition :=
      mkPoint (lit 1 - px (position gesture)) (py (position gesture)) in
    let canvasPoint := screenToCanvas w drawingState flippedPosition in
    let eraseRadius := lit 50 / scale drawingState in
    (refs,
     (if negb (isErasing drawingState) then [setErasing true] else [])
       ++ [erasePaths canvasPoint eraseRadius])
  else if isErasing drawingState && negb (isType gesture fist) then
    (refs, [setErasing false])
  else (refs, []).

(** *** [handleGestureDetected]: the four blocks in source order; the
    updaters are queued and later applied, in order, to the current state. *)

Definition handleGestureDetected (w : Window) (drawingState : DrawingState num)
    (refs : Refs) (gesture : GestureState num) : Refs * list Updater :=
  let '(r1, u1) := drawingChannel drawingState refs gesture in
  let r2 := if isType gesture none then set_lastGestureTypeRef None r1 else r1 in
  let '(r3, u3) := panningChannel w drawingState r2 gesture in
  let '(r4, u4) := zoomChannel drawingState r3 gesture in
  let '(r5, u5) := eraseChannel w drawingState r4 gesture in
  (set_lastGestureTypeRef (Some (gtype gesture)) (set_lastGestureRef (Some gesture) r5),
   u1 ++ u3 ++ u4 ++ u5).

Definition handleClearCanvas : Updater := fun prev =>
  mkDrawingState (isDrawing prev) (isPanning prev) (isZooming prev) (isErasing prev)
                 (scale prev) (offset prev) [] [].

Definition handleResetView : Updater := fun prev =>
  mkDrawingState (isDrawing prev) (isPanning prev) (isZooming prev) (isErasing prev)
                 (lit 1) (mkPoint (lit 0) (lit 0)) (currentPath prev) (paths prev).

(** *** [handleHandPositionUpdate] (lines 249-316) *)

Definition ofNat (n : nat) : num := lit (inject_Z (Z.of_nat n)).

(* push, then shift when the window is exceeded *)
Definition pushHistory (history : list (Point num)) (position : Point num) : list (Point num) :=
  let h := history ++ [position] in
  if Nat.ltb SMOOTHING_WINDOW (length h) then tl h else h.

Definition smoothedPosition (history : list (Point num)) : Point num :=
  mkPoint (fold_left (fun sum p => sum + px p) history (lit 0) / ofNat (length history))
          (fold_left (fun sum p => sum + py p) history (lit 0) / ofNat (length history)).

(* The minimum-movement test of lines 264-274: [true] is the early return. *)
Definition tooClose (smoothed : Point num) (lastDrawPosition : option (Point num)) : bool :=
  match lastDrawPosition with
  | Some lastPos => pointDistance smoothed lastPos <? MIN_DISTANCE_THRESHOLD
  | None => false
  end.

(* The updater of lines 280-307; it also writes [lastDrawPositionRef]. *)
Definition appendPoint (smoothed canvasPoint : Point num) (refs : Refs)
    (prev : DrawingState num) : Refs * DrawingState num :=
  match currentPath prev with
  | [] =>
      (set_lastDrawPositionRef (Some smoothed) refs,
       mkDrawingState true (isPanning prev) (isZooming prev) (isErasing prev)
                      (scale prev) (offset prev) [canvasPoint] (paths prev))
  | p0 :: rest =>
      let lastPoint := last rest p0 in
      if ((px lastPoint !== px canvasPoint) || (py lastPoint !== py canvasPoint))
         && Nat.ltb (length (currentPath prev)) 1000 then
        (set_lastDrawPositionRef (Some smoothed) refs,
         mkDrawingState true (isPanning prev) (isZooming prev) (isErasing prev)
                        (scale prev) (offset prev)
                        (currentPath prev ++ [canvasPoint]) (paths prev))
      else (refs, prev)
  end.

Definition handleHandPositionUpdate (w : Window) (drawingState : DrawingState num)
    (refs : Refs) (position : option (Point num)) (prev : DrawingState num)
    : Refs * DrawingState num :=
  match lastGestureTypeRef refs, position with
  | Some pinch, Some position =>
      let refs1 :=
        set_positionHistoryRef (pushHistory (positionHistoryRef refs) position) refs in
      let smoothed := smoothedPosition (positionHistoryRef refs1) in
      if tooClose smoothed (lastDrawPositionRef refs1) then (refs1, prev)
      else
        let flippedPosition := mkPoint (lit 1 - px smoothed) (py smoothed) in
        let canvasPoint := screenToCanvas w drawingState flippedPosition in
        appendPoint smoothed canvasPoint refs1 prev
  | _, _ =>
      (set_lastDrawPositionRef None (set_positionHistoryRef [] refs), prev)
  end.

(** *** The application as a machine: every handler call sees the current
    state as its snapshot, and its updaters run before the next call. *)

Record App : Type := mkApp { drawingState : DrawingState num; appRefs : Refs }.

Inductive Event : Type :=
| GestureDetected (gesture : GestureState num)
| HandPositionUpdate (position : option (Point num))
| ClearCanvas
| ResetView.

Definition initialDrawingState : DrawingState num :=
  mkDrawingState false false false false (lit 1) (mkPoint (lit 0) (lit 0)) [] [].

Definition initialRefs : Refs := mkRefs None None None None None [].

Definition initialApp : App := mkApp initialDrawingState initialRefs.

Definition step (w : Window) (app : App) (ev : Event) : App :=
  match ev with
  | GestureDetected gesture =>
      let '(refs', us) :=
        handleGestureDetected w (drawingState app) (appRefs app) gesture in
      mkApp (runUpdaters us (drawingState app)) refs'
  | HandPositionUpdate position =>
      let '(refs', s') :=
        handleHandPositionUpdate w (drawingState app) (appRefs app) position
                                 (drawingState app) in
      mkApp s' refs'
  | ClearCanvas => mkApp (handleClearCanvas (drawingState app)) (appRefs app)
  | ResetView => mkApp (handleResetView (drawingState app)) (appRefs app)
  end.

(* Events arrive with the window size of their moment. *)
Definition runEvents (app : App) (evs : list (Window * Event)) : App :=
  fold_left (fun a we => step (fst we) a (snd we)) evs app.

(* The states the application can be in.  [setDrawingState] is also handed
   to the canvas component, so the drawing state may be replaced from
   outside; the refs are private to [App]. *)
Inductive reachable : App -> Prop :=
| reachable_initial : reachable initialApp
| reachable_step w app ev : reachable app -> reachable (step w app ev)
| reachable_external app s : reachable app -> reachable (mkApp s (appRefs app)).

(** *** Predicates used in the statements *)

(* The mirrored position [{x: 1 - p.x, y: p.y}] the handlers compute inline. *)
Definition flipped (p : Point num) : Point num := mkPoint (lit 1 - px p) (py p).

(* An updater that touches neither the stroke in progress nor [isDrawing]. *)
Definition keepsStroke (u : Updater) : Prop :=
  forall s, currentPath (u s) = currentPath s /\ isDrawing (u s) = isDrawing s.

Definition keepsPaths (u : Updater) : Prop :=
  forall s, paths (u s) = paths s.

Definition keepsScale (u : Updater) : Prop :=
  forall s, scale (u s) = scale s.

(* Math.max(0.1, Math.min(5, x)), the clamp of line 178. *)
Definition clampScale (x : num) : num := Math_max (lit 0.1) (Math_min (lit 5) x).

(* The zoom baseline is absent ([null]) or truthy. *)
Definition zoomRefOk (refs : Refs) : Prop :=
  match lastZoomDistanceRef refs with
  | Some d => truthy d = true
  | None => True
  end.

End Reducer.

Arguments Window : clear implicits.
Arguments Refs : clear implicits.
Arguments Updater : clear implicits.
Arguments ZoomAction : clear implicits.
Arguments App : clear implicits.
Arguments Event : clear implicits.

(** ** [SimpleGestureDetector.detectMotion]
    ([src/utils/simpleGestureDetection.ts], lines 147-191), on binary64 *)

Module SimpleGestureDetector.

(* [ImageData]: [data] is a Uint8ClampedArray, entries 0..255. *)
Record ImageData : Type := mkImageData { data : list Z; width : Z; height : Z }.

(* [a[i]] used as an operand of [+]: an index past the end reads
   [undefined], which [+] converts to NaN. *)
Definition readNum (a : list Z) (i : nat) : float :=
  match nth_error a i with
  | Some v => F64.of_Z v
  | None => nan
  end.

Definition brightness (a : list Z) (i : nat) : float :=
  PrimFloat.div
    (PrimFloat.add (PrimFloat.add (readNum a i) (readNum a (i + 1))) (readNum a (i + 2)))
    (F64.lit 3).

(* The loop variables [motionPixels], [totalPixels], [totalDifference]. *)
Record Totals : Type := mkTotals {
  motionPixels : float;
  totalPixels : float;
  totalDifference : float
}.

Definition sample (currentData previousData : list Z) (i : nat) (t : Totals) : Totals :=
  let currentBrightness := brightness currentData i in
  let previousBrightness := brightness previousData i in
  let difference := PrimFloat.abs (PrimFloat.sub currentBrightness previousBrightness) in
  mkTotals
    (if PrimFloat.ltb (F64.lit 3) difference
     then PrimFloat.add (motionPixels t) (F64.lit 1) else motionPixels t)
    (PrimFloat.add (totalPixels t) (F64.lit 1))
    (PrimFloat.add (totalDifference t) difference).

(* [for (let i = ...; i < currentData.length - 2; i += 2)], at most [fuel]
   iterations. *)
Fixpoint motionLoop (fuel : nat) (currentData previousData : list Z) (i : nat)
    (t : Totals) : Totals :=
  match fuel with
  | O => t
  | S fuel' =>
      if Z.ltb (Z.of_nat i) (Z.of_nat (length currentData) - 2) then
        motionLoop fuel' currentData previousData (i + 2)
                   (sample currentData previousData i t)
      else t
  end.

Definition motionTotals (current previous : ImageData) : Totals :=
  motionLoop (length (data current)) (data current) (data previous) 0
             (mkTotals (F64.lit 0) (F64.lit 0) (F64.lit 0)).

Definition avgDifference (t : Totals) : float :=
  PrimFloat.div (totalDifference t) (totalPixels t).

Definition motionRatio (t : Totals) : float :=
  PrimFloat.div (motionPixels t) (totalPixels t).

Definition motionScore (avgDifference motionRatio : float) : float :=
  let s :=
    PrimFloat.add
      (PrimFloat.mul motionRatio (F64.lit 0.8))
      (PrimFloat.mul (PrimFloat.div avgDifference (F64.lit 255)) (F64.lit 0.2)) in
  if is_nan s then F64.lit 0 else s.

Definition detectMotion (current previous : ImageData) : float :=
  let t := motionTotals current previous in
  if PrimFloat.eqb (totalPixels t) (F64.lit 0) then F64.lit 0
  else
    if is_nan (avgDifference t) || is_nan (motionRatio t)
    then motionScore (F64.lit 0) (F64.lit 0)
    else motionScore (avgDifference t) (motionRatio t).

End SimpleGestureDetector.

(** ** [TensorFlowGestureDetector.analyzeHandGesture]
    ([src/utils/tensorflowGestureDetection.ts], lines 67-183) *)

Module TensorFlowGestureDetector.
Section Detector.
Context {num : Type} {N : Number num}.
Local Open Scope num_scope.

Definition calculateDistance (point1 point2 : Point num) : num :=
  Math_sqrt (pow2 (px point1 - px point2) + pow2 (py point1 - py point2)).

Definition isFingerExtended (tip pip mcp : Point num) (isThumb : bool) : bool :=
  if isThumb then
    let tipExtension := Math_abs (px tip - px mcp) in
    let pipExtension := Math_abs (px pip - px mcp) in
    tipExtension >? pipExtension + lit 0.02
  else
    let tipExtension := py mcp - py tip in
    let pipExtension := py mcp - py pip in
    tipExtension >? pipExtension + lit 0.02.

(* [landmarks[i]] is [None] past the end; the reads of this function are
   all below 21 and the array has at least 21 entries when they happen. *)
Definition analyzeHandGesture (landmarks : list (Point num)) : option (GestureState num) :=
  if Nat.ltb (length landmarks) 21 then Some noGesture
  else
    thumbTip <- nth_error landmarks 4 ;;
    indexTip <- nth_error landmarks 8 ;;
    middleTip <- nth_error landmarks 12 ;;
    ringTip <- nth_error landmarks 16 ;;
    pinkyTip <- nth_error landmarks 20 ;;
    thumbMcp <- nth_error landmarks 2 ;;
    indexMcp <- nth_error landmarks 5 ;;
    middleMcp <- nth_error landmarks 9 ;;
    ringMcp <- nth_error landmarks 13 ;;
    pinkyMcp <- nth_error landmarks 17 ;;
    let thumbIndexDistance := calculateDistance thumbTip indexTip in
    let thumbMiddleDistance := calculateDistance thumbTip middleTip in
    l3 <- nth_error landmarks 3 ;;
    l6 <- nth_error landmarks 6 ;;
    l10 <- nth_error landmarks 10 ;;
    l14 <- nth_error landmarks 14 ;;
    l18 <- nth_error landmarks 18 ;;
    let thumbExtended := isFingerExtended thumbTip l3 thumbMcp true in
    let indexExtended := isFingerExtended indexTip l6 indexMcp false in
    let middleExtended := isFingerExtended middleTip l10 middleMcp false in
    let ringExtended := isFingerExtended ringTip l14 ringMcp false in
    let pinkyExtended := isFingerExtended pinkyTip l18 pinkyMcp false in
    let extendedFingers :=
      length (List.filter (fun extended : bool => extended)
                [thumbExtended; indexExtended; middleExtended; ringExtended;
                 pinkyExtended]) in
    if (thumbIndexDistance <? lit 0.05) && Nat.leb extendedFingers 1 then
      Some (mkGesture pinch
              (Math_max (lit 0.6) (lit 1 - thumbIndexDistance * lit 20))
              (mkPoint ((px thumbTip + px indexTip) / lit 2)
                       ((py thumbTip + py indexTip) / lit 2))
              None)
    else if thumbExtended && middleExtended && negb indexExtended
            && negb ringExtended && negb pinkyExtended then
      Some (mkGesture zoom (lit 0.8)
              (mkPoint ((px thumbTip + px middleTip) / lit 2)
                       ((py thumbTip + py middleTip) / lit 2))
              (Some thumbMiddleDistance))
    else if Nat.eqb extendedFingers 0 then
      Some (mkGesture fist (lit 0.9) (mkPoint (px middleMcp) (py middleMcp)) None)
    else if Nat.leb 4 extendedFingers then
      Some (mkGesture palm (lit 0.8) (mkPoint (px middleMcp) (py middleMcp)) None)
    else if Nat.eqb extendedFingers 1 && indexExtended then
      Some (mkGesture pinch (lit 0.7) (mkPoint (px indexTip) (py indexTip)) None)
    else Some noGesture.

End Detector.
End TensorFlowGestureDetector.

(** ** [OneEuroFilter] and [OneEuroFilter2D] ([src/utils/oneEuroFilter.ts]) *)

Module OneEuro.
Section Filter.
Context {num : Type} {N : Number num}.
Variable Math_PI : num.
Local Open Scope num_scope.

(* The options object: an absent property is [None]. *)
Record OneEuroFilter2DOptions : Type := mkOptions {
  opt_minCutoff : option num;
  opt_beta : option num;
  opt_dCutoff : option num;
  opt_freq : option num
}.

Record OneEuroFilter : Type := mkFilter {
  minCutoff : num;
  beta : num;
  dCutoff : num;
  freq : num;
  lastTime : option num;
  xPrev : option num;
  dxPrev : num;
  xHatPrev : option num;
  dxHatPrev : num
}.

Definition orDefault (o : option num) (d : num) : num :=
  match o with Some v => v | None => d end.

(* constructor({ minCutoff = 1.0, beta = 0.0, dCutoff = 1.0, freq = 60 }) *)
Definition newOneEuroFilter (options : OneEuroFilter2DOptions) : OneEuroFilter :=
  mkFilter (orDefault (opt_minCutoff options) (lit 1))
           (orDefault (opt_beta options) (lit 0))
           (orDefault (opt_dCutoff options) (lit 1))
           (orDefault (opt_freq options) (lit 60))
           None None (lit 0) None (lit 0).

Definition alpha (cutoff dt : num) : num :=
  let tau := lit 1 / (lit 2 * Math_PI * cutoff) in
  lit 1 / (lit 1 + tau / dt).

(* [filter(x, timestamp)]: the filter after the call and the value returned. *)
Definition filter (f : OneEuroFilter) (x timestamp : num) : OneEuroFilter * num :=
  let dt :=
    match lastTime f with
    | Some last => Math_max ((timestamp - last) / lit 1000) (lit 1 / freq f)
    | None => lit 1 / freq f
    end in
  let dx :=
    match xPrev f with
    | Some prev => (x - prev) / dt
    | None => lit 0
    end in
  let alphaD := alpha (dCutoff f) dt in
  let dxHat := dxHatPrev f + alphaD * (dx - dxHatPrev f) in
  let cutoff := minCutoff f + beta f * Math_abs dxHat in
  let alphaX := alpha cutoff dt in
  let xHat :=
    match xHatPrev f with
    | None => x
    | Some prevHat => prevHat + alphaX * (x - prevHat)
    end in
  (mkFilter (minCutoff f) (beta f) (dCutoff f) (freq f)
            (Some timestamp) (Some x) (dxPrev f) (Some xHat) dxHat,
   xHat).

Definition reset (f : OneEuroFilter) : OneEuroFilter :=
  mkFilter (minCutoff f) (beta f) (dCutoff f) (freq f) None None (lit 0) None (lit 0).

Record OneEuroFilter2D : Type := mkFilter2D {
  xFilter : OneEuroFilter;
  yFilter : OneEuroFilter
}.

Definition newOneEuroFilter2D (options : OneEuroFilter2DOptions) : OneEuroFilter2D :=
  mkFilter2D (newOneEuroFilter options) (newOneEuroFilter options).

Definition filter2D (f : OneEuroFilter2D) (point : Point num) (timestamp : num)
    : OneEuroFilter2D * Point num :=
  let '(fx, x) := filter (xFilter f) (px point) timestamp in
  let '(fy, y) := filter (yFilter f) (py point) timestamp in
  (mkFilter2D fx fy, mkPoint x y).

Definition reset2D (f : OneEuroFilter2D) : OneEuroFilter2D :=
  mkFilter2D (reset (xFilter f)) (reset (yFilter f)).

(* The filter fed a list of timestamped samples, outputs in order. *)
Fixpoint filterAll (f : OneEuroFilter) (samples : list (num * num)) : OneEuroFilter * list num :=
  match samples with
  | [] => (f, [])
  | (x, t) :: rest =>
      let '(f1, y) := filter f x t in
      let '(f2, ys) := filterAll f1 rest in
      (f2, y :: ys)
  end.

(* The 2D filter fed a list of timestamped points. *)
Fixpoint filterAll2D (f : OneEuroFilter2D) (samples : list (Point num * num))
    : OneEuroFilter2D * list (Point num) :=
  match samples with
  | [] => (f, [])
  | (point, t) :: rest =>
      let '(f1, q) := filter2D f point t in
      let '(f2, qs) := filterAll2D f1 rest in
      (f2, q :: qs)
  end.

End Filter.
End OneEuro.

(** ** [SimpleGestureDetector]: [updateGestureState] and [determineGesture]
    ([src/utils/simpleGestureDetection.ts], lines 76-102 and 193-252) *)

Module SimpleGestureState.

Section Hysteresis.
Context {num : Type} {N : Number num}.
Local Open Scope num_scope.

(* The fields [gestureCounter], [noGestureCounter], [currentGesture]; the
   counters only take the integer values 0..5. *)
Record Detector : Type := mkDetector {
  gestureCounter : nat;
  noGestureCounter : nat;
  currentGesture : GestureState num
}.

Definition initialDetector : Detector := mkDetector 0 0 noGesture.

(* The detector after the call; the value returned is its [currentGesture]. *)
Definition updateGestureState (d : Detector) (gesture : GestureState num) : Detector :=
  if negb (GestureType_eqb (gtype gesture) none) then
    let gestureCounter1 := S (gestureCounter d) in
    let requiredDetections := if confidence gesture >? lit 0.3 then 2%nat else 3%nat in
    if Nat.leb requiredDetections gestureCounter1 then
      mkDetector requiredDetections 0 gesture
    else mkDetector gestureCounter1 0 (currentGesture d)
  else
    let noGestureCounter1 := S (noGestureCounter d) in
    let requiredNoDetections := 5%nat in
    if Nat.leb requiredNoDetections noGestureCounter1 then
      mkDetector 0 requiredNoDetections gesture
    else mkDetector 0 noGestureCounter1 (currentGesture d).

End Hysteresis.

(* [regions]: five regions, each [{brightness, motion}]. *)
Record Region : Type := mkRegion { brightness : float; motion : float }.

Record Regions : Type := mkRegions {
  center : Region; left : Region; right : Region; top : Region; bottom : Region
}.

(* The debug logging of lines 208-217 has no effect on the result. *)
Definition determineGesture (regions : Regions) (motionScore : float) : GestureState float :=
  let motionScore := if is_nan motionScore then F64.lit 0 else motionScore in
  let centerBrightness := brightness (center regions) in
  if PrimFloat.ltb (F64.lit 0.0002) motionScore
     && PrimFloat.ltb (F64.lit 15) centerBrightness then
    if PrimFloat.ltb (F64.lit 25) centerBrightness then
      mkGesture palm (F64.min (F64.lit 0.8) (PrimFloat.mul motionScore (F64.lit 100)))
                (mkPoint (F64.lit 0.5) (F64.lit 0.5)) None
    else
      mkGesture pinch (F64.min (F64.lit 0.7) (PrimFloat.mul motionScore (F64.lit 100)))
                (mkPoint (F64.lit 0.5) (F64.lit 0.5)) None
  else if PrimFloat.ltb (F64.lit 0.0001) motionScore then
    mkGesture pinch (F64.min (F64.lit 0.5) (PrimFloat.mul motionScore (F64.lit 100)))
              (mkPoint (F64.lit 0.5) (F64.lit 0.5)) None
  else
    mkGesture none (F64.lit 0) (mkPoint (F64.lit 0) (F64.lit 0)) None.

(* Lines 69-73 of [analyzeFrame]: classify, then apply the hysteresis. *)
Definition analyzeFrame (d : Detector) (regions : Regions) (motionScore : float)
    : Detector :=
  updateGestureState d (determineGesture regions motionScore).

Definition analyzeFrames (d : Detector) (frames : list (Regions * float)) : Detector :=
  fold_left (fun d rm => analyzeFrame d (fst rm) (snd rm)) frames d.

End SimpleGestureState.

(** ** The gesture interval of [CameraView]
    ([src/unnamed/part_003], lines 260-278) *)

Section GestureInterval.
Context {num : Type} {N : Number num}.
Local Open Scope num_scope.

(* One tick, from the freshly classified [gesture] on (lines 268-277): the
   new [lastGesture], which is also the gesture handed to the callback. *)
Definition gestureTick (lastGesture gesture : GestureState num) : GestureState num :=
  if negb (GestureType_eqb (gtype gesture) (gtype lastGesture))
     || (Math_abs (confidence gesture - confidence lastGesture) >? lit 0.1)
  then gesture
  else lastGesture.

(* The gestures handed to the callback over successive ticks. *)
Fixpoint gestureTicks (lastGesture : GestureState num) (gestures : list (GestureState num))
    : list (GestureState num) :=
  match gestures with
  | [] => []
  | g :: rest =>
      let last := gestureTick lastGesture g in
      last :: gestureTicks last rest
  end.

End GestureInterval.

(** ** The classifier inlined in [CameraView] ([src/unnamed/part_003],
    lines 110-149) and the hand position of its [onResults] callback
    (lines 193-216) *)

Module CameraView.
Section Inline.
Context {num : Type} {N : Number num}.
Local Open Scope num_scope.

(* The local helpers [getTip], [getPip], [getMcp] and [isExtended] read the
   same landmarks and make the same comparisons as [getFingerTip],
   [getFingerPip], [getFingerMcp] and [isFingerExtended] above, and
   [extended.length] is [getExtendedFingerCount]; [(a.x - b.x) ** 2] is
   [pow2]. *)
Definition calculateDistance (a b : Landmark num) : num :=
  Math_sqrt (pow2 (lx a - lx b) + pow2 (ly a - ly b)).

Definition detectGesture (landmarks : option (list (Landmark num)))
    : option (GestureState num) :=
  match landmarks with
  | None => Some noGesture
  | Some landmarks =>
    if negb (Nat.eqb (length landmarks) 21) then Some noGesture
    else
      extended <- getExtendedFingerCount landmarks ;;
      thumbTip <- getFingerTip landmarks 0 ;;
      indexTip <- getFingerTip landmarks 1 ;;
      middleTip <- getFingerTip landmarks 2 ;;
      let thumbIndexDist := calculateDistance thumbTip indexTip in
      let thumbMiddleDist := calculateDistance thumbTip middleTip in
      if (thumbIndexDist <? lit 0.06) && Nat.leb extended 1 then
        Some (mkGesture pinch (Math_max (lit 0.5) (lit 1 - thumbIndexDist * lit 15))
                (mkPoint ((lx thumbTip + lx indexTip) / lit 2)
                         ((ly thumbTip + ly indexTip) / lit 2))
                None)
      else
        e0 <- isFingerExtended landmarks 0 ;;
        e2 <- isFingerExtended landmarks 2 ;;
        e1 <- isFingerExtended landmarks 1 ;;
        e3 <- isFingerExtended landmarks 3 ;;
        e4 <- isFingerExtended landmarks 4 ;;
        if e0 && e2 && negb e1 && negb e3 && negb e4 then
          Some (mkGesture zoom (lit 0.8)
                  (mkPoint ((lx thumbTip + lx middleTip) / lit 2)
                           ((ly thumbTip + ly middleTip) / lit 2))
                  (Some thumbMiddleDist))
        else if Nat.eqb extended 0 then
          l9 <- nth_error landmarks 9 ;;
          Some (mkGesture fist (lit 0.9) (mkPoint (lx l9) (ly l9)) None)
        else if Nat.leb 4 extended then
          l0 <- nth_error landmarks 0 ;;
          Some (mkGesture palm (lit 0.8) (mkPoint (lx l0) (ly l0)) None)
        else if Nat.eqb extended 1 && e1 then
          Some (mkGesture pinch (lit 0.7) (mkPoint (lx indexTip) (ly indexTip)) None)
        else Some noGesture
  end.

(* What [onResults] hands to [onHandPositionUpdate] for one detected hand:
   [Some p] is the position [p], [None] is [null]. *)
Definition handPosition (landmarks : list (Landmark num)) : option (option (Point num)) :=
  extended <- getExtendedFingerCount landmarks ;;
  thumbTip <- getFingerTip landmarks 0 ;;
  indexTip <- getFingerTip landmarks 1 ;;
  let thumbIndexDist := calculateDistance thumbTip indexTip in
  if (thumbIndexDist <? lit 0.06) && Nat.leb extended 1 then
    Some (Some (mkPoint ((lx thumbTip + lx indexTip) / lit 2)
                        ((ly thumbTip + ly indexTip) / lit 2)))
  else Some None.

End Inline.
End CameraView.

(** ** Predicates and maps used in the statements about the whole program *)

Section Statements.
Context {num : Type} {N : Number num}.
Local Open Scope num_scope.

(* A MediaPipe landmark as the keypoint [{x, y}] the TensorFlow detector reads. *)
Definition toPoint (p : Landmark num) : Point num := mkPoint (lx p) (ly p).

(* The [flippedScreenPoint] of lines 114-118 of [App.tsx]. *)
Definition flippedScreenPoint (w : Window num) (position : Point num) : Point num :=
  mkPoint ((lit 1 - px position) * innerWidth w) (py position * innerHeight w).

(* Completed strokes have 2 to 1000 points, the stroke in progress at most 1000. *)
Definition pathsBounded (s : DrawingState num) : Prop :=
  Forall (fun path => (2 <= length path <= 1000)%nat) (paths s)
  /\ (length (currentPath s) <= 1000)%nat.

(* A stroke in progress belongs to a drawing session, and a drawing session
   to a gesture of type pinch. *)
Definition drawingConsistent (app : App num) : Prop :=
  (currentPath (drawingState app) <> [] -> isDrawing (drawingState app) = true)
  /\ (isDrawing (drawingState app) = true ->
      lastGestureTypeRef (appRefs app) = Some pinch).

(* An updater that leaves the view and the pan and zoom modes alone. *)
Definition keepsView (u : Updater num) : Prop :=
  forall s, scale (u s) = scale s /\ offset (u s) = offset s
            /\ isPanning (u s) = isPanning s /\ isZooming (u s) = isZooming s.

(* Events of the drawing channel: gestures of type pinch and hand positions. *)
Definition drawingEvent (ev : Event num) : bool :=
  match ev with
  | GestureDetected g => GestureType_eqb (gtype g) pinch
  | HandPositionUpdate _ => true
  | ClearCanvas | ResetView => false
  end.

(* Events that carry no hand position. *)
Definition noPosition (ev : Event num) : bool :=
  match ev with
  | HandPositionUpdate (Some _) => false
  | _ => true
  end.

(* A palm gesture the panning block acts on (line 111). *)
Definition panGesture (g : GestureState num) : bool :=
  isType g palm && (confidence g >? lit 0.7).

(* [gesture.type === 'none'] *)
Definition isNone (g : GestureState num) : bool := GestureType_eqb (gtype g) none.

End Statements.

(* A run of zoom gestures the handler acts on (type zoom, confidence above
   0.7, distance present and positive) whose distances, from the baseline
   [last] on, never grow ([down]) or never shrink. *)
Fixpoint zoomRun (down : bool) (last : R) (gs : list (GestureState R)) : Prop :=
  match gs with
  | [] => True
  | g :: rest =>
      exists d, gtype g = zoom /\ distance g = Some d /\ (0.7 < confidence g)%R
                /\ (0 < d)%R /\ (if down then d <= last else last <= d)%R
                /\ zoomRun down d rest
  end.

(* Parameters for which the one-euro filter is a low-pass filter. *)
Definition lowPass (f : OneEuro.OneEuroFilter (num:=R)) : Prop :=
  (0 < OneEuro.minCutoff f /\ 0 <= OneEuro.beta f /\ 0 < OneEuro.dCutoff f
   /\ 0 < OneEuro.freq f)%R.

(* The estimate carried over, if any, lies in [lo, hi]. *)
Definition estimateIn (lo hi : R) (f : OneEuro.OneEuroFilter (num:=R)) : Prop :=
  match OneEuro.xHatPrev f with
  | Some h => (lo <= h <= hi)%R
  | None => True
  end.

(* What the brightness-and-motion detector can report: a pinch, a palm or
   nothing, never with a distance. *)
Definition simpleGesture (g : GestureState float) : Prop :=
  (gtype g = pinch \/ gtype g = palm \/ gtype g = none) /\ distance g = None.

(** * Concrete inputs *)

Section Inputs.
Context {num : Type} {N : Number num}.

Definition lm (x y : Q) : Landmark num := mkLandmark (lit x) (lit y) (lit 0).

(* All 21 landmarks at one place: a hand with no finger extended. *)
Definition closedHand : list (Landmark num) := repeat (lm 0.5 0.5) 21.

(* No finger extended, thumb tip (landmark 4) and index tip (landmark 8)
   0.3 apart. *)
Definition fistHand : list (Landmark num) :=
  repeat (lm 0.5 0.5) 4 ++ [lm 0.5 0.8] ++ repeat (lm 0.5 0.5) 16.

Definition pt (x y : Q) : Point num := mkPoint (lit x) (lit y).

Definition win : Window num := mkWindow (lit 640) (lit 480).

Definition gesture (t : GestureType) (c : Q) (p : Point num) : GestureState num :=
  mkGesture t (lit c) p None.

Definition zoomGesture (d : Q) : GestureState num :=
  mkGesture zoom (lit 0.8) (pt 0.5 0.5) (Some (lit d)).



(* After a first zoom gesture with thumb and middle tips 0.2 apart. *)
Definition zoomingApp : App num :=
  step win initialApp (GestureDetected (zoomGesture 0.2)).

(* A 1 x 1 viewport, identity view, one completed path with one point. *)
Definition unitWin : Window num := mkWindow (lit 1) (lit 1).

Definition onePath : DrawingState num :=
  mkDrawingState false false false false (lit 1) (pt 0 0) [] [[pt 50 0]].

(* A fist whose mirrored position projects to the canvas origin. *)
Definition fistAt : GestureState num := gesture fist 0.9 (pt 1 0).

(* Drawing, with one point emitted at the normalized position (0, 0). *)
Definition refsDrawn : Refs num :=
  mkRefs None None None (Some pinch) (Some (pt 0 0)) [].

Definition drawnOne : DrawingState num :=
  mkDrawingState true false false false (lit 1) (pt 0 0) [pt 1 0] [].

(* Zooming, the last distance between thumb and middle tips 0.2. *)
Definition zoomedApp : App num :=
  mkApp (mkDrawingState false false true false (lit 1) (pt 0 0) [] [])
        (mkRefs None (Some (lit 0.2)) None (Some zoom) None []).

(* All five fingers extended: the thumb tip 0.2 to the side of its base,
   the other tips 0.3 above theirs. *)
Definition openHand : list (Landmark num) :=
  [lm 0.5 0.5; lm 0.5 0.5; lm 0.5 0.5; lm 0.55 0.5; lm 0.7 0.5;
   lm 0.5 0.5; lm 0.5 0.4; lm 0.5 0.5; lm 0.5 0.2;
   lm 0.5 0.5; lm 0.5 0.4; lm 0.5 0.5; lm 0.5 0.2;
   lm 0.5 0.5; lm 0.5 0.4; lm 0.5 0.5; lm 0.5 0.2;
   lm 0.5 0.5; lm 0.5 0.4; lm 0.5 0.5; lm 0.5 0.2].

(* Panning, the palm last seen at the screen point (100, 100). *)
Definition panningApp : App num :=
  mkApp (mkDrawingState false true false false (lit 1) (pt 0 0) [] [])
        (mkRefs None None (Some (pt 100 100)) (Some palm) None []).

(* The options object [{}]: every default applies. *)
Definition defaultOptions : OneEuro.OneEuroFilter2DOptions (num:=num) :=
  OneEuro.mkOptions None None None None.

(* A filter with the default parameters whose previous estimate is 0.5. *)
Definition warmFilter : OneEuro.OneEuroFilter (num:=num) :=
  OneEuro.mkFilter (lit 1) (lit 0) (lit 1) (lit 60)
                   (Some (lit 0)) (Some (lit 0.5)) (lit 0) (Some (lit 0.5)) (lit 0).

End Inputs.

(** * Properties *)

(** ** The classifier, for every model of numbers *)

Section ClassifierFacts.
Context {num : Type} {N : Number num}.
Local Open Scope num_scope.

Ltac split21 l H :=
  do 21 (destruct l as [|? l]; [discriminate H|]);
  destruct l; [clear H|discriminate H].

Lemma length21_nth_error (l : list (Landmark num)) (i : nat) :
  length l = 21%nat -> (i < 21)%nat -> exists a, nth_error l i = Some a.
Proof.
  intros H Hi.
  destruct (nth_error l i) eqn:E; [eauto|].
  apply nth_error_None in E. lia.
Qed.

Lemma getFingerTip_eq (l : list (Landmark num)) :
  getFingerTip l 0 = nth_error l 4 /\ getFingerTip l 1 = nth_error l 8
  /\ getFingerTip l 2 = nth_error l 12.
Proof. repeat split. Qed.

Lemma isFingerExtended_total (l : list (Landmark num)) (f : nat) :
  length l = 21%nat -> (f < 5)%nat -> exists b, isFingerExtended l f = Some b.
Proof.
  intros H Hf. split21 l H.
  do 5 (destruct f as [|f]; [cbn; eauto|]). lia.
Qed.

Lemma getExtendedFingerCount_total (l : list (Landmark num)) :
  length l = 21%nat -> exists n, getExtendedFingerCount l = Some n.
Proof.
  intros H. unfold getExtendedFingerCount. cbn [filterM].
  destruct (isFingerExtended_total l (f:=0) H) as [b0 ->]; [lia|].
  destruct (isFingerExtended_total l (f:=1) H) as [b1 ->]; [lia|].
  destruct (isFingerExtended_total l (f:=2) H) as [b2 ->]; [lia|].
  destruct (isFingerExtended_total l (f:=3) H) as [b3 ->]; [lia|].
  destruct (isFingerExtended_total l (f:=4) H) as [b4 ->]; [lia|].
  eauto.
Qed.

Lemma getExtendedFingerCount_none_extended (l : list (Landmark num)) :
  (forall f, (f < 5)%nat -> isFingerExtended l f = Some false) ->
  getExtendedFingerCount l = Some 0%nat.
Proof.
  intros H. unfold getExtendedFingerCount. cbn [filterM].
  rewrite !H by lia. reflexivity.
Qed.

(* The classifier never throws. *)
Lemma detectGesture_total (landmarks : option (list (Landmark num))) :
  exists g, detectGesture landmarks = Some g.
Proof.
  destruct landmarks as [l|]; [|cbn; eauto].
  unfold detectGesture.
  destruct (Nat.eqb (length l) 21) eqn:E; cbn [negb]; [|eauto].
  apply Nat.eqb_eq in E.
  destruct (length21_nth_error l (i:=9) E) as [l9 E9]; [lia|].
  destruct (getExtendedFingerCount_total l E) as [n ->].
  destruct (isFingerExtended_total l (f:=0) E) as [b0 ->]; [lia|].
  destruct (isFingerExtended_total l (f:=1) E) as [b1 ->]; [lia|].
  destruct (isFingerExtended_total l (f:=2) E) as [b2 ->]; [lia|].
  destruct (isFingerExtended_total l (f:=3) E) as [b3 ->]; [lia|].
  destruct (isFingerExtended_total l (f:=4) E) as [b4 ->]; [lia|].
  rewrite E9. destruct (getFingerTip_eq l) as (-> & -> & ->).
  destruct (length21_nth_error l (i:=4) E) as [t ->]; [lia|].
  destruct (length21_nth_error l (i:=8) E) as [i ->]; [lia|].
  destruct (length21_nth_error l (i:=12) E) as [m ->]; [lia|].
  repeat match goal with |- context [if ?c then _ else _] => destruct c end; eauto.
Qed.

(* Every confidence the classifier reports is a constant of the source or
   the pinch formula at a thumb-to-index distance. *)
Lemma detectGesture_confidence (landmarks : option (list (Landmark num)))
    (g : GestureState num) :
  detectGesture landmarks = Some g ->
  confidence g = lit 0 \/ confidence g = lit 0.4 \/ confidence g = lit 0.8
  \/ confidence g = lit 0.9
  \/ exists t i, confidence g = pinchConfidence (calculateDistance t i).
Proof.
  destruct landmarks as [l|]; [|cbn; intros [= <-]; auto].
  unfold detectGesture.
  destruct (Nat.eqb (length l) 21); cbn [negb]; [|intros [= <-]; auto].
  destruct (getFingerTip l 0) as [t|]; [|discriminate].
  destruct (getFingerTip l 1) as [i|]; [|discriminate].
  destruct (getFingerTip l 2) as [m|]; [|discriminate].
  destruct (getExtendedFingerCount l) as [n|]; [|discriminate].
  destruct (_ && _).
  { intros [= <-]. cbn. do 4 right. eauto. }
  destruct (isFingerExtended l 0) as [b0|]; [|discriminate].
  destruct (isFingerExtended l 2) as [b2|]; [|discriminate].
  destruct (isFingerExtended l 1) as [b1|]; [|discriminate].
  destruct (isFingerExtended l 3) as [b3|]; [|discriminate].
  destruct (isFingerExtended l 4) as [b4|]; [|discriminate].
  destruct (nth_error l 9) as [l9|].
  - repeat match goal with |- context [if ?c then _ else _] => destruct c end;
      intros [= <-]; cbn; auto 6.
  - repeat match goal with |- context [if ?c then _ else _] => destruct c end;
      try discriminate; intros [= <-]; cbn; auto 6.
Qed.

(* What the classifier answers for a hand with no finger extended: the
   pinch test comes first. *)
Lemma detectGesture_none_extended (l : list (Landmark num)) (t i l9 : Landmark num) :
  length l = 21%nat ->
  (forall f, (f < 5)%nat -> isFingerExtended l f = Some false) ->
  nth_error l 4 = Some t -> nth_error l 8 = Some i -> nth_error l 9 = Some l9 ->
  detectGesture (Some l) =
    Some (if calculateDistance t i <? lit 0.04
          then mkGesture pinch (pinchConfidence (calculateDistance t i))
                 (mkPoint ((lx t + lx i) / lit 2) ((ly t + ly i) / lit 2)) None
          else mkGesture fist (lit 0.9) (mkPoint (lx l9) (ly l9)) None).
Proof.
  intros Hlen Hext Ht Hi H9.
  unfold detectGesture. rewrite Hlen. cbn [Nat.eqb negb].
  destruct (getFingerTip_eq l) as (-> & -> & ->). rewrite Ht, Hi.
  destruct (length21_nth_error l (i:=12) Hlen) as [m ->]; [lia|].
  rewrite (getExtendedFingerCount_none_extended l Hext).
  cbn [Nat.leb Nat.eqb]. rewrite andb_true_r.
  destruct (calculateDistance t i <? lit 0.04); [reflexivity|].
  rewrite !Hext by lia. cbn [andb negb]. rewrite H9. reflexivity.
Qed.

(** C1.  For an absent landmark array and for every landmark array whose
    length is not 21 (the empty one included), [detectGesture] returns
    [{type: 'none', confidence: 0, position: {x: 0, y: 0}}]; it does not
    throw. *)
Theorem detectGesture_malformed (landmarks : option (list (Landmark num))) :
  (forall l, landmarks = Some l -> length l <> 21%nat) ->
  detectGesture landmarks = Some (mkGesture none (lit 0) (mkPoint (lit 0) (lit 0)) None).
Proof.
  intros H. destruct landmarks as [l|]; [|reflexivity].
  unfold detectGesture.
  destruct (Nat.eqb (length l) 21) eqn:E; [|reflexivity].
  apply Nat.eqb_eq in E. exfalso. exact (H l eq_refl E).
Qed.

End ClassifierFacts.

Lemma detectGesture_malformed_witness :
  detectGesture (Some (@nil (Landmark float)))
    = Some (mkGesture none (lit 0) (mkPoint (lit 0) (lit 0)) None)
  /\ detectGesture (Some (lm (num:=float) 0.5 0.5 :: closedHand))
    = Some (mkGesture none (lit 0) (mkPoint (lit 0) (lit 0)) None).
Proof.
  split; apply detectGesture_malformed; intros l [= <-]; discriminate.
Defined.

(** ** Exact arithmetic: the real-number instance *)

Local Open Scope R_scope.

Lemma Real_ltb_true (a b : R) : Real.ltb a b = true <-> a < b.
Proof.
  unfold Real.ltb. destruct (Rlt_dec a b); split; auto; discriminate.
Qed.

Lemma Real_ltb_false (a b : R) : Real.ltb a b = false <-> b <= a.
Proof.
  unfold Real.ltb. destruct (Rlt_dec a b); split; auto; try discriminate; lra.
Qed.

Lemma Real_eqb_true (a b : R) : Real.eqb a b = true <-> a = b.
Proof.
  unfold Real.eqb. destruct (Req_dec_T a b); split; auto; discriminate.
Qed.

Lemma Real_truthy_true (a : R) : Real.truthy a = true <-> a <> 0.
Proof.
  unfold Real.truthy, Real.eqb.
  destruct (Req_dec_T a 0); cbn; split; intros; try discriminate;
    try contradiction; auto.
Qed.

(* On binary64 a truthy number is neither a zero nor NaN. *)
Lemma F64_truthy_true (a : float) :
  F64.truthy a = true <-> PrimFloat.eqb a PrimFloat.zero = false /\ is_nan a = false.
Proof.
  unfold F64.truthy.
  destruct (PrimFloat.eqb a PrimFloat.zero), (is_nan a); cbn; intuition congruence.
Qed.

Lemma Q2R_int (z : Z) : Q2R (z # 1) = IZR z.
Proof. unfold Q2R; cbn. rewrite Rinv_1. ring. Qed.

(* Linear goals over the real instance, literals and [Math.abs] included. *)
Ltac rsolve :=
  cbn [lit R_Number nadd nsub nmul ndiv Math_abs lx ly lz px py];
  unfold Rabs; repeat destruct (Rcase_abs _); lra.

Ltac finger_false :=
  cbv [isFingerExtended getFingerTip getFingerPip getFingerMcp fingerTips
       fingerPips fingerMcps nth_error closedHand fistHand app repeat lm Nat.eqb];
  f_equal; apply Real_ltb_false; rsolve.

Section RealFacts.

Lemma calculateDistance_nonneg (p q : Landmark R) : 0 <= calculateDistance p q.
Proof. apply sqrt_pos. Qed.

Lemma pointDistance_nonneg (p q : Point R) : 0 <= pointDistance p q.
Proof. apply sqrt_pos. Qed.

Lemma pinchConfidence_bounds (d : R) : 0 <= d -> 0.4 <= pinchConfidence d <= 1.
Proof.
  intros Hd. unfold pinchConfidence. cbn [lit Math_max nsub nmul R_Number].
  split; [apply Rmax_l|apply Rmax_lub; lra].
Qed.

Lemma closedHand_not_extended (f : nat) :
  (f < 5)%nat -> isFingerExtended (closedHand (num:=R)) f = Some false.
Proof.
  intros Hf. destruct f as [|[|[|[|[|f]]]]]; [finger_false..|lia].
Qed.

Lemma fistHand_not_extended (f : nat) :
  (f < 5)%nat -> isFingerExtended (fistHand (num:=R)) f = Some false.
Proof.
  intros Hf. destruct f as [|[|[|[|[|f]]]]]; [finger_false..|lia].
Qed.

Lemma closedHand_tips_distance :
  calculateDistance (lm (num:=R) 0.5 0.5) (lm 0.5 0.5) = 0.
Proof.
  unfold calculateDistance, pow2, lm.
  cbn [lit R_Number nadd nsub nmul Math_sqrt lx ly].
  replace ((0.5 - 0.5) * (0.5 - 0.5) + (0.5 - 0.5) * (0.5 - 0.5)) with 0 by lra.
  apply sqrt_0.
Qed.

Lemma fistHand_tips_distance :
  calculateDistance (lm (num:=R) 0.5 0.8) (lm 0.5 0.5) = 0.3.
Proof.
  unfold calculateDistance, pow2, lm.
  cbn [lit R_Number nadd nsub nmul Math_sqrt lx ly].
  replace ((0.5 - 0.5) * (0.5 - 0.5) + (0.8 - 0.5) * (0.8 - 0.5)) with (0.3 * 0.3) by lra.
  apply sqrt_square. lra.
Qed.

(** C2, as stated, fails: the hand [closedHand] has 21 landmarks and no
    finger extended, yet it is classified [pinch] with confidence 1, because
    its thumb and index tips are closer than 0.04 and the pinch test is the
    first of the chain. *)
Lemma closed_hand_is_pinch :
  length (closedHand (num:=R)) = 21%nat /\
  (forall f, (f < 5)%nat -> isFingerExtended (closedHand (num:=R)) f = Some false) /\
  detectGesture (Some (closedHand (num:=R)))
    = Some (mkGesture pinch 1 (mkPoint 0.5 0.5) None).
Proof.
  split; [reflexivity|]. split; [exact closedHand_not_extended|].
  rewrite (@detectGesture_none_extended R _ closedHand
             (lm 0.5 0.5) (lm 0.5 0.5) (lm 0.5 0.5) eq_refl
             closedHand_not_extended eq_refl eq_refl eq_refl).
  rewrite closedHand_tips_distance.
  assert (E : nltb (0 : R) (lit 0.04) = true) by (apply Real_ltb_true; rsolve).
  rewrite E. unfold pinchConfidence, lm.
  cbn [lit R_Number nadd nsub nmul ndiv Math_max lx ly].
  do 2 f_equal.
  - rewrite Rmax_right by lra. lra.
  - f_equal; lra.
Qed.

(** C2, amended.  For every 21-landmark hand in which no finger is extended
    and whose thumb-tip-to-index-tip distance is at least 0.04,
    [detectGesture] returns type [fist] with confidence 0.9 and position
    landmark 9. *)
Theorem closed_hand_fist (l : list (Landmark R)) (t i l9 : Landmark R) :
  length l = 21%nat ->
  (forall f, (f < 5)%nat -> isFingerExtended l f = Some false) ->
  nth_error l 4 = Some t -> nth_error l 8 = Some i -> nth_error l 9 = Some l9 ->
  0.04 <= calculateDistance t i ->
  detectGesture (Some l) = Some (mkGesture fist 0.9 (mkPoint (lx l9) (ly l9)) None).
Proof.
  intros Hlen Hext Ht Hi H9 Hd.
  rewrite (detectGesture_none_extended l Hlen Hext Ht Hi H9).
  apply Real_ltb_false in Hd.
  cbn [nltb lit R_Number]. rewrite Hd. reflexivity.
Qed.

Lemma closed_hand_fist_witness :
  detectGesture (Some (fistHand (num:=R)))
    = Some (mkGesture fist 0.9 (mkPoint 0.5 0.5) None).
Proof.
  change (mkPoint (num:=R) 0.5 0.5)
    with (mkPoint (lx (lm (num:=R) 0.5 0.5)) (ly (lm (num:=R) 0.5 0.5))).
  apply (@closed_hand_fist fistHand (lm 0.5 0.8) (lm 0.5 0.5) (lm 0.5 0.5)).
  - reflexivity.
  - exact fistHand_not_extended.
  - reflexivity.
  - reflexivity.
  - reflexivity.
  - rewrite fistHand_tips_distance. lra.
Defined.

(** C9.  Whatever the landmark array, [detectGesture] returns a gesture and
    its confidence lies in [0, 1]; the pinch confidence
    [Math.max(0.4, 1 - d * 15)] lies in [0.4, 1] for every distance
    [d >= 0]. *)
Theorem detectGesture_confidence_unit (landmarks : option (list (Landmark R))) :
  (exists g, detectGesture landmarks = Some g /\ 0 <= confidence g <= 1) /\
  (forall d : R, 0 <= d -> 0.4 <= pinchConfidence d <= 1).
Proof.
  split; [|exact pinchConfidence_bounds].
  destruct (detectGesture_total landmarks) as [g Hg].
  exists g. split; [exact Hg|].
  destruct (detectGesture_confidence _ Hg) as [E|[E|[E|[E|(t & i & E)]]]];
    rewrite E; try (cbn [lit R_Number]; lra).
  pose proof (pinchConfidence_bounds (calculateDistance_nonneg t i)). lra.
Qed.

End RealFacts.

(** ** The reducer, for every model of numbers *)

Section ReducerFacts.
Context {num : Type} {N : Number num}.
Local Open Scope num_scope.

Lemma GestureType_eqb_eq (a b : GestureType) : GestureType_eqb a b = true <-> a = b.
Proof. destruct a, b; cbn; split; congruence. Qed.


Lemma runUpdaters_app (us vs : list (Updater num)) (s : DrawingState num) :
  runUpdaters (us ++ vs) s = runUpdaters vs (runUpdaters us s).
Proof. apply fold_left_app. Qed.

(* The updaters the handler queues are those of its four blocks, in order. *)
Lemma handleGestureDetected_updaters (w : Window num) (ds : DrawingState num)
    (refs : Refs num) (g : GestureState num) :
  exists r2 r3 r4,
    snd (handleGestureDetected w ds refs g)
    = snd (drawingChannel ds refs g) ++ snd (panningChannel w ds r2 g)
      ++ snd (zoomChannel ds r3 g) ++ snd (eraseChannel w ds r4 g)
    /\ lastZoomDistanceRef r3 = lastZoomDistanceRef refs.
Proof.
  unfold handleGestureDetected.
  destruct (drawingChannel ds refs g) as [r1 u1] eqn:E1.
  assert (H1 : lastZoomDistanceRef r1 = lastZoomDistanceRef refs).
  { unfold drawingChannel in E1.
    repeat match type of E1 with context [if ?c then _ else _] => destruct c end;
      injection E1 as <- _; reflexivity. }
  set (r2 := if isType g none then _ else _).
  assert (H2 : lastZoomDistanceRef r2 = lastZoomDistanceRef refs)
    by (subst r2; destruct (isType g none); exact H1).
  destruct (panningChannel w ds r2 g) as [r3 u3] eqn:E3.
  assert (H3 : lastZoomDistanceRef r3 = lastZoomDistanceRef refs).
  { unfold panningChannel in E3.
    repeat match type of E3 with
           | context [if ?c then _ else _] => destruct c
           | context [match panStartRef ?r with _ => _ end] => destruct (panStartRef r)
           end; injection E3 as <- _; exact H2. }
  destruct (zoomChannel ds r3 g) as [r4 u4] eqn:E4.
  destruct (eraseChannel w ds r4 g) as [r5 u5] eqn:E5.
  exists r2, r3, r4. rewrite E3, E4, E5. split; [reflexivity|exact H3].
Qed.

(** *** What an updater leaves alone *)

Lemma runUpdaters_keepsStroke (us : list (Updater num)) (s : DrawingState num) :
  Forall keepsStroke us ->
  currentPath (runUpdaters us s) = currentPath s
  /\ isDrawing (runUpdaters us s) = isDrawing s.
Proof.
  intros H. revert s. induction H as [|u us Hu _ IH]; intros s; [auto|].
  change (runUpdaters (u :: us) s) with (runUpdaters us (u s)).
  destruct (IH (u s)) as [-> ->]. apply Hu.
Qed.


Lemma panningChannel_keeps (w : Window num) ds refs g :
  Forall keepsStroke (snd (panningChannel w ds refs g))
  /\ Forall keepsPaths (snd (panningChannel w ds refs g)).
Proof.
  unfold panningChannel.
  repeat match goal with
         | |- context [if ?c then _ else _] => destruct c
         | |- context [match panStartRef ?r with _ => _ end] => destruct (panStartRef r)
         end; cbn; split; repeat constructor.
Qed.

Lemma zoomChannel_keeps ds refs g :
  Forall keepsStroke (snd (zoomChannel ds refs g))
  /\ Forall keepsPaths (snd (zoomChannel ds refs g)).
Proof.
  unfold zoomChannel. destruct (zoomAction ds refs g); cbn; split; repeat constructor.
Qed.

Lemma eraseChannel_keepsStroke (w : Window num) ds refs g :
  Forall keepsStroke (snd (eraseChannel w ds refs g)).
Proof.
  unfold eraseChannel.
  repeat match goal with |- context [if ?c then _ else _] => destruct c end;
    cbn; repeat constructor.
Qed.



(** *** The zoom baseline *)

Lemma zoomAction_start ds refs g d :
  zoomAction ds refs g = ZoomStart d -> truthy d = true.
Proof.
  unfold zoomAction.
  destruct (isType g zoom); [destruct (distance g) as [d'|]|];
    try (destruct (truthy d' && _) eqn:T);
    repeat match goal with
           | |- context [if ?c then _ else _] => destruct c
           | |- context [match lastZoomDistanceRef ?r with _ => _ end] =>
               destruct (lastZoomDistanceRef r)
           end; try discriminate.
  intros [= <-]. apply andb_prop in T. tauto.
Qed.

Lemma zoomAction_scale ds refs g d last :
  zoomAction ds refs g = ZoomScale d last ->
  truthy d = true /\ truthy last = true /\ lastZoomDistanceRef refs = Some last
  /\ gtype g = zoom /\ distance g = Some d.
Proof.
  unfold zoomAction, isType.
  destruct (GestureType_eqb (gtype g) zoom) eqn:Tz;
    [destruct (distance g) as [d'|]|];
    try (destruct (truthy d' && _) eqn:T);
    try (destruct (negb (isZooming ds)));
    try (destruct (lastZoomDistanceRef refs) as [l|]);
    try (destruct (truthy l) eqn:Tl);
    try (destruct (isZooming ds && _));
    try discriminate.
  intros [= <- <-]. apply andb_prop in T. apply GestureType_eqb_eq in Tz.
  tauto.
Qed.

Lemma zoomChannel_refs ds refs g :
  zoomRefOk refs -> zoomRefOk (fst (zoomChannel ds refs g)).
Proof.
  intros H. unfold zoomChannel.
  destruct (zoomAction ds refs g) eqn:E; cbn; auto.
  - exact (zoomAction_start _ _ _ E).
  - exact (proj1 (zoomAction_scale _ _ _ E)).
Qed.

Lemma handleGestureDetected_refs (w : Window num) ds refs g :
  zoomRefOk refs -> zoomRefOk (fst (handleGestureDetected w ds refs g)).
Proof.
  intros H. unfold handleGestureDetected.
  destruct (drawingChannel ds refs g) as [r1 u1] eqn:E1.
  assert (H1 : zoomRefOk r1).
  { unfold drawingChannel in E1.
    repeat match type of E1 with context [if ?c then _ else _] => destruct c end;
      injection E1 as <- _; exact H. }
  set (r2 := if isType g none then _ else _).
  assert (H2 : zoomRefOk r2) by (subst r2; destruct (isType g none); exact H1).
  destruct (panningChannel w ds r2 g) as [r3 u3] eqn:E3.
  assert (H3 : zoomRefOk r3).
  { unfold panningChannel in E3.
    repeat match type of E3 with
           | context [if ?c then _ else _] => destruct c
           | context [match panStartRef ?r with _ => _ end] => destruct (panStartRef r)
           end; injection E3 as <- _; exact H2. }
  pose proof (@zoomChannel_refs ds r3 g H3) as H4.
  destruct (zoomChannel ds r3 g) as [r4 u4].
  destruct (eraseChannel w ds r4 g) as [r5 u5] eqn:E5.
  assert (H5 : zoomRefOk r5).
  { unfold eraseChannel in E5.
    repeat match type of E5 with context [if ?c then _ else _] => destruct c end;
      injection E5 as <- _; exact H4. }
  exact H5.
Qed.

Lemma handleHandPositionUpdate_refs (w : Window num) ds refs position prev :
  zoomRefOk refs -> zoomRefOk (fst (handleHandPositionUpdate w ds refs position prev)).
Proof.
  intros H. unfold handleHandPositionUpdate, appendPoint.
  repeat match goal with
         | |- context [match ?x with _ => _ end] => destruct x
         end; exact H.
Qed.

Lemma reachable_zoomRefOk (app : App num) : reachable app -> zoomRefOk (appRefs app).
Proof.
  induction 1 as [|w app ev _ IH|app s _ IH]; [exact I| |exact IH].
  destruct ev as [g|position| |]; cbn [step]; try exact IH.
  - pose proof (@handleGestureDetected_refs w (drawingState app) _ g IH) as H.
    destruct (handleGestureDetected _ _ _ _). exact H.
  - pose proof (@handleHandPositionUpdate_refs w (drawingState app) _ position
                  (drawingState app) IH) as H.
    destruct (handleHandPositionUpdate _ _ _ _ _). exact H.
Qed.

(** C10.  In every reachable state the recorded zoom baseline is absent or
    truthy (neither 0 nor NaN), and whenever the zoom block takes the
    scale-multiplying branch, which divides the gesture's distance [d] by
    the baseline [last], that [last] is the recorded baseline and is
    truthy, as is [d], which becomes the next baseline. *)
Theorem zoom_divisor_nonzero (app : App num) :
  reachable app ->
  zoomRefOk (appRefs app)
  /\ forall g d last,
       zoomAction (drawingState app) (appRefs app) g = ZoomScale d last ->
       lastZoomDistanceRef (appRefs app) = Some last
       /\ truthy last = true /\ truthy d = true.
Proof.
  intros H. split; [exact (reachable_zoomRefOk H)|].
  intros g d last E. apply zoomAction_scale in E. tauto.
Qed.

End ReducerFacts.

(** *** The two theorems above at concrete binary64 inputs *)



Lemma zoom_divisor_nonzero_witness :
  reachable (zoomingApp (num:=float))
  /\ zoomAction (drawingState zoomingApp) (appRefs zoomingApp) (zoomGesture 0.3)
     = ZoomScale (lit (num:=float) 0.3) (lit 0.2)
  /\ truthy (lit (num:=float) 0.2) = true.
Proof.
  assert (R : reachable (zoomingApp (num:=float)))
    by (apply reachable_step, reachable_initial).
  assert (E : zoomAction (drawingState zoomingApp) (appRefs zoomingApp)
                (zoomGesture (num:=float) 0.3)
              = ZoomScale (lit 0.3) (lit 0.2)) by (vm_compute; reflexivity).
  destruct (zoom_divisor_nonzero R) as [_ H].
  destruct (H _ _ _ E) as (_ & T & _).
  repeat split; assumption.
Defined.

(** ** Erasing and stroke extension, for every model of numbers *)

Section EraseFacts.
Context {num : Type} {N : Number num}.
Local Open Scope num_scope.

(* The paths that survive [erasePaths] are the paths none of whose points
   passes the test [distance < eraseRadius]. *)
Lemma erasePaths_In (c : Point num) (r : num) (s : DrawingState num)
    (path : list (Point num)) :
  In path (paths (erasePaths c r s)) <->
  In path (paths s)
  /\ forall point, In point path -> (pointDistance point c <? r) = false.
Proof.
  unfold erasePaths. cbn [paths]. rewrite filter_In, negb_true_iff.
  split; intros [H1 H2]; split; auto.
  - intros point Hp. destruct (pointDistance point c <? r) eqn:E; [|reflexivity].
    assert (X : existsb (fun point => pointDistance point c <? r) path = true)
      by (apply existsb_exists; eauto).
    congruence.
  - destruct (existsb _ path) eqn:E; [|reflexivity].
    apply existsb_exists in E. destruct E as (point & Hp & E).
    rewrite (H2 point Hp) in E. discriminate.
Qed.

(* An erasing fist queues [erasePaths] last. *)
Lemma handleGestureDetected_erase (w : Window num) (ds : DrawingState num)
    (refs : Refs num) (g : GestureState num) :
  isType g fist && (confidence g >? lit 0.8) = true ->
  exists before,
    snd (handleGestureDetected w ds refs g)
    = before ++ [erasePaths (screenToCanvas w ds (flipped (position g)))
                            (lit 50 / scale ds)].
Proof.
  intros H.
  destruct (handleGestureDetected_updaters w ds refs g) as (r2 & r3 & r4 & E & _).
  rewrite E. unfold eraseChannel at 1. rewrite H. cbn [snd].
  rewrite !app_assoc. eexists. reflexivity.
Qed.

(* The two outcomes of a position update while the last gesture was a
   pinch and a point has been emitted before. *)
Lemma handleHandPositionUpdate_pinch (w : Window num) (ds : DrawingState num)
    (refs : Refs num) (p q : Point num) (prev : DrawingState num) :
  lastGestureTypeRef refs = Some pinch ->
  lastDrawPositionRef refs = Some q ->
  let smoothed := smoothedPosition (pushHistory (positionHistoryRef refs) p) in
  let canvasPoint := screenToCanvas w ds (flipped smoothed) in
  let s' := snd (handleHandPositionUpdate w ds refs (Some p) prev) in
  ((pointDistance smoothed q <? MIN_DISTANCE_THRESHOLD) = true /\ s' = prev)
  \/ ((pointDistance smoothed q <? MIN_DISTANCE_THRESHOLD) = false
      /\ (s' = prev \/ currentPath s' = currentPath prev ++ [canvasPoint])).
Proof.
  intros Hg Hq smoothed canvasPoint s'. subst s'.
  unfold handleHandPositionUpdate. rewrite Hg.
  cbn [positionHistoryRef lastDrawPositionRef set_positionHistoryRef].
  rewrite Hq. cbn [tooClose]. fold smoothed.
  destruct (pointDistance smoothed q <? MIN_DISTANCE_THRESHOLD); [left; auto|].
  right. split; [reflexivity|]. fold canvasPoint.
  unfold appendPoint.
  destruct (currentPath prev) as [|p0 rest] eqn:Ec; [right; reflexivity|].
  destruct (_ && _); [right|left]; reflexivity.
Qed.

End EraseFacts.

(** ** The scale, for every model of numbers *)

Section ScaleFacts.
Context {num : Type} {N : Number num}.
Local Open Scope num_scope.

Lemma zoomAction_ext (ds : DrawingState num) (r r' : Refs num) (g : GestureState num) :
  lastZoomDistanceRef r = lastZoomDistanceRef r' -> zoomAction ds r g = zoomAction ds r' g.
Proof. intros H. unfold zoomAction. rewrite H. reflexivity. Qed.

Lemma runUpdaters_keepsScale (us : list (Updater num)) (s : DrawingState num) :
  Forall keepsScale us -> scale (runUpdaters us s) = scale s.
Proof.
  intros H. revert s. induction H as [|u us Hu _ IH]; intros s; [auto|].
  change (runUpdaters (u :: us) s) with (runUpdaters us (u s)).
  rewrite IH. apply Hu.
Qed.

Lemma drawingChannel_keepsScale ds refs g :
  Forall keepsScale (snd (drawingChannel ds refs g)).
Proof.
  unfold drawingChannel.
  repeat match goal with |- context [if ?c then _ else _] => destruct c end;
    cbn [snd]; repeat constructor.
  intros s. unfold finishStroke. destruct (Nat.ltb _ _); reflexivity.
Qed.

Lemma panningChannel_keepsScale (w : Window num) ds refs g :
  Forall keepsScale (snd (panningChannel w ds refs g)).
Proof.
  unfold panningChannel.
  repeat match goal with
         | |- context [if ?c then _ else _] => destruct c
         | |- context [match panStartRef ?r with _ => _ end] => destruct (panStartRef r)
         end; cbn; repeat constructor.
Qed.

Lemma eraseChannel_keepsScale (w : Window num) ds refs g :
  Forall keepsScale (snd (eraseChannel w ds refs g)).
Proof.
  unfold eraseChannel.
  repeat match goal with |- context [if ?c then _ else _] => destruct c end;
    cbn; repeat constructor.
Qed.

(* The only update of [scale] in [handleGestureDetected] is the clamped one. *)
Lemma handleGestureDetected_scale_updaters (w : Window num) ds refs g :
  Forall (fun u => keepsScale u \/ exists x, u = setScale (clampScale x))
         (snd (handleGestureDetected w ds refs g)).
Proof.
  destruct (handleGestureDetected_updaters w ds refs g) as (r2 & r3 & r4 & -> & _).
  rewrite !Forall_app. repeat split.
  - eapply Forall_impl; [|apply drawingChannel_keepsScale]. auto.
  - eapply Forall_impl; [|apply panningChannel_keepsScale]. auto.
  - unfold zoomChannel.
    destruct (zoomAction ds r3 g); cbn [snd];
      try (apply Forall_cons; [|apply Forall_nil]); try apply Forall_nil.
    + left. intros s. reflexivity.
    + right. eexists. reflexivity.
    + left. intros s. reflexivity.
  - eapply Forall_impl; [|apply eraseChannel_keepsScale]. auto.
Qed.

(* On the scale-multiplying branch the handler leaves the clamped product. *)
Lemma handleGestureDetected_zoom_scale (w : Window num) ds refs g d last prev :
  zoomAction ds refs g = ZoomScale d last ->
  scale (runUpdaters (snd (handleGestureDetected w ds refs g)) prev)
  = clampScale (scale ds * (d / last)).
Proof.
  intros E.
  destruct (handleGestureDetected_updaters w ds refs g) as (r2 & r3 & r4 & -> & H3).
  rewrite <- (@zoomAction_ext ds r3 refs g H3) in E.
  unfold zoomChannel at 1. rewrite E. cbn [snd].
  rewrite !runUpdaters_app.
  rewrite (runUpdaters_keepsScale _ (eraseChannel_keepsScale w ds r4 g)).
  reflexivity.
Qed.

Lemma handleHandPositionUpdate_scale (w : Window num) ds refs position prev :
  scale (snd (handleHandPositionUpdate w ds refs position prev)) = scale prev.
Proof.
  unfold handleHandPositionUpdate, appendPoint.
  repeat match goal with
         | |- context [match ?x with _ => _ end] => destruct x
         end; reflexivity.
Qed.

End ScaleFacts.

(** ** The reducer over exact arithmetic *)

Section RealReducerFacts.

Lemma Real_eqb_false (a b : R) : Real.eqb a b = false <-> a <> b.
Proof.
  unfold Real.eqb. destruct (Req_dec_T a b); split; auto; try discriminate.
  contradiction.
Qed.

Lemma pointDistance_horizontal (a b c d : R) :
  b = d -> c <= a -> pointDistance (mkPoint a b) (mkPoint c d) = a - c.
Proof.
  intros -> H. unfold pointDistance, pow2.
  cbn [px py nadd nsub nmul Math_sqrt R_Number].
  replace ((a - c) * (a - c) + (d - d) * (d - d)) with ((a - c) * (a - c)) by ring.
  apply sqrt_square. lra.
Qed.

(** *** Zooming *)

Lemma clamp_range (x : R) : 0.1 <= clampScale x <= 5.
Proof.
  unfold clampScale. cbn [lit Math_max Math_min R_Number].
  split; [apply Rmax_l|]. apply Rmax_lub; [lra|]. rewrite Q2R_int. apply Rmin_l.
Qed.

Lemma clamp_cases (x : R) :
  (x <= 0.1 -> clampScale x = 0.1)
  /\ (5 <= x -> clampScale x = 5)
  /\ (0.1 <= x <= 5 -> clampScale x = x).
Proof.
  unfold clampScale. cbn [lit Math_max Math_min R_Number]. rewrite Q2R_int.
  repeat split; intros H.
  - rewrite Rmin_right by lra. apply Rmax_left. lra.
  - rewrite Rmin_left by lra. apply Rmax_right. lra.
  - rewrite Rmin_right by lra. apply Rmax_right. lra.
Qed.

Lemma runUpdaters_scale_range (us : list (Updater R)) (s : DrawingState R) :
  Forall (fun u => keepsScale u \/ exists x, u = setScale (clampScale x)) us ->
  0.1 <= scale s <= 5 -> 0.1 <= scale (runUpdaters us s) <= 5.
Proof.
  intros H. revert s. induction H as [|u us Hu _ IH]; intros s Hs; [exact Hs|].
  change (runUpdaters (u :: us) s) with (runUpdaters us (u s)).
  apply IH. destruct Hu as [K|[x ->]].
  - rewrite K. exact Hs.
  - cbn [setScale scale]. apply clamp_range.
Qed.

Lemma step_scale_range (w : Window R) (app : App R) (ev : Event R) :
  0.1 <= scale (drawingState app) <= 5 ->
  0.1 <= scale (drawingState (step w app ev)) <= 5.
Proof.
  intros H. destruct ev as [g|position| |]; cbn [step].
  - pose proof (handleGestureDetected_scale_updaters w (drawingState app)
                  (appRefs app) g) as F.
    destruct (handleGestureDetected _ _ _ _) as [r us]. cbn [snd] in F.
    cbn [drawingState]. apply runUpdaters_scale_range; assumption.
  - pose proof (handleHandPositionUpdate_scale w (drawingState app) (appRefs app)
                  position (drawingState app)) as E.
    destruct (handleHandPositionUpdate _ _ _ _ _) as [r s']. cbn [snd] in E.
    cbn [drawingState]. rewrite E. exact H.
  - exact H.
  - cbn [drawingState handleResetView scale lit R_Number]. rewrite Q2R_int. lra.
Qed.

(* Over the reals the divisor of the scale-multiplying branch is not 0. *)
Lemma zoomScale_divisor_real (ds : DrawingState R) (refs : Refs R)
    (g : GestureState R) (d last : R) :
  zoomAction ds refs g = ZoomScale d last -> last <> 0 /\ d <> 0.
Proof.
  intros E. apply zoomAction_scale in E. destruct E as (Td & Tl & _).
  split; apply Real_truthy_true; assumption.
Qed.

(** *** Erasing *)

(** C5, amended.  An erasing fist (type [fist], confidence above 0.8) queues
    [erasePaths] as its last update, with the fist's canvas-projected
    mirrored position and the radius 50 / scale.  Applied to any drawing
    state it removes every completed path that has a point at distance
    strictly less than the radius, keeps every path all of whose points are
    at distance at least the radius, and every path it keeps is one of the
    original paths, unchanged. *)
Theorem erase_step (w : Window R) (ds : DrawingState R) (refs : Refs R)
    (g : GestureState R) :
  gtype g = fist -> 0.8 < confidence g ->
  let c := screenToCanvas w ds (flipped (position g)) in
  let r := (lit 50 / scale ds)%num in
  exists before,
    snd (handleGestureDetected w ds refs g) = before ++ [erasePaths c r]
    /\ forall s path,
         (In path (paths s) ->
          (exists point, In point path /\ pointDistance point c < r) ->
          ~ In path (paths (erasePaths c r s)))
         /\ (In path (paths s) ->
             (forall point, In point path -> r <= pointDistance point c) ->
             In path (paths (erasePaths c r s)))
         /\ (In path (paths (erasePaths c r s)) -> In path (paths s)).
Proof.
  intros Hg Hc c r.
  assert (H : isType g fist && nltb (lit 0.8) (confidence g) = true).
  { unfold isType. rewrite Hg. cbn [GestureType_eqb andb].
    apply Real_ltb_true. exact Hc. }
  destruct (@handleGestureDetected_erase R _ w ds refs g H) as [before E].
  exists before. split; [exact E|].
  intros s path. repeat split.
  - intros _ (point & Hp & Hd) Hin.
    apply erasePaths_In in Hin. destruct Hin as [_ Hall].
    specialize (Hall point Hp). apply Real_ltb_false in Hall. lra.
  - intros Hin Hall. apply erasePaths_In. split; [exact Hin|].
    intros point Hp. apply Real_ltb_false. auto.
  - intros Hin. apply erasePaths_In in Hin. tauto.
Qed.

Lemma fistAt_canvas (s : DrawingState R) :
  scale s = lit 1 -> offset s = pt 0 0 ->
  screenToCanvas unitWin s (flipped (position fistAt)) = mkPoint 0 0.
Proof.
  intros Hs Ho. unfold screenToCanvas, flipped, unitWin, fistAt, gesture, pt.
  rewrite Hs, Ho. unfold pt.
  cbn [lit R_Number nadd nsub nmul ndiv px py position innerWidth innerHeight].
  rewrite !Q2R_int. f_equal; field.
Qed.

(** C5, as stated, fails on the boundary: the only point of the path lies
    at distance exactly 50, which is the radius 50 / scale, of the fist's
    canvas position, and the path is still there after the erase step (the
    code tests [distance < eraseRadius]). *)
Lemma erase_boundary_kept :
  let c := screenToCanvas (num:=R) unitWin onePath (flipped (position fistAt)) in
  gtype (fistAt (num:=R)) = fist /\ 0.8 < confidence (fistAt (num:=R))
  /\ In (pt 50 0) [pt (num:=R) 50 0]
  /\ pointDistance (pt 50 0) c <= (lit 50 / scale (onePath (num:=R)))%num
  /\ paths (onePath (num:=R)) = [[pt 50 0]]
  /\ paths (runUpdaters (snd (handleGestureDetected unitWin onePath initialRefs fistAt))
                        onePath)
     = [[pt 50 0]].
Proof.
  intros c. subst c.
  assert (D : pointDistance (pt (num:=R) 50 0) (mkPoint 0 0) = 50).
  { unfold pt. rewrite pointDistance_horizontal by rsolve. rsolve. }
  split; [reflexivity|]. split; [cbn; lra|]. split; [left; reflexivity|]. split.
  { rewrite fistAt_canvas by reflexivity. rewrite D. cbn [scale onePath]. rsolve. }
  split; [reflexivity|].
  unfold handleGestureDetected, drawingChannel, panningChannel, zoomChannel,
    zoomAction, eraseChannel, isType.
  cbn [gtype GestureType_eqb andb negb isDrawing isPanning isZooming isErasing
       onePath fistAt gesture distance confidence fst snd app].
  assert (E : nltb (lit 0.8) (lit 0.9 : R) = true) by (apply Real_ltb_true; rsolve).
  rewrite E. cbn [snd app runUpdaters fold_left].
  unfold setErasing, erasePaths. cbn [paths].
  change (paths (onePath (num:=R))) with [[pt (num:=R) 50 0]].
  cbn [filter existsb].
  change (mkPoint (lit 1 - px (position (gesture fist 0.9 (pt 1 0))))%num
                  (py (position (gesture fist 0.9 (pt 1 0)))))
    with (flipped (position (fistAt (num:=R)))).
  rewrite fistAt_canvas by reflexivity. rewrite D.
  assert (E2 : nltb (50 : R) (lit 50 / scale onePath)%num = false)
    by (apply Real_ltb_false; cbn [scale onePath]; rsolve).
  rewrite E2. reflexivity.
Qed.

Lemma erase_step_witness :
  let c := screenToCanvas (num:=R) unitWin onePath (flipped (position fistAt)) in
  let r := (lit 50 / scale (onePath (num:=R)))%num in
  let s := mkDrawingState false false false false (lit 1) (pt 0 0) []
             [[pt 10 0; pt 90 0]; [pt 60 0]] in
  ~ In [pt 10 0; pt 90 0] (paths (erasePaths c r s))
  /\ In [pt 60 0] (paths (erasePaths c r s)).
Proof.
  intros c r s.
  assert (Hc : 0.8 < confidence (fistAt (num:=R))) by (cbn; lra).
  destruct (@erase_step unitWin onePath initialRefs fistAt eq_refl Hc)
    as (_ & _ & H).
  fold c r in H.
  assert (Ec : c = mkPoint 0 0) by (apply fistAt_canvas; reflexivity).
  assert (Er : r = 50) by (subst r; cbn [scale onePath]; rsolve).
  split.
  - apply (H s); [left; reflexivity|].
    exists (pt 10 0). split; [left; reflexivity|].
    rewrite Ec, Er. unfold pt. rewrite pointDistance_horizontal by rsolve. rsolve.
  - apply (H s); [right; left; reflexivity|].
    intros point [<-|[]].
    rewrite Ec, Er. unfold pt. rewrite pointDistance_horizontal by rsolve. rsolve.
Defined.

End RealReducerFacts.

(** ** Stroke extension and the coordinate transform over exact arithmetic *)

Section RealStrokeFacts.

(** C7, amended.  While the last gesture was a pinch and a stroke point has
    been emitted before at the smoothed position [q]: a smoothed position
    closer than 0.01 to [q] changes nothing, and whenever the current path
    does change, the distance is at least 0.01 and the change is the append
    of the canvas projection of the mirrored smoothed position. *)
Theorem min_movement (w : Window R) (ds : DrawingState R) (refs : Refs R)
    (p q : Point R) (prev : DrawingState R) :
  lastGestureTypeRef refs = Some pinch ->
  lastDrawPositionRef refs = Some q ->
  let smoothed := smoothedPosition (pushHistory (positionHistoryRef refs) p) in
  let s' := snd (handleHandPositionUpdate w ds refs (Some p) prev) in
  (pointDistance smoothed q < 0.01 -> s' = prev)
  /\ (currentPath s' <> currentPath prev ->
      0.01 <= pointDistance smoothed q
      /\ currentPath s' = currentPath prev ++ [screenToCanvas w ds (flipped smoothed)]).
Proof.
  intros Hg Hq smoothed s'.
  destruct (@handleHandPositionUpdate_pinch R _ w ds refs p q prev Hg Hq)
    as [[T E]|[T E]]; fold smoothed s' in T, E.
  - split; [auto|]. intros C. rewrite E in C. contradiction.
  - apply Real_ltb_false in T. unfold MIN_DISTANCE_THRESHOLD in T.
    cbn [lit R_Number] in T.
    split; [intros; lra|].
    intros C. split; [exact T|].
    destruct E as [E|E]; [rewrite E in C; contradiction|exact E].
Qed.

Lemma smoothed_single (p : Point R) :
  smoothedPosition (pushHistory [] p) = mkPoint (px p) (py p).
Proof.
  unfold smoothedPosition, pushHistory, ofNat.
  cbn [app length Nat.ltb Nat.leb SMOOTHING_WINDOW fold_left Z.of_nat
       Pos.of_succ_nat].
  cbn [lit R_Number nadd ndiv]. unfold inject_Z. rewrite !Q2R_int. f_equal; field.
Qed.

(** C7, as stated, fails on the boundary: the smoothed position is at
    distance exactly 0.01 from the last emitted one, which does not exceed
    0.01, and it is appended to the current path all the same (the code
    returns early only when [distance < MIN_DISTANCE_THRESHOLD]). *)
Lemma min_movement_boundary_emitted :
  let p := pt (num:=R) 0.01 0 in
  let smoothed := smoothedPosition (pushHistory (positionHistoryRef refsDrawn) p) in
  lastGestureTypeRef (refsDrawn (num:=R)) = Some pinch
  /\ lastDrawPositionRef (refsDrawn (num:=R)) = Some (pt 0 0)
  /\ pointDistance smoothed (pt 0 0) = 0.01
  /\ currentPath (drawnOne (num:=R)) = [pt 1 0]
  /\ currentPath (snd (handleHandPositionUpdate unitWin drawnOne refsDrawn (Some p)
                                                drawnOne))
     = [pt 1 0; screenToCanvas unitWin drawnOne (flipped smoothed)].
Proof.
  intros p smoothed.
  assert (Es : smoothed = mkPoint 0.01 (lit 0)) by (apply smoothed_single).
  assert (D : pointDistance smoothed (pt 0 0) = 0.01).
  { rewrite Es. unfold pt. rewrite pointDistance_horizontal by rsolve. rsolve. }
  split; [reflexivity|]. split; [reflexivity|]. split; [exact D|].
  split; [reflexivity|].
  unfold handleHandPositionUpdate.
  cbn [lastGestureTypeRef refsDrawn positionHistoryRef lastDrawPositionRef
       set_positionHistoryRef].
  change (smoothedPosition (pushHistory [] p)) with smoothed.
  change (mkPoint (lit 1 - px smoothed)%num (py smoothed)) with (flipped smoothed).
  unfold tooClose. rewrite D.
  assert (T : nltb (0.01 : R) MIN_DISTANCE_THRESHOLD = false)
    by (apply Real_ltb_false; unfold MIN_DISTANCE_THRESHOLD; rsolve).
  rewrite T. unfold appendPoint.
  change (currentPath (drawnOne (num:=R))) with [pt (num:=R) 1 0].
  cbn [last length].
  assert (X : neqb (px (pt (num:=R) 1 0))
                (px (screenToCanvas unitWin drawnOne (flipped smoothed))) = false).
  { apply Real_eqb_false. rewrite Es.
    unfold screenToCanvas, flipped, unitWin, drawnOne, pt.
    cbn [lit R_Number nadd nsub nmul ndiv px py scale offset innerWidth innerHeight].
    rewrite !Q2R_int. apply Rgt_not_eq.
    replace ((1 - 0.01) * 1 - 0) with 0.99 by lra. lra. }
  rewrite X. cbn [negb orb andb Nat.ltb Nat.leb snd currentPath app]. reflexivity.
Qed.

Lemma min_movement_witness :
  snd (handleHandPositionUpdate (num:=R) unitWin drawnOne refsDrawn
         (Some (pt 0.001 0)) drawnOne) = drawnOne.
Proof.
  apply (@min_movement unitWin drawnOne refsDrawn (pt 0.001 0) (pt 0 0) drawnOne
           eq_refl eq_refl).
  change (positionHistoryRef (refsDrawn (num:=R))) with (@nil (Point R)).
  rewrite smoothed_single. unfold pt.
  cbn [px py]. rewrite pointDistance_horizontal by rsolve. rsolve.
Defined.

End RealStrokeFacts.

(* The boundary inputs of the sections above, on binary64. *)
Example binary64_closed_hand_pinch :
  detectGesture (Some (closedHand (num:=float)))
  = Some (mkGesture pinch (lit 1) (pt 0.5 0.5) None).
Proof. vm_compute. reflexivity. Qed.

Example binary64_erase_boundary :
  paths (runUpdaters (num:=float)
           (snd (handleGestureDetected unitWin onePath initialRefs fistAt)) onePath)
  = [[pt 50 0]].
Proof. vm_compute. reflexivity. Qed.

Example binary64_min_movement_boundary :
  length (currentPath
            (snd (handleHandPositionUpdate (num:=float) unitWin drawnOne refsDrawn
                    (Some (pt 0.01 0)) drawnOne))) = 2%nat.
Proof. vm_compute. reflexivity. Qed.

(** ** [detectMotion] on binary64 *)

Section MotionFacts.
Import SimpleGestureDetector.

(* The fuel of [motionTotals] is enough: once the fuel covers the indices
   left, more fuel changes nothing (the loop stops on its own condition). *)
Lemma motionLoop_fuel (cur prev : list Z) (f1 : nat) :
  forall (f2 i : nat) (t : Totals),
    (Z.of_nat (length cur) - 2 <= Z.of_nat i + 2 * Z.of_nat f1)%Z ->
    (Z.of_nat (length cur) - 2 <= Z.of_nat i + 2 * Z.of_nat f2)%Z ->
    motionLoop f1 cur prev i t = motionLoop f2 cur prev i t.
Proof.
  induction f1 as [|f1 IH]; intros f2 i t H1 H2.
  - destruct f2 as [|f2]; [reflexivity|]. cbn [motionLoop].
    destruct (Z.ltb_spec (Z.of_nat i) (Z.of_nat (length cur) - 2)); [lia|reflexivity].
  - cbn [motionLoop].
    destruct (Z.ltb_spec (Z.of_nat i) (Z.of_nat (length cur) - 2)) as [L|L].
    + destruct f2 as [|f2]; [lia|]. cbn [motionLoop].
      destruct (Z.ltb_spec (Z.of_nat i) (Z.of_nat (length cur) - 2)); [|lia].
      apply IH; lia.
    + destruct f2 as [|f2]; [reflexivity|]. cbn [motionLoop].
      destruct (Z.ltb_spec (Z.of_nat i) (Z.of_nat (length cur) - 2)); [lia|reflexivity].
Qed.

Lemma motionLoop_fuel_enough (cur prev : list Z) (fuel : nat) (t : Totals) :
  (length cur <= fuel)%nat ->
  motionLoop fuel cur prev 0 t = motionLoop (length cur) cur prev 0 t.
Proof. intros H. apply motionLoop_fuel; lia. Qed.

(* A frame of at most two bytes has no sample. *)
Lemma motionTotals_no_sample (current previous : ImageData) :
  (length (data current) <= 2)%nat ->
  motionTotals current previous = mkTotals (F64.lit 0) (F64.lit 0) (F64.lit 0).
Proof.
  intros H. unfold motionTotals.
  destruct (length (data current)) as [|n] eqn:E; [reflexivity|].
  cbn [motionLoop]. rewrite E.
  destruct (Z.ltb_spec (Z.of_nat 0) (Z.of_nat (S n) - 2)); [lia|reflexivity].
Qed.

Lemma motionScore_not_nan (a r : float) : is_nan (motionScore a r) = false.
Proof.
  unfold motionScore.
  destruct (is_nan (PrimFloat.add _ _)) eqn:E; [reflexivity|exact E].
Qed.

Lemma motionScore_zero : motionScore (F64.lit 0) (F64.lit 0) = 0%float.
Proof. vm_compute. reflexivity. Qed.

(** C8.  For every pair of frames, frames without samples and frames of
    different sizes included, [detectMotion] returns a number that is not
    NaN; it returns 0 when the current frame has no sample (at most two
    bytes of data), when [totalPixels] is 0, and when the average difference
    or the motion ratio is NaN. *)
Theorem detectMotion_not_nan (current previous : ImageData) :
  is_nan (detectMotion current previous) = false
  /\ ((length (data current) <= 2)%nat -> detectMotion current previous = 0%float)
  /\ (PrimFloat.eqb (totalPixels (motionTotals current previous)) 0 = true ->
      detectMotion current previous = 0%float)
  /\ (is_nan (avgDifference (motionTotals current previous))
      || is_nan (motionRatio (motionTotals current previous)) = true ->
      detectMotion current previous = 0%float).
Proof.
  assert (Z0 : F64.lit 0 = 0%float) by (vm_compute; reflexivity).
  unfold detectMotion. rewrite Z0. repeat split.
  - destruct (PrimFloat.eqb _ _); [reflexivity|].
    destruct (_ || _); apply motionScore_not_nan.
  - intros H. rewrite (motionTotals_no_sample current previous H).
    cbn [totalPixels]. rewrite Z0. reflexivity.
  - intros ->. reflexivity.
  - intros ->. destruct (PrimFloat.eqb _ _); [reflexivity|exact motionScore_zero].
Qed.

(* A previous frame shorter than the current one: the reads past its end
   give NaN, the average difference is NaN, and the score is 0. *)
Example detectMotion_coerces_nan :
  let current := mkImageData [10; 20; 30; 40]%Z 1 1 in
  let previous := mkImageData [] 0 0 in
  is_nan (avgDifference (motionTotals current previous)) = true
  /\ detectMotion current previous = 0%float.
Proof. vm_compute. split; reflexivity. Qed.

Example detectMotion_moving_frame :
  PrimFloat.ltb (F64.lit 0.83)
    (detectMotion (mkImageData [10; 20; 30; 40; 50; 60; 70; 80]%Z 2 1)
                  (mkImageData [0; 0; 0; 0; 0; 0; 0; 0]%Z 2 1)) = true.
Proof. vm_compute. reflexivity. Qed.

End MotionFacts.

(** * Further properties, over the whole program *)

Unset Implicit Arguments.

(** ** The classifier: branches and invariances *)

Section ClassifierMore.
Context {num : Type} {N : Number num}.
Local Open Scope num_scope.

(* The classifier on a 21-landmark hand, in terms of its tips, landmark 9
   and the five finger tests. *)
Lemma detectGesture_21 (l : list (Landmark num)) (t i m l9 : Landmark num)
    (b0 b1 b2 b3 b4 : bool) :
  length l = 21%nat ->
  nth_error l 4 = Some t -> nth_error l 8 = Some i -> nth_error l 12 = Some m ->
  nth_error l 9 = Some l9 ->
  isFingerExtended l 0 = Some b0 -> isFingerExtended l 1 = Some b1 ->
  isFingerExtended l 2 = Some b2 -> isFingerExtended l 3 = Some b3 ->
  isFingerExtended l 4 = Some b4 ->
  let n := length (List.filter (fun b : bool => b) [b0; b1; b2; b3; b4]) in
  getExtendedFingerCount l = Some n
  /\ detectGesture (Some l) = Some
       (if (calculateDistance t i <? lit 0.04) && Nat.leb n 1 then
          mkGesture pinch (pinchConfidence (calculateDistance t i))
            (mkPoint ((lx t + lx i) / lit 2) ((ly t + ly i) / lit 2)) None
        else if b0 && b2 && negb b1 && negb b3 && negb b4 then
          mkGesture zoom (lit 0.8)
            (mkPoint ((lx t + lx m) / lit 2) ((ly t + ly m) / lit 2))
            (Some (calculateDistance t m))
        else if Nat.eqb n 0 then mkGesture fist (lit 0.9) (mkPoint (lx l9) (ly l9)) None
        else if Nat.leb 4 n then mkGesture palm (lit 0.8) (mkPoint (lx l9) (ly l9)) None
        else if Nat.eqb n 1 && b1 then
          mkGesture pinch (lit 0.4) (mkPoint (lx i) (ly i)) None
        else noGesture).
Proof.
  intros Hlen Ht Hi Hm H9 E0 E1 E2 E3 E4 n.
  assert (Hn : getExtendedFingerCount l = Some n).
  { unfold getExtendedFingerCount. cbn [filterM]. rewrite E0, E1, E2, E3, E4.
    subst n. destruct b0, b1, b2, b3, b4; reflexivity. }
  split; [exact Hn|].
  unfold detectGesture. rewrite Hlen. cbn [Nat.eqb negb].
  destruct (getFingerTip_eq l) as (-> & -> & ->). rewrite Ht, Hi, Hm, Hn.
  destruct ((calculateDistance t i <? lit 0.04) && Nat.leb n 1); [reflexivity|].
  rewrite E0, E1, E2, E3, E4, H9.
  repeat match goal with |- context [if ?c then _ else _] => destruct c end; reflexivity.
Qed.

(** X1.  A hand of 21 landmarks with four or five fingers extended is
    classified as a palm of confidence 0.8 at landmark 9, whatever the
    distance between thumb tip and index tip. *)
Theorem open_hand_palm (l : list (Landmark num)) (l9 : Landmark num) (n : nat) :
  length l = 21%nat ->
  getExtendedFingerCount l = Some n -> (4 <= n)%nat ->
  nth_error l 9 = Some l9 ->
  detectGesture (Some l) = Some (mkGesture palm (lit 0.8) (mkPoint (lx l9) (ly l9)) None).
Proof.
  intros Hlen Hn H4 H9.
  destruct (length21_nth_error l (i:=4) Hlen) as [t Ht]; [lia|].
  destruct (length21_nth_error l (i:=8) Hlen) as [i Hi]; [lia|].
  destruct (length21_nth_error l (i:=12) Hlen) as [m Hm]; [lia|].
  destruct (isFingerExtended_total l (f:=0) Hlen) as [b0 E0]; [lia|].
  destruct (isFingerExtended_total l (f:=1) Hlen) as [b1 E1]; [lia|].
  destruct (isFingerExtended_total l (f:=2) Hlen) as [b2 E2]; [lia|].
  destruct (isFingerExtended_total l (f:=3) Hlen) as [b3 E3]; [lia|].
  destruct (isFingerExtended_total l (f:=4) Hlen) as [b4 E4]; [lia|].
  destruct (detectGesture_21 l t i m l9 b0 b1 b2 b3 b4 Hlen Ht Hi Hm H9 E0 E1 E2 E3 E4)
    as [Hn' ->].
  rewrite Hn in Hn'. injection Hn' as Hn'.
  destruct b0, b1, b2, b3, b4; cbn in Hn'; subst n; try lia;
    cbn [List.filter length Nat.leb Nat.eqb andb negb]; rewrite ?andb_false_r;
    reflexivity.
Qed.
End ClassifierMore.

Lemma open_hand_palm_witness :
  detectGesture (num:=float) (Some openHand)
  = Some (mkGesture palm (lit 0.8) (mkPoint (lit 0.5) (lit 0.5)) None).
Proof.
  apply (open_hand_palm (num:=float) openHand (lm 0.5 0.5) 5);
    [reflexivity|vm_compute; reflexivity|lia|reflexivity].
Defined.

Local Open Scope R_scope.

Section ClassifierReal.

(* The data [detectGesture_21] needs exist for every 21-landmark hand. *)
Lemma hand21_data {num : Type} {N : Number num} (l : list (Landmark num)) :
  length l = 21%nat ->
  exists t i m l9 b0 b1 b2 b3 b4,
    nth_error l 4 = Some t /\ nth_error l 8 = Some i /\ nth_error l 12 = Some m
    /\ nth_error l 9 = Some l9
    /\ isFingerExtended l 0 = Some b0 /\ isFingerExtended l 1 = Some b1
    /\ isFingerExtended l 2 = Some b2 /\ isFingerExtended l 3 = Some b3
    /\ isFingerExtended l 4 = Some b4.
Proof.
  intros Hlen.
  destruct (length21_nth_error (i:=4) l Hlen) as [t Ht]; [lia|].
  destruct (length21_nth_error (i:=8) l Hlen) as [i Hi]; [lia|].
  destruct (length21_nth_error (i:=12) l Hlen) as [m Hm]; [lia|].
  destruct (length21_nth_error (i:=9) l Hlen) as [l9 H9]; [lia|].
  destruct (isFingerExtended_total (f:=0) l Hlen) as [b0 E0]; [lia|].
  destruct (isFingerExtended_total (f:=1) l Hlen) as [b1 E1]; [lia|].
  destruct (isFingerExtended_total (f:=2) l Hlen) as [b2 E2]; [lia|].
  destruct (isFingerExtended_total (f:=3) l Hlen) as [b3 E3]; [lia|].
  destruct (isFingerExtended_total (f:=4) l Hlen) as [b4 E4]; [lia|].
  exists t, i, m, l9, b0, b1, b2, b3, b4. repeat split; assumption.
Qed.

Lemma pinchConfidence_close (d : R) : d < 0.04 -> pinchConfidence d = 1 - d * 15.
Proof.
  intros H. unfold pinchConfidence. cbn [lit Math_max nsub nmul R_Number].
  rewrite !Q2R_int. apply Rmax_right. lra.
Qed.

(** X2.  [detectGesture] returns on every input, and what it returns is
    ready for the handler: a fist has confidence above the erase threshold
    0.8, a palm above the pan threshold 0.7, a zoom above the zoom threshold
    0.7 and carries a distance that is not negative; no other gesture
    carries a distance; and a gesture of type none has confidence 0 and the
    position (0, 0). *)
Theorem classified_gestures_activate (landmarks : option (list (Landmark R))) :
  exists g,
    detectGesture landmarks = Some g
    /\ (gtype g = fist -> 0.8 < confidence g)
    /\ (gtype g = palm -> 0.7 < confidence g)
    /\ (gtype g = zoom -> 0.7 < confidence g /\ exists d, distance g = Some d /\ 0 <= d)
    /\ (gtype g <> zoom -> distance g = None)
    /\ (gtype g = none -> confidence g = 0 /\ position g = mkPoint 0 0).
Proof.
  assert (Hnone : forall g : GestureState R, g = noGesture ->
            (gtype g = fist -> 0.8 < confidence g)
            /\ (gtype g = palm -> 0.7 < confidence g)
            /\ (gtype g = zoom -> 0.7 < confidence g
                /\ exists d, distance g = Some d /\ 0 <= d)
            /\ (gtype g <> zoom -> distance g = None)
            /\ (gtype g = none -> confidence g = 0 /\ position g = mkPoint 0 0)).
  { intros g ->. unfold noGesture. cbn [gtype confidence distance position lit R_Number].
    rewrite !Q2R_int. repeat split; try discriminate; reflexivity. }
  destruct landmarks as [l|]; [|exists noGesture; split; [reflexivity|auto]].
  destruct (Nat.eq_dec (length l) 21) as [Hlen|Hlen].
  2:{ exists noGesture. split; [|auto]. unfold detectGesture.
      apply Nat.eqb_neq in Hlen. rewrite Hlen. reflexivity. }
  destruct (hand21_data l Hlen)
    as (t & i & m & l9 & b0 & b1 & b2 & b3 & b4 & Ht & Hi & Hm & H9 & E0 & E1 & E2 & E3 & E4).
  destruct (detectGesture_21 l t i m l9 b0 b1 b2 b3 b4 Hlen Ht Hi Hm H9 E0 E1 E2 E3 E4)
    as [_ ->].
  eexists. split; [reflexivity|].
  repeat match goal with |- context [if ?c then _ else _] => destruct c end;
    try (apply Hnone; reflexivity);
    cbn [gtype confidence distance position lit R_Number];
    repeat split; try discriminate; try congruence; try lra.
  eexists. split; [reflexivity|]. apply calculateDistance_nonneg.
Qed.

End ClassifierReal.

Local Open Scope R_scope.

Section ClassifierReal2.

(* The confidence of a result of type pinch against the drawing threshold. *)
Lemma detectGesture_pinch_confidence (l : list (Landmark R)) (t i : Landmark R) :
  length l = 21%nat -> nth_error l 4 = Some t -> nth_error l 8 = Some i ->
  exists g,
    detectGesture (Some l) = Some g
    /\ (gtype g = pinch ->
        (confidence g = 0.4 \/ confidence g = 1 - calculateDistance t i * 15)
        /\ (0.6 < confidence g <-> calculateDistance t i < 2 / 75)).
Proof.
  intros Hlen Ht Hi.
  destruct (hand21_data l Hlen)
    as (t' & i' & m & l9 & b0 & b1 & b2 & b3 & b4 & Ht' & Hi' & Hm & H9
        & E0 & E1 & E2 & E3 & E4).
  rewrite Ht in Ht'. rewrite Hi in Hi'. injection Ht' as <-. injection Hi' as <-.
  destruct (detectGesture_21 l t i m l9 b0 b1 b2 b3 b4 Hlen Ht Hi Hm H9 E0 E1 E2 E3 E4)
    as [_ ->].
  eexists. split; [reflexivity|].
  set (d := calculateDistance t i).
  destruct (Real.ltb d (lit 0.04)) eqn:Ed;
    change (nltb d (lit 0.04)) with (Real.ltb d (lit 0.04)); rewrite Ed.
  - apply Real_ltb_true in Ed. cbn [lit R_Number] in Ed.
    destruct b0, b1, b2, b3, b4;
      cbn [List.filter length Nat.leb Nat.eqb andb negb gtype confidence];
      intros Hp; try discriminate Hp;
      try (rewrite (pinchConfidence_close d Ed); split; [right; reflexivity|lra]).
    all: cbn [lit R_Number]; split; [left; reflexivity|lra].
  - apply Real_ltb_false in Ed. cbn [lit R_Number] in Ed.
    destruct b0, b1, b2, b3, b4;
      cbn [List.filter length Nat.leb Nat.eqb andb negb gtype confidence];
      intros Hp; try discriminate Hp;
      cbn [lit R_Number]; (split; [left; reflexivity|lra]).
Qed.

End ClassifierReal2.

(** ** The TensorFlow classifier *)

Section TensorFlowFacts.
Context {num : Type} {N : Number num}.
Local Open Scope num_scope.

Lemma analyzeHandGesture_short (landmarks : list (Point num)) :
  (length landmarks < 21)%nat ->
  TensorFlowGestureDetector.analyzeHandGesture landmarks = Some noGesture.
Proof.
  intros H. unfold TensorFlowGestureDetector.analyzeHandGesture.
  apply Nat.ltb_lt in H. rewrite H. reflexivity.
Qed.

(** X5.  The TensorFlow classifier reads the first 21 keypoints only: on
    an array of 21 keypoints it returns a gesture, and entries after the
    21st do not change what it returns. *)
Theorem analyzeHandGesture_prefix (l extra : list (Point num)) :
  length l = 21%nat ->
  TensorFlowGestureDetector.analyzeHandGesture (l ++ extra)
  = TensorFlowGestureDetector.analyzeHandGesture l
  /\ exists g, TensorFlowGestureDetector.analyzeHandGesture l = Some g.
Proof.
  intros Hlen.
  do 21 (destruct l as [|? l]; [discriminate Hlen|]).
  destruct l; [|discriminate Hlen].
  split.
  - unfold TensorFlowGestureDetector.analyzeHandGesture.
    rewrite length_app. cbn [length app Nat.ltb Nat.leb Nat.add nth_error].
    reflexivity.
  - unfold TensorFlowGestureDetector.analyzeHandGesture.
    cbn [length Nat.ltb Nat.leb nth_error].
    repeat match goal with |- context [if ?c then _ else _] => destruct c end; eauto.
Qed.

End TensorFlowFacts.

Lemma analyzeHandGesture_prefix_witness :
  TensorFlowGestureDetector.analyzeHandGesture
    (map toPoint (closedHand (num:=R)) ++ [pt 0 0])
  = TensorFlowGestureDetector.analyzeHandGesture (map toPoint (closedHand (num:=R)))
  /\ exists g,
       TensorFlowGestureDetector.analyzeHandGesture (map toPoint (closedHand (num:=R)))
       = Some g.
Proof.
  apply (analyzeHandGesture_prefix (map toPoint closedHand) [pt 0 0]). reflexivity.
Defined.

Section TensorFlowAgree.
Context {num : Type} {N : Number num}.
Local Open Scope num_scope.

(* The sibling classifier on the same 21 landmarks, in terms of the finger
   tests of [detectGesture]. *)
Lemma analyzeHandGesture_21 (l : list (Landmark num)) (t i m l9 : Landmark num)
    (b0 b1 b2 b3 b4 : bool) :
  length l = 21%nat ->
  nth_error l 4 = Some t -> nth_error l 8 = Some i -> nth_error l 12 = Some m ->
  nth_error l 9 = Some l9 ->
  isFingerExtended l 0 = Some b0 -> isFingerExtended l 1 = Some b1 ->
  isFingerExtended l 2 = Some b2 -> isFingerExtended l 3 = Some b3 ->
  isFingerExtended l 4 = Some b4 ->
  let n := length (List.filter (fun b : bool => b) [b0; b1; b2; b3; b4]) in
  TensorFlowGestureDetector.analyzeHandGesture (map toPoint l) = Some
    (if (calculateDistance t i <? lit 0.05) && Nat.leb n 1 then
       mkGesture pinch (Math_max (lit 0.6) (lit 1 - calculateDistance t i * lit 20))
         (mkPoint ((lx t + lx i) / lit 2) ((ly t + ly i) / lit 2)) None
     else if b0 && b2 && negb b1 && negb b3 && negb b4 then
       mkGesture zoom (lit 0.8)
         (mkPoint ((lx t + lx m) / lit 2) ((ly t + ly m) / lit 2))
         (Some (calculateDistance t m))
     else if Nat.eqb n 0 then mkGesture fist (lit 0.9) (mkPoint (lx l9) (ly l9)) None
     else if Nat.leb 4 n then mkGesture palm (lit 0.8) (mkPoint (lx l9) (ly l9)) None
     else if Nat.eqb n 1 && b1 then
       mkGesture pinch (lit 0.7) (mkPoint (lx i) (ly i)) None
     else noGesture).
Proof.
  intros Hlen Ht Hi Hm H9 E0 E1 E2 E3 E4 n. subst n.
  do 21 (destruct l as [|? l]; [discriminate Hlen|]).
  destruct l; [|discriminate Hlen].
  cbn in Ht, Hi, Hm, H9, E0, E1, E2, E3, E4.
  injection Ht as <-. injection Hi as <-. injection Hm as <-. injection H9 as <-.
  injection E0 as <-. injection E1 as <-. injection E2 as <-. injection E3 as <-.
  injection E4 as <-.
  unfold TensorFlowGestureDetector.analyzeHandGesture.
  cbn [length map Nat.ltb Nat.leb nth_error].
  unfold TensorFlowGestureDetector.isFingerExtended, TensorFlowGestureDetector.calculateDistance, calculateDistance, toPoint.
  cbn [px py].
  repeat match goal with |- context [if ?c then _ else _] => destruct c end;
    reflexivity.
Qed.

End TensorFlowAgree.

Local Open Scope R_scope.

(** X6.  On the same 21 landmarks the TensorFlow classifier and the
    MediaPipe classifier agree on type, position and distance, and on the
    confidence of every gesture that is not a pinch, unless the distance
    between thumb tip and index tip lies in [0.04, 0.05), where the two
    pinch thresholds differ. *)
Theorem analyzeHandGesture_agrees (l : list (Landmark R)) (t i : Landmark R) :
  length l = 21%nat -> nth_error l 4 = Some t -> nth_error l 8 = Some i ->
  ~ (0.04 <= calculateDistance t i < 0.05) ->
  exists g g',
    detectGesture (Some l) = Some g
    /\ TensorFlowGestureDetector.analyzeHandGesture (map toPoint l) = Some g'
    /\ gtype g' = gtype g /\ position g' = position g /\ distance g' = distance g
    /\ (gtype g <> pinch -> confidence g' = confidence g).
Proof.
  intros Hlen Ht Hi Hband.
  destruct (hand21_data l Hlen)
    as (t' & i' & m & l9 & b0 & b1 & b2 & b3 & b4 & Ht' & Hi' & Hm & H9
        & E0 & E1 & E2 & E3 & E4).
  rewrite Ht in Ht'. rewrite Hi in Hi'. injection Ht' as <-. injection Hi' as <-.
  destruct (detectGesture_21 l t i m l9 b0 b1 b2 b3 b4 Hlen Ht Hi Hm H9 E0 E1 E2 E3 E4)
    as [_ ->].
  rewrite (analyzeHandGesture_21 l t i m l9 b0 b1 b2 b3 b4 Hlen Ht Hi Hm H9
             E0 E1 E2 E3 E4).
  do 2 eexists. split; [reflexivity|]. split; [reflexivity|].
  set (d := calculateDistance t i) in *.
  change (nltb d (lit 0.04)) with (Real.ltb d 0.04).
  change (nltb d (lit 0.05)) with (Real.ltb d 0.05).
  destruct (Real.ltb d 0.04) eqn:E4'; destruct (Real.ltb d 0.05) eqn:E5';
    try (apply Real_ltb_true in E4'); try (apply Real_ltb_false in E4');
    try (apply Real_ltb_true in E5'); try (apply Real_ltb_false in E5');
    try (exfalso; lra);
    destruct b0, b1, b2, b3, b4;
    cbn [List.filter length Nat.leb Nat.eqb andb negb gtype confidence position distance];
    repeat split; try reflexivity; intros H; exfalso; apply H; reflexivity.
Qed.

Lemma analyzeHandGesture_agrees_witness :
  exists g g',
    detectGesture (Some (closedHand (num:=R))) = Some g
    /\ TensorFlowGestureDetector.analyzeHandGesture (map toPoint closedHand) = Some g'
    /\ gtype g' = gtype g /\ position g' = position g /\ distance g' = distance g
    /\ (gtype g <> pinch -> confidence g' = confidence g).
Proof.
  apply (analyzeHandGesture_agrees closedHand (lm 0.5 0.5) (lm 0.5 0.5));
    [reflexivity|reflexivity|reflexivity|].
  rewrite closedHand_tips_distance. lra.
Defined.

(** ** Invariants of the application *)

Section ReducerMore.
Context {num : Type} {N : Number num}.
Local Open Scope num_scope.

Lemma runUpdaters_preserves (P : DrawingState num -> Prop) (us : list (Updater num))
    (s : DrawingState num) :
  Forall (fun u => forall s, P s -> P (u s)) us -> P s -> P (runUpdaters us s).
Proof.
  intros H. revert s. induction H as [|u us Hu _ IH]; intros s Hs; [exact Hs|].
  change (runUpdaters (u :: us) s) with (runUpdaters us (u s)). auto.
Qed.

Lemma finishStroke_pathsBounded (s : DrawingState num) :
  pathsBounded s -> pathsBounded (finishStroke s).
Proof.
  intros [Hp Hc]. unfold finishStroke, pathsBounded.
  destruct (Nat.ltb 1 (length (currentPath s))) eqn:E; cbn [paths currentPath length].
  - apply Nat.ltb_lt in E. split; [|lia].
    apply Forall_app. split; [exact Hp|]. apply Forall_cons; [lia|apply Forall_nil].
  - split; [exact Hp|lia].
Qed.

Lemma erasePaths_pathsBounded (c : Point num) (r : num) (s : DrawingState num) :
  pathsBounded s -> pathsBounded (erasePaths c r s).
Proof.
  intros [Hp Hc]. unfold erasePaths, pathsBounded. cbn [paths currentPath].
  split; [|exact Hc]. apply Forall_forall. intros path Hin.
  apply filter_In in Hin. rewrite Forall_forall in Hp. apply Hp. tauto.
Qed.

Lemma handleGestureDetected_pathsBounded (w : Window num) (ds : DrawingState num)
    (refs : Refs num) (g : GestureState num) :
  Forall (fun u => forall s, pathsBounded s -> pathsBounded (u s))
         (snd (handleGestureDetected w ds refs g)).
Proof.
  destruct (handleGestureDetected_updaters w ds refs g) as (r2 & r3 & r4 & -> & _).
  rewrite !Forall_app. repeat split.
  - unfold drawingChannel.
    repeat match goal with |- context [if ?c then _ else _] => destruct c end;
      cbn [snd]; repeat (apply Forall_cons || apply Forall_nil).
    + intros s [Hp _]. split; [exact Hp|cbn; lia].
    + exact finishStroke_pathsBounded.
  - unfold panningChannel.
    repeat match goal with
           | |- context [if ?c then _ else _] => destruct c
           | |- context [match panStartRef ?r with _ => _ end] => destruct (panStartRef r)
           end; cbn [snd]; repeat (apply Forall_cons || apply Forall_nil); intros s H; exact H.
  - unfold zoomChannel. destruct (zoomAction ds r3 g); cbn [snd];
      repeat (apply Forall_cons || apply Forall_nil); intros s H; exact H.
  - unfold eraseChannel.
    repeat match goal with |- context [if ?c then _ else _] => destruct c end;
      cbn [snd app]; repeat (apply Forall_cons || apply Forall_nil);
      try (intros s H; exact H); apply erasePaths_pathsBounded.
Qed.

Lemma handleHandPositionUpdate_pathsBounded (w : Window num) (ds : DrawingState num)
    (refs : Refs num) (position : option (Point num)) (prev : DrawingState num) :
  pathsBounded prev -> pathsBounded (snd (handleHandPositionUpdate w ds refs position prev)).
Proof.
  intros [Hp Hc]. unfold handleHandPositionUpdate.
  destruct (lastGestureTypeRef refs) as [[| | | |]|]; try (split; assumption).
  destruct position as [p|]; [|split; assumption].
  destruct (tooClose _ _); [split; assumption|].
  unfold appendPoint.
  destruct (currentPath prev) as [|p0 rest] eqn:Ec.
  - split; [exact Hp|cbn; lia].
  - destruct (_ && Nat.ltb _ 1000) eqn:E.
    + apply andb_prop in E. destruct E as [_ E]. apply Nat.ltb_lt in E.
      split; [exact Hp|]. cbn [snd currentPath]. rewrite length_app. cbn [length] in *. lia.
    + cbn [snd]. split; [exact Hp|]. rewrite Ec. exact Hc.
Qed.

Lemma pushHistory_length (history : list (Point num)) (p : Point num) :
  (length history <= SMOOTHING_WINDOW)%nat ->
  (1 <= length (pushHistory history p) <= SMOOTHING_WINDOW)%nat.
Proof.
  intros H. unfold pushHistory, SMOOTHING_WINDOW in *.
  rewrite length_app. cbn [length].
  destruct (Nat.ltb 3 (length history + 1)) eqn:E.
  - apply Nat.ltb_lt in E.
    destruct (history ++ [p]) as [|a h] eqn:Eh.
    + apply (f_equal (@length _)) in Eh. rewrite length_app in Eh. cbn in Eh. lia.
    + apply (f_equal (@length _)) in Eh. rewrite length_app in Eh. cbn in Eh.
      cbn [tl]. lia.
  - apply Nat.ltb_ge in E. rewrite length_app. cbn [length]. lia.
Qed.

Lemma step_bounds (w : Window num) (app : App num) (ev : Event num) :
  pathsBounded (drawingState app)
  /\ (length (positionHistoryRef (appRefs app)) <= SMOOTHING_WINDOW)%nat ->
  pathsBounded (drawingState (step w app ev))
  /\ (length (positionHistoryRef (appRefs (step w app ev))) <= SMOOTHING_WINDOW)%nat.
Proof.
  intros [Hb Hh]. destruct ev as [g|position| |]; cbn [step].
  - pose proof (handleGestureDetected_pathsBounded w (drawingState app) (appRefs app) g)
      as F.
    assert (Hr : (length (positionHistoryRef
                            (fst (handleGestureDetected w (drawingState app)
                                    (appRefs app) g))) <= SMOOTHING_WINDOW)%nat).
    { unfold handleGestureDetected, drawingChannel, panningChannel, zoomChannel,
        eraseChannel.
      repeat match goal with
             | |- context [if ?c then _ else _] => destruct c
             | |- context [match panStartRef ?r with _ => _ end] =>
                 destruct (panStartRef r)
             | |- context [match zoomAction ?a ?b ?c with _ => _ end] =>
                 destruct (zoomAction a b c)
             end; cbn; try exact Hh; unfold SMOOTHING_WINDOW; lia. }
    destruct (handleGestureDetected _ _ _ _) as [r us]. cbn [fst snd] in *.
    cbn [drawingState appRefs]. split; [|exact Hr].
    apply runUpdaters_preserves; assumption.
  - pose proof (handleHandPositionUpdate_pathsBounded w (drawingState app) (appRefs app)
                  position (drawingState app) Hb) as F.
    assert (Hr : (length (positionHistoryRef
                            (fst (handleHandPositionUpdate w (drawingState app)
                                    (appRefs app) position (drawingState app))))
                  <= SMOOTHING_WINDOW)%nat).
    { unfold handleHandPositionUpdate, appendPoint.
      pose proof (fun p => pushHistory_length (positionHistoryRef (appRefs app)) p Hh) as L.
      repeat match goal with
             | |- context [match ?x with _ => _ end] => destruct x
             end; cbn; try apply L; unfold SMOOTHING_WINDOW; lia. }
    destruct (handleHandPositionUpdate _ _ _ _ _) as [r s']. cbn [fst snd] in *.
    split; assumption.
  - split; [|exact Hh]. destruct Hb as [_ Hc]. split; [constructor|cbn; lia].
  - split; [|exact Hh]. exact Hb.
Qed.

(** X7.  Whatever events arrive after start-up, every completed stroke
    has between 2 and 1000 points, the stroke in progress has at most 1000
    points, and the smoothing window holds at most 3 positions. *)
Theorem strokes_bounded (evs : list (Window num * Event num)) :
  Forall (fun path => (2 <= length path <= 1000)%nat)
         (paths (drawingState (runEvents initialApp evs)))
  /\ (length (currentPath (drawingState (runEvents initialApp evs))) <= 1000)%nat
  /\ (length (positionHistoryRef (appRefs (runEvents initialApp evs))) <= 3)%nat.
Proof.
  assert (G : forall app,
            pathsBounded (drawingState app)
            /\ (length (positionHistoryRef (appRefs app)) <= SMOOTHING_WINDOW)%nat ->
            pathsBounded (drawingState (runEvents app evs))
            /\ (length (positionHistoryRef (appRefs (runEvents app evs)))
                <= SMOOTHING_WINDOW)%nat).
  { induction evs as [|[w ev] evs IH]; intros app H; [exact H|].
    cbn [runEvents fold_left fst snd]. apply (IH (step w app ev)).
    apply step_bounds. exact H. }
  destruct (G initialApp) as [[H1 H2] H3].
  { split; [split; [constructor|cbn; lia]|cbn; lia]. }
  repeat split; assumption.
Qed.

End ReducerMore.

(** ** The view: what the panning and zooming blocks decide *)

Section ReducerView.
Context {num : Type} {N : Number num}.
Local Open Scope num_scope.

Lemma runUpdaters_keepsView (us : list (Updater num)) (s : DrawingState num) :
  Forall keepsView us ->
  scale (runUpdaters us s) = scale s /\ offset (runUpdaters us s) = offset s
  /\ isPanning (runUpdaters us s) = isPanning s
  /\ isZooming (runUpdaters us s) = isZooming s.
Proof.
  intros H. revert s. induction H as [|u us Hu _ IH]; intros s; [auto|].
  change (runUpdaters (u :: us) s) with (runUpdaters us (u s)).
  destruct (IH (u s)) as (-> & -> & -> & ->). apply Hu.
Qed.

Lemma finishStroke_keepsView : keepsView (finishStroke (num:=num)).
Proof. intros s. unfold finishStroke. destruct (Nat.ltb _ _); cbn; auto. Qed.

Lemma drawingChannel_view (ds : DrawingState num) (refs : Refs num) (g : GestureState num) :
  panStartRef (fst (drawingChannel ds refs g)) = panStartRef refs
  /\ lastZoomDistanceRef (fst (drawingChannel ds refs g)) = lastZoomDistanceRef refs
  /\ Forall keepsView (snd (drawingChannel ds refs g)).
Proof.
  unfold drawingChannel.
  repeat match goal with |- context [if ?c then _ else _] => destruct c end;
    cbn [fst snd]; repeat split;
    repeat (apply Forall_cons || apply Forall_nil);
    try exact finishStroke_keepsView; intros s; cbn; auto.
Qed.

Lemma eraseChannel_view (w : Window num) (ds : DrawingState num) (refs : Refs num)
    (g : GestureState num) :
  fst (eraseChannel w ds refs g) = refs
  /\ Forall keepsView (snd (eraseChannel w ds refs g)).
Proof.
  unfold eraseChannel.
  repeat match goal with |- context [if ?c then _ else _] => destruct c end;
    cbn [fst snd app]; repeat split;
    repeat (apply Forall_cons || apply Forall_nil); intros s; cbn; auto.
Qed.

(* The panning block reads [panStartRef] only, and writes nothing else. *)
Lemma panningChannel_ext (w : Window num) (ds : DrawingState num) (r r' : Refs num)
    (g : GestureState num) :
  panStartRef r = panStartRef r' ->
  snd (panningChannel w ds r g) = snd (panningChannel w ds r' g)
  /\ panStartRef (fst (panningChannel w ds r g))
     = panStartRef (fst (panningChannel w ds r' g))
  /\ lastZoomDistanceRef (fst (panningChannel w ds r g)) = lastZoomDistanceRef r.
Proof.
  intros H. unfold panningChannel. rewrite <- H.
  repeat match goal with
         | |- context [if ?c then _ else _] => destruct c
         | |- context [match panStartRef ?r with _ => _ end] =>
             destruct (panStartRef r) eqn:?
         end; cbn; repeat split; congruence.
Qed.

(* The zooming block reads [lastZoomDistanceRef] only, and writes nothing else. *)
Lemma zoomChannel_ext (ds : DrawingState num) (r r' : Refs num) (g : GestureState num) :
  lastZoomDistanceRef r = lastZoomDistanceRef r' ->
  snd (zoomChannel ds r g) = snd (zoomChannel ds r' g)
  /\ lastZoomDistanceRef (fst (zoomChannel ds r g))
     = lastZoomDistanceRef (fst (zoomChannel ds r' g))
  /\ panStartRef (fst (zoomChannel ds r g)) = panStartRef r.
Proof.
  intros H. unfold zoomChannel. rewrite (zoomAction_ext ds r r' g H).
  destruct (zoomAction ds r' g); cbn; repeat split; congruence.
Qed.

Lemma panningChannel_updaters (w : Window num) (ds : DrawingState num) (r : Refs num)
    (g : GestureState num) (s s' : DrawingState num) :
  (scale (runUpdaters (snd (panningChannel w ds r g)) s) = scale s
   /\ isZooming (runUpdaters (snd (panningChannel w ds r g)) s) = isZooming s)
  /\ (offset s = offset s' -> isPanning s = isPanning s' ->
      offset (runUpdaters (snd (panningChannel w ds r g)) s)
      = offset (runUpdaters (snd (panningChannel w ds r g)) s')
      /\ isPanning (runUpdaters (snd (panningChannel w ds r g)) s)
         = isPanning (runUpdaters (snd (panningChannel w ds r g)) s')).
Proof.
  unfold panningChannel.
  repeat match goal with
         | |- context [if ?c then _ else _] => destruct c
         | |- context [match panStartRef ?r with _ => _ end] => destruct (panStartRef r)
         end; cbn; (split; [split; reflexivity|intros Ho Hp; split; congruence]).
Qed.

Lemma zoomChannel_updaters (ds : DrawingState num) (r : Refs num)
    (g : GestureState num) (s s' : DrawingState num) :
  (offset (runUpdaters (snd (zoomChannel ds r g)) s) = offset s
   /\ isPanning (runUpdaters (snd (zoomChannel ds r g)) s) = isPanning s)
  /\ (scale s = scale s' -> isZooming s = isZooming s' ->
      scale (runUpdaters (snd (zoomChannel ds r g)) s)
      = scale (runUpdaters (snd (zoomChannel ds r g)) s')
      /\ isZooming (runUpdaters (snd (zoomChannel ds r g)) s)
         = isZooming (runUpdaters (snd (zoomChannel ds r g)) s')).
Proof.
  unfold zoomChannel. destruct (zoomAction ds r g); cbn;
    (split; [split; reflexivity|intros Ho Hp; split; congruence]).
Qed.

(* What one call does to the view and to the pan and zoom baselines is
   decided by the panning and zooming blocks alone. *)
Lemma handleGestureDetected_view (w : Window num) (ds : DrawingState num)
    (refs : Refs num) (g : GestureState num) (prev : DrawingState num) :
  let r := handleGestureDetected w ds refs g in
  let p := panningChannel w ds refs g in
  let z := zoomChannel ds refs g in
  scale (runUpdaters (snd r) prev) = scale (runUpdaters (snd z) prev)
  /\ offset (runUpdaters (snd r) prev) = offset (runUpdaters (snd p) prev)
  /\ isPanning (runUpdaters (snd r) prev) = isPanning (runUpdaters (snd p) prev)
  /\ isZooming (runUpdaters (snd r) prev) = isZooming (runUpdaters (snd z) prev)
  /\ panStartRef (fst r) = panStartRef (fst p)
  /\ lastZoomDistanceRef (fst r) = lastZoomDistanceRef (fst z).
Proof.
  cbv zeta. unfold handleGestureDetected.
  destruct (drawingChannel_view ds refs g) as (P1 & Z1 & K1).
  destruct (drawingChannel ds refs g) as [r1 u1]. cbn [fst snd] in P1, Z1, K1.
  set (r2 := if isType g none then _ else _).
  assert (P2 : panStartRef r2 = panStartRef refs)
    by (subst r2; destruct (isType g none); exact P1).
  assert (Z2 : lastZoomDistanceRef r2 = lastZoomDistanceRef refs)
    by (subst r2; destruct (isType g none); exact Z1).
  clearbody r2.
  destruct (panningChannel_ext w ds r2 refs g P2) as (U3 & P3 & Z3).
  pose proof (panningChannel_updaters w ds r2 g) as K3.
  destruct (panningChannel w ds r2 g) as [r3 u3]. cbn [fst snd] in U3, P3, Z3, K3.
  assert (Z3' : lastZoomDistanceRef r3 = lastZoomDistanceRef refs) by congruence.
  destruct (zoomChannel_ext ds r3 refs g Z3') as (U4 & Z4 & P4).
  pose proof (zoomChannel_updaters ds r3 g) as K4.
  destruct (zoomChannel ds r3 g) as [r4 u4]. cbn [fst snd] in U4, Z4, P4, K4.
  destruct (eraseChannel_view w ds r4 g) as (E5 & K5).
  destruct (eraseChannel w ds r4 g) as [r5 u5]. cbn [fst snd] in E5, K5. subst r5.
  cbn [fst snd]. rewrite !runUpdaters_app.
  destruct (runUpdaters_keepsView u1 prev K1) as (S1 & O1 & IP1 & IZ1).
  set (s1 := runUpdaters u1 prev) in *.
  destruct (K3 s1 prev) as ((S3 & IZ3) & C3). destruct (C3 O1 IP1) as (O3 & IP3).
  set (s3 := runUpdaters u3 s1) in *.
  destruct (K4 s3 prev) as ((O4 & IP4) & C4).
  destruct C4 as (S4 & IZ4); [congruence|congruence|].
  set (s4 := runUpdaters u4 s3) in *.
  destruct (runUpdaters_keepsView u5 s4 K5) as (S5 & O5 & IP5 & IZ5).
  rewrite S5, O5, IP5, IZ5, <- U3, <- U4.
  cbn [set_lastGestureTypeRef set_lastGestureRef panStartRef lastZoomDistanceRef].
  repeat split; congruence.
Qed.

End ReducerView.

Section ReducerTheorems.
Context {num : Type} {N : Number num}.
Local Open Scope num_scope.

Lemma handleGestureDetected_stroke (w : Window num) (ds : DrawingState num)
    (refs : Refs num) (g : GestureState num) (prev : DrawingState num) :
  currentPath (runUpdaters (snd (handleGestureDetected w ds refs g)) prev)
  = currentPath (runUpdaters (snd (drawingChannel ds refs g)) prev)
  /\ isDrawing (runUpdaters (snd (handleGestureDetected w ds refs g)) prev)
     = isDrawing (runUpdaters (snd (drawingChannel ds refs g)) prev).
Proof.
  destruct (handleGestureDetected_updaters w ds refs g) as (r2 & r3 & r4 & -> & _).
  rewrite runUpdaters_app.
  apply runUpdaters_keepsStroke. rewrite !Forall_app. repeat split.
  - apply panningChannel_keeps.
  - apply zoomChannel_keeps.
  - apply eraseChannel_keepsStroke.
Qed.

Lemma handleGestureDetected_lastType (w : Window num) (ds : DrawingState num)
    (refs : Refs num) (g : GestureState num) :
  lastGestureTypeRef (fst (handleGestureDetected w ds refs g)) = Some (gtype g).
Proof.
  unfold handleGestureDetected.
  destruct (drawingChannel ds refs g) as [r1 u1].
  destruct (panningChannel w ds _ g) as [r3 u3].
  destruct (zoomChannel ds r3 g) as [r4 u4].
  destruct (eraseChannel w ds r4 g) as [r5 u5]. reflexivity.
Qed.

Lemma step_drawingConsistent (w : Window num) (app : App num) (ev : Event num) :
  drawingConsistent app -> drawingConsistent (step w app ev).
Proof.
  intros [Hc Hd]. destruct ev as [g|position| |]; cbn [step].
  - pose proof (handleGestureDetected_stroke w (drawingState app) (appRefs app) g
                  (drawingState app)) as [Ec Ed].
    pose proof (handleGestureDetected_lastType w (drawingState app) (appRefs app) g)
      as Et.
    destruct (handleGestureDetected _ _ _ _) as [r us]. cbn [fst snd] in *.
    unfold drawingConsistent. cbn [drawingState appRefs].
    rewrite Ec, Ed, Et. clear Ec Ed Et.
    unfold drawingChannel, isType.
    destruct (gtype g) eqn:T; cbn [GestureType_eqb negb andb];
      destruct (isDrawing (drawingState app)) eqn:D; cbn [negb andb];
      repeat match goal with |- context [if ?c then _ else _] => destruct c end;
      cbn [snd runUpdaters fold_left]; unfold finishStroke;
      repeat match goal with |- context [if ?c then _ else _] => destruct c end;
      cbn [currentPath isDrawing startStroke];
      intuition congruence.
  - unfold handleHandPositionUpdate, appendPoint, drawingConsistent.
    destruct (lastGestureTypeRef (appRefs app)) as [[| | | |]|] eqn:T;
      try (cbn [drawingState appRefs lastGestureTypeRef set_lastDrawPositionRef
                  set_positionHistoryRef]; intuition congruence).
    destruct position as [p|];
      [|cbn [drawingState appRefs lastGestureTypeRef set_lastDrawPositionRef
               set_positionHistoryRef]; intuition congruence].
    destruct (tooClose _ _); [cbn; intuition congruence|].
    destruct (currentPath (drawingState app)) as [|p0 rest] eqn:Ec.
    + cbn. intuition congruence.
    + destruct (_ && _); cbn; rewrite ?Ec; intuition congruence.
  - split; [cbn; congruence|exact Hd].
  - split; [exact Hc|exact Hd].
Qed.

(** X8.  Whatever events arrive after start-up, a stroke in progress that
    has a point belongs to a drawing session, and during a drawing session
    the last gesture delivered was of type pinch. *)
Theorem stroke_needs_pinch (evs : list (Window num * Event num)) :
  let app := runEvents initialApp evs in
  (currentPath (drawingState app) <> [] -> isDrawing (drawingState app) = true)
  /\ (isDrawing (drawingState app) = true ->
      lastGestureTypeRef (appRefs app) = Some pinch).
Proof.
  cbv zeta.
  assert (G : forall app, drawingConsistent app -> drawingConsistent (runEvents app evs)).
  { induction evs as [|[w ev] evs IH]; intros app H; [exact H|].
    cbn [runEvents fold_left fst snd]. apply (IH (step w app ev)).
    apply step_drawingConsistent. exact H. }
  apply (G initialApp). split; [cbn; congruence|cbn; discriminate].
Qed.

Lemma step_drawingEvent (w : Window num) (app : App num) (ev : Event num) :
  drawingEvent ev = true ->
  paths (drawingState (step w app ev)) = paths (drawingState app)
  /\ scale (drawingState (step w app ev)) = scale (drawingState app)
  /\ offset (drawingState (step w app ev)) = offset (drawingState app)
  /\ (forall g, ev = GestureDetected g ->
      isPanning (drawingState (step w app ev)) = false
      /\ isZooming (drawingState (step w app ev)) = false
      /\ isErasing (drawingState (step w app ev)) = false).
Proof.
  destruct ev as [g|position| |]; cbn [drawingEvent]; try discriminate.
  - intros T. apply GestureType_eqb_eq in T. cbn [step].
    unfold handleGestureDetected, drawingChannel, panningChannel, zoomChannel,
      zoomAction, eraseChannel, isType. rewrite T.
    cbn [GestureType_eqb negb andb].
    destruct (isDrawing (drawingState app)), (isPanning (drawingState app)) eqn:P,
      (isZooming (drawingState app)) eqn:Z, (isErasing (drawingState app)) eqn:E;
      cbn [negb andb];
      repeat match goal with |- context [if ?c then _ else _] => destruct c end;
      cbn; repeat split; auto.
  - intros _. cbn [step]. unfold handleHandPositionUpdate, appendPoint.
    destruct (lastGestureTypeRef (appRefs app)) as [[| | | |]|];
      try (cbn; repeat split; auto; congruence).
    destruct position as [p|]; [|cbn; repeat split; auto; congruence].
    destruct (tooClose _ _); [cbn; repeat split; auto; congruence|].
    destruct (currentPath (drawingState app)) as [|p0 rest];
      [cbn; repeat split; auto; congruence|].
    destruct (_ && _); cbn; repeat split; auto; congruence.
Qed.

(** X9.  Gestures of type pinch and hand-position updates, in any number
    and order, change neither the completed strokes nor the scale nor the
    offset. *)
Theorem drawing_keeps_canvas (app : App num) (evs : list (Window num * Event num)) :
  forallb (fun we => drawingEvent (snd we)) evs = true ->
  paths (drawingState (runEvents app evs)) = paths (drawingState app)
  /\ scale (drawingState (runEvents app evs)) = scale (drawingState app)
  /\ offset (drawingState (runEvents app evs)) = offset (drawingState app).
Proof.
  revert app. induction evs as [|[w ev] evs IH]; intros app H; [auto|].
  cbn [forallb snd] in H. apply andb_prop in H. destruct H as [H1 H2].
  change (runEvents app ((w, ev) :: evs)) with (runEvents (step w app ev) evs).
  destruct (IH (step w app ev) H2) as (-> & -> & ->).
  destruct (step_drawingEvent w app ev H1) as (-> & -> & -> & _). auto.
Qed.

(* A pinch-typed gesture of any confidence arms the hand-position handler. *)
(** X10.  The confidence threshold 0.6 does not guard the hand-position
    handler: after start-up, a gesture of type pinch of any confidence
    followed by one hand position puts the application in a drawing session
    whose stroke holds the canvas point of that position. *)
Theorem weak_pinch_opens_stroke (w : Window num) (g : GestureState num)
    (position : Point num) :
  gtype g = pinch ->
  let app := runEvents initialApp
               [(w, GestureDetected g); (w, HandPositionUpdate (Some position))] in
  isDrawing (drawingState app) = true
  /\ currentPath (drawingState app)
     = [screenToCanvas w initialDrawingState
          (flipped (smoothedPosition [position]))].
Proof.
  intros T. cbv zeta. cbn [runEvents fold_left fst snd].
  set (a1 := step w initialApp (GestureDetected g)).
  assert (E1 : lastGestureTypeRef (appRefs a1) = Some pinch
               /\ lastDrawPositionRef (appRefs a1) = None
               /\ positionHistoryRef (appRefs a1) = []
               /\ drawingState a1 = initialDrawingState
                  \/ lastGestureTypeRef (appRefs a1) = Some pinch
               /\ lastDrawPositionRef (appRefs a1) = None
               /\ positionHistoryRef (appRefs a1) = []
               /\ drawingState a1 = startStroke initialDrawingState).
  { subst a1. cbn [step].
    unfold handleGestureDetected, drawingChannel, panningChannel, zoomChannel,
      zoomAction, eraseChannel, isType. rewrite T.
    cbn [GestureType_eqb negb andb initialApp drawingState appRefs
           initialDrawingState isDrawing isPanning isZooming isErasing].
    destruct (confidence g >? lit 0.6); cbn; rewrite ?T; auto 10. }
  assert (E : lastGestureTypeRef (appRefs a1) = Some pinch
              /\ lastDrawPositionRef (appRefs a1) = None
              /\ positionHistoryRef (appRefs a1) = []
              /\ currentPath (drawingState a1) = []
              /\ scale (drawingState a1) = scale (initialDrawingState (num:=num))
              /\ offset (drawingState a1) = offset (initialDrawingState (num:=num))).
  { destruct E1 as [(A & B & C & D)|(A & B & C & D)]; rewrite D; auto 10. }
  clear E1. clearbody a1. destruct E as (A & B & C & D & S & O).
  cbn [step]. unfold handleHandPositionUpdate. rewrite A, C.
  cbn [set_positionHistoryRef positionHistoryRef lastDrawPositionRef].
  rewrite B. cbn [tooClose]. unfold appendPoint. rewrite D.
  cbn [drawingState currentPath isDrawing pushHistory app length Nat.ltb Nat.leb
         SMOOTHING_WINDOW].
  split; [reflexivity|]. unfold screenToCanvas, flipped. rewrite S, O. reflexivity.
Qed.

End ReducerTheorems.

Lemma drawing_keeps_canvas_witness :
  let evs := [(win (num:=R), GestureDetected (gesture pinch 0.9 (pt 0.5 0.5)));
              (win, HandPositionUpdate (Some (pt 0.5 0.5)));
              (win, HandPositionUpdate (Some (pt 0.6 0.5)))] in
  paths (drawingState (runEvents initialApp evs)) = paths (initialDrawingState (num:=R))
  /\ scale (drawingState (runEvents initialApp evs)) = scale (initialDrawingState (num:=R))
  /\ offset (drawingState (runEvents initialApp evs))
     = offset (initialDrawingState (num:=R)).
Proof.
  intros evs. apply (drawing_keeps_canvas (num:=R) initialApp evs). reflexivity.
Defined.

Lemma weak_pinch_opens_stroke_witness :
  let app := runEvents initialApp
               [(win (num:=R), GestureDetected (gesture pinch 0.4 (pt 0.5 0.5)));
                (win, HandPositionUpdate (Some (pt 0.5 0.5)))] in
  isDrawing (drawingState app) = true
  /\ currentPath (drawingState app)
     = [screenToCanvas win initialDrawingState
          (flipped (smoothedPosition [pt 0.5 0.5]))].
Proof.
  apply (weak_pinch_opens_stroke (num:=R) win (gesture pinch 0.4 (pt 0.5 0.5))
           (pt 0.5 0.5)).
  reflexivity.
Defined.

Section PinchDraws.

(** X3.  On a hand of 21 landmarks, a result of type pinch has confidence
    0.4 (pointing) or [1 - 15 d], where [d] is the distance between thumb
    tip and index tip, and it exceeds the drawing threshold 0.6 exactly when
    [d < 2/75].  Handed to [handleGestureDetected] outside a drawing
    session, it makes the drawing block queue the start of a session exactly
    when [d < 2/75], and no update for a pinch with [2/75 <= d < 0.04] or
    for pointing; in every case the handler records the type pinch, which is
    what the hand-position handler tests. *)
Theorem pinch_draws_iff_close (l : list (Landmark R)) (t i : Landmark R) :
  length l = 21%nat -> nth_error l 4 = Some t -> nth_error l 8 = Some i ->
  exists g,
    detectGesture (Some l) = Some g
    /\ (gtype g = pinch ->
        (confidence g = 0.4 \/ confidence g = 1 - calculateDistance t i * 15)
        /\ (0.6 < confidence g <-> calculateDistance t i < 2 / 75)
        /\ forall (w : Window R) (ds : DrawingState R) (refs : Refs R),
             lastGestureTypeRef (fst (handleGestureDetected w ds refs g)) = Some pinch
             /\ (isDrawing ds = false ->
                 (calculateDistance t i < 2 / 75 ->
                  snd (drawingChannel ds refs g) = [startStroke])
                 /\ (2 / 75 <= calculateDistance t i ->
                     snd (drawingChannel ds refs g) = []))).
Proof.
  intros Hlen Ht Hi.
  destruct (detectGesture_pinch_confidence l t i Hlen Ht Hi) as (g & E & H).
  exists g. split; [exact E|]. intros T. destruct (H T) as (A & B).
  split; [exact A|]. split; [exact B|].
  intros w ds refs. split.
  - rewrite handleGestureDetected_lastType. rewrite T. reflexivity.
  - intros D. unfold drawingChannel, isType. rewrite T, D.
    cbn [GestureType_eqb andb negb nltb R_Number]. split; intros Hd.
    + replace (Real.ltb (lit 0.6) (confidence g)) with true; [reflexivity|].
      symmetry. apply Real_ltb_true. cbn [lit R_Number]. apply B. exact Hd.
    + replace (Real.ltb (lit 0.6) (confidence g)) with false; [reflexivity|].
      symmetry. apply Real_ltb_false. cbn [lit R_Number].
      apply Rnot_lt_le. intros C. apply B in C. lra.
Qed.

End PinchDraws.

Lemma pinch_draws_iff_close_witness :
  exists g,
    detectGesture (Some (closedHand (num:=R))) = Some g
    /\ (gtype g = pinch ->
        (confidence g = 0.4
         \/ confidence g = 1 - calculateDistance (lm (num:=R) 0.5 0.5) (lm 0.5 0.5) * 15)
        /\ (0.6 < confidence g
            <-> calculateDistance (lm (num:=R) 0.5 0.5) (lm 0.5 0.5) < 2 / 75)
        /\ forall (w : Window R) (ds : DrawingState R) (refs : Refs R),
             lastGestureTypeRef (fst (handleGestureDetected w ds refs g)) = Some pinch
             /\ (isDrawing ds = false ->
                 (calculateDistance (lm (num:=R) 0.5 0.5) (lm 0.5 0.5) < 2 / 75 ->
                  snd (drawingChannel ds refs g) = [startStroke])
                 /\ (2 / 75 <= calculateDistance (lm (num:=R) 0.5 0.5) (lm 0.5 0.5) ->
                     snd (drawingChannel ds refs g) = []))).
Proof.
  apply (pinch_draws_iff_close closedHand (lm 0.5 0.5) (lm 0.5 0.5)); reflexivity.
Defined.

Section PanFacts.
Context {num : Type} {N : Number num}.
Local Open Scope num_scope.

Lemma pan_step (w : Window num) (app : App num) (g : GestureState num) (ps : Point num) :
  panGesture g = true ->
  isPanning (drawingState app) = true ->
  panStartRef (appRefs app) = Some ps ->
  isPanning (drawingState (step w app (GestureDetected g))) = true
  /\ panStartRef (appRefs (step w app (GestureDetected g)))
     = Some (flippedScreenPoint w (position g))
  /\ offset (drawingState (step w app (GestureDetected g)))
     = mkPoint (px (offset (drawingState app))
                + (px (flippedScreenPoint w (position g)) - px ps))
               (py (offset (drawingState app))
                + (py (flippedScreenPoint w (position g)) - py ps)).
Proof.
  intros C P S. cbn [step].
  pose proof (handleGestureDetected_view w (drawingState app) (appRefs app) g
                (drawingState app)) as V.
  cbv zeta in V. destruct V as (_ & Vo & Vp & _ & Vs & _).
  destruct (handleGestureDetected _ _ _ _) as [r us]. cbn [fst snd] in *.
  cbn [drawingState appRefs]. rewrite Vo, Vp, Vs. clear Vo Vp Vs.
  unfold panGesture in C. unfold panningChannel. rewrite C, P, S.
  cbn. rewrite P. auto.
Qed.

(** X11.  While panning, a run of palm gestures of confidence above 0.7
    keeps panning on and leaves the pan start at the mirrored screen point
    of the last gesture; and each gesture adds to the offset, in the
    arithmetic of the code, the difference between its mirrored screen point
    and the pan start it finds: the initial one for the first gesture, the
    mirrored screen point of the gesture before it for the others.  Nothing
    else in the call changes the offset. *)
Theorem pan_follows_hand (app : App num) (ps : Point num)
    (gs : list (Window num * GestureState num)) (w : Window num) (g : GestureState num) :
  isPanning (drawingState app) = true ->
  panStartRef (appRefs app) = Some ps ->
  forallb (fun wg => panGesture (snd wg)) (gs ++ [(w, g)]) = true ->
  let run := map (fun wg => (fst wg, GestureDetected (snd wg))) in
  (exists ps',
     panStartRef (appRefs (runEvents app (run gs))) = Some ps'
     /\ isPanning (drawingState (runEvents app (run gs))) = true
     /\ offset (drawingState (runEvents app (run (gs ++ [(w, g)]))))
        = mkPoint (px (offset (drawingState (runEvents app (run gs))))
                   + (px (flippedScreenPoint w (position g)) - px ps'))
                  (py (offset (drawingState (runEvents app (run gs))))
                   + (py (flippedScreenPoint w (position g)) - py ps'))
     /\ (gs = [] -> ps' = ps)
     /\ (forall w0 g0 gs0, gs = gs0 ++ [(w0, g0)] ->
         ps' = flippedScreenPoint w0 (position g0)))
  /\ panStartRef (appRefs (runEvents app (run (gs ++ [(w, g)]))))
     = Some (flippedScreenPoint w (position g))
  /\ isPanning (drawingState (runEvents app (run (gs ++ [(w, g)])))) = true.
Proof.
  intros P S H. cbv zeta.
  rewrite forallb_app in H. apply andb_prop in H. destruct H as [Hgs Hg].
  cbn [forallb snd] in Hg. rewrite andb_true_r in Hg.
  assert (G : exists ps',
             panStartRef (appRefs (runEvents app
                (map (fun wg => (fst wg, GestureDetected (snd wg))) gs))) = Some ps'
             /\ isPanning (drawingState (runEvents app
                  (map (fun wg => (fst wg, GestureDetected (snd wg))) gs))) = true
             /\ (gs = [] -> ps' = ps)
             /\ (forall w0 g0 gs0, gs = gs0 ++ [(w0, g0)] ->
                 ps' = flippedScreenPoint w0 (position g0))).
  { clear Hg. induction gs as [|[w1 g1] gs IH] using rev_ind.
    - exists ps. cbn. repeat split; auto.
      intros w0 g0 gs0 E. destruct gs0; discriminate E.
    - rewrite forallb_app in Hgs. apply andb_prop in Hgs. destruct Hgs as [H1 H2].
      cbn [forallb snd] in H2. rewrite andb_true_r in H2.
      destruct (IH H1) as (ps1 & S1 & P1 & _).
      rewrite map_app. unfold runEvents. rewrite fold_left_app.
      cbn [map fold_left fst snd].
      change (fold_left _ ?l app) with (runEvents app l).
      destruct (pan_step w1 _ g1 ps1 H2 P1 S1) as (P2 & S2 & _).
      exists (flippedScreenPoint w1 (position g1)).
      repeat split; auto.
      + intros E. destruct gs; discriminate E.
      + intros w0 g0 gs0 E. apply app_inj_tail in E. destruct E as [_ E].
        injection E as <- <-. reflexivity. }
  destruct G as (ps' & S1 & P1 & E0 & E1).
  assert (R : runEvents app (map (fun wg => (fst wg, GestureDetected (snd wg)))
                               (gs ++ [(w, g)]))
              = step w (runEvents app (map (fun wg => (fst wg, GestureDetected (snd wg)))
                                         gs)) (GestureDetected g)).
  { rewrite map_app. unfold runEvents. rewrite fold_left_app. reflexivity. }
  rewrite R.
  destruct (pan_step w _ g ps' Hg P1 S1) as (P2 & S2 & O2).
  split; [|split; assumption].
  exists ps'. repeat split; assumption.
Qed.

End PanFacts.

Lemma pan_follows_hand_witness :
  let g := gesture (num:=float) palm 0.8 (pt 0.25 0.5) in
  let gs := [(win, gesture palm 0.8 (pt 0.5 0.5))] in
  let run := map (fun wg : Window float * GestureState float =>
                    (fst wg, GestureDetected (snd wg))) in
  (exists ps',
     panStartRef (appRefs (runEvents panningApp (run gs))) = Some ps'
     /\ isPanning (drawingState (runEvents panningApp (run gs))) = true
     /\ offset (drawingState (runEvents panningApp (run (gs ++ [(win, g)]))))
        = mkPoint (px (offset (drawingState (runEvents panningApp (run gs))))
                   + (px (flippedScreenPoint win (position g)) - px ps'))%num
                  (py (offset (drawingState (runEvents panningApp (run gs))))
                   + (py (flippedScreenPoint win (position g)) - py ps'))%num
     /\ (gs = [] -> ps' = pt 100 100)
     /\ (forall w0 g0 gs0, gs = gs0 ++ [(w0, g0)] ->
         ps' = flippedScreenPoint w0 (position g0)))
  /\ panStartRef (appRefs (runEvents panningApp (run (gs ++ [(win, g)]))))
     = Some (flippedScreenPoint win (position g))
  /\ isPanning (drawingState (runEvents panningApp (run (gs ++ [(win, g)])))) = true.
Proof.
  intros g gs.
  apply (pan_follows_hand (num:=float) panningApp (pt 100 100) gs win g);
    [reflexivity|reflexivity|vm_compute; reflexivity].
Defined.

(** ** Repetition and smoothing over the reals *)

Local Open Scope R_scope.

Section RealView.

Lemma panning_repeat (w : Window R) (ds : DrawingState R) (refs : Refs R)
    (g : GestureState R) (ds1 : DrawingState R) (refs1 : Refs R) :
  isPanning ds1 = isPanning (runUpdaters (snd (panningChannel w ds refs g)) ds) ->
  panStartRef refs1 = panStartRef (fst (panningChannel w ds refs g)) ->
  offset (runUpdaters (snd (panningChannel w ds1 refs1 g)) ds1) = offset ds1.
Proof.
  unfold panningChannel.
  destruct (isType g palm && _).
  - destruct (isPanning ds) eqn:P; cbn [negb].
    + destruct (panStartRef refs) eqn:S; cbn; rewrite ?P, ?S; intros -> ->; cbn.
      * destruct (offset ds1) as [ox oy]. cbn. f_equal; lra.
      * reflexivity.
    + cbn. intros -> ->. cbn. destruct (offset ds1) as [ox oy]. cbn. f_equal; lra.
  - destruct (isPanning ds && _) eqn:E; cbn.
    + intros -> _. reflexivity.
    + intros E1 _. rewrite E1, E. reflexivity.
Qed.

Lemma zooming_repeat (ds : DrawingState R) (refs : Refs R)
    (g : GestureState R) (ds1 : DrawingState R) (refs1 : Refs R) :
  0.1 <= scale ds <= 5 ->
  isZooming ds1 = isZooming (runUpdaters (snd (zoomChannel ds refs g)) ds) ->
  lastZoomDistanceRef refs1 = lastZoomDistanceRef (fst (zoomChannel ds refs g)) ->
  scale ds1 = scale (runUpdaters (snd (zoomChannel ds refs g)) ds) ->
  scale (runUpdaters (snd (zoomChannel ds1 refs1 g)) ds1) = scale ds1.
Proof.
  intros R0. unfold zoomChannel, zoomAction.
  set (gate := if isType g zoom then _ else None).
  intros HZ HL HS.
  assert (Tg : forall d, gate = Some d -> truthy d = true).
  { intros d G. subst gate. destruct (isType g zoom); [|discriminate].
    destruct (distance g) as [d'|]; [|discriminate].
    destruct (truthy d' && _) eqn:E; [|discriminate].
    injection G as <-. apply andb_prop in E. tauto. }
  destruct gate as [d|].
  - pose proof (Tg d eq_refl) as Td.
    assert (Hd : d <> 0) by (apply Real_truthy_true; exact Td).
    assert (K : forall x, 0.1 <= x <= 5 -> clampScale (x * (d / d)) = x).
    { intros x Hx. replace (x * (d / d)) with x by (field; exact Hd).
      apply clamp_cases. exact Hx. }
    destruct (isZooming ds) eqn:Z; cbn [negb] in HZ, HL, HS.
    + destruct (lastZoomDistanceRef refs) as [last|] eqn:L;
        [destruct (truthy last) eqn:TL|];
        cbn [snd fst runUpdaters fold_left setScale scale isZooming
               set_lastZoomDistanceRef lastZoomDistanceRef] in HZ, HL, HS;
        rewrite Z in HZ; rewrite HZ, HL; rewrite ?L; cbn [negb]; rewrite ?Td, ?TL;
        cbn [snd fst runUpdaters fold_left setScale scale]; try reflexivity.
      change (clampScale (scale ds1 * (d / d)) = scale ds1). apply K.
      rewrite HS. apply clamp_range.
    + cbn [snd fst runUpdaters fold_left setZooming scale isZooming
             set_lastZoomDistanceRef lastZoomDistanceRef] in HZ, HL, HS.
      rewrite HZ, HL. cbn [negb]. rewrite Td.
      cbn [snd fst runUpdaters fold_left setScale scale].
      change (clampScale (scale ds1 * (d / d)) = scale ds1). apply K.
      rewrite HS. exact R0.
  - destruct (isZooming ds && negb (isType g zoom)) eqn:Z;
      cbn [snd fst runUpdaters fold_left setZooming scale isZooming] in HZ, HL, HS;
      rewrite HZ; rewrite ?Z; reflexivity.
Qed.

Lemma repeated_step_view (w : Window R) (app : App R) (g : GestureState R) :
  0.1 <= scale (drawingState app) <= 5 ->
  scale (drawingState (step w (step w app (GestureDetected g)) (GestureDetected g)))
  = scale (drawingState (step w app (GestureDetected g)))
  /\ offset (drawingState (step w (step w app (GestureDetected g)) (GestureDetected g)))
     = offset (drawingState (step w app (GestureDetected g))).
Proof.
  intros R0.
  set (app1 := step w app (GestureDetected g)).
  assert (V1 : scale (drawingState app1)
               = scale (runUpdaters (snd (zoomChannel (drawingState app) (appRefs app) g))
                                    (drawingState app))
               /\ isPanning (drawingState app1)
                  = isPanning (runUpdaters
                                 (snd (panningChannel w (drawingState app)
                                         (appRefs app) g)) (drawingState app))
               /\ isZooming (drawingState app1)
                  = isZooming (runUpdaters
                                 (snd (zoomChannel (drawingState app) (appRefs app) g))
                                 (drawingState app))
               /\ panStartRef (appRefs app1)
                  = panStartRef (fst (panningChannel w (drawingState app)
                                        (appRefs app) g))
               /\ lastZoomDistanceRef (appRefs app1)
                  = lastZoomDistanceRef (fst (zoomChannel (drawingState app)
                                                (appRefs app) g))).
  { subst app1. cbn [step].
    pose proof (handleGestureDetected_view w (drawingState app) (appRefs app) g
                  (drawingState app)) as V.
    cbv zeta in V. destruct V as (Vs & _ & Vp & Vz & Vps & Vlz).
    destruct (handleGestureDetected _ _ _ _) as [r us]. cbn [fst snd] in *.
    cbn [drawingState appRefs]. auto. }
  clearbody app1. destruct V1 as (S1 & P1 & Z1 & PS1 & LZ1).
  cbn [step].
  pose proof (handleGestureDetected_view w (drawingState app1) (appRefs app1) g
                (drawingState app1)) as V.
  cbv zeta in V. destruct V as (Vs & Vo & _).
  destruct (handleGestureDetected _ _ _ _) as [r us]. cbn [fst snd] in *.
  cbn [drawingState]. rewrite Vs, Vo. split.
  - exact (zooming_repeat (drawingState app) (appRefs app) g (drawingState app1)
             (appRefs app1) R0 Z1 LZ1 S1).
  - exact (panning_repeat w (drawingState app) (appRefs app) g (drawingState app1)
             (appRefs app1) P1 PS1).
Qed.

(** Smoothing *)

Lemma fold_sum_bounds (f : Point R -> R) (lo hi : R) (history : list (Point R)) (a : R) :
  Forall (fun p => lo <= f p <= hi) history ->
  a + INR (length history) * lo
  <= fold_left (fun sum p => sum + f p) history a
  <= a + INR (length history) * hi.
Proof.
  intros H. revert a. induction H as [|p l Hp _ IH]; intros a.
  - cbn. lra.
  - change (fold_left (fun sum p => sum + f p) (p :: l) a)
      with (fold_left (fun sum p => sum + f p) l (a + f p)).
    specialize (IH (a + f p)).
    change (length (p :: l)) with (S (length l)). rewrite S_INR. lra.
Qed.

Lemma ofNat_INR (n : nat) : ofNat (num:=R) n = INR n.
Proof.
  unfold ofNat. cbn [lit R_Number]. unfold inject_Z. rewrite Q2R_int.
  symmetry. apply INR_IZR_INZ.
Qed.

(* In exact arithmetic the average stays in the bounding box. *)
Lemma smoothedPosition_exact_range (history : list (Point R)) (lo hi : Point R) :
  history <> [] ->
  Forall (fun p => px lo <= px p <= px hi /\ py lo <= py p <= py hi) history ->
  px lo <= px (smoothedPosition history) <= px hi
  /\ py lo <= py (smoothedPosition history) <= py hi.
Proof.
  intros Hne H.
  assert (Hn : 0 < INR (length history)).
  { destruct history; [contradiction|]. apply lt_0_INR. cbn. lia. }
  unfold smoothedPosition. cbn [px py]. rewrite ofNat_INR.
  cbn [lit R_Number ndiv nadd].
  assert (Hx := fold_sum_bounds (@px R) (px lo) (px hi) history (Q2R 0)
                  (Forall_impl _ (fun p Hp => proj1 Hp) H)).
  assert (Hy := fold_sum_bounds (@py R) (py lo) (py hi) history (Q2R 0)
                  (Forall_impl _ (fun p Hp => proj2 Hp) H)).
  change (fun sum p => sum + px p) with (fun sum (p : Point R) => sum + px p) in Hx.
  replace (Q2R 0) with 0 in * by (unfold Q2R; cbn; lra).
  set (sx := fold_left _ history 0) in *.
  set (sy := fold_left _ history 0) in *.
  set (n := INR (length history)) in *.
  repeat split.
  - apply Rmult_le_reg_r with n; [exact Hn|]. unfold Rdiv.
    rewrite Rmult_assoc, Rinv_l by lra. lra.
  - apply Rmult_le_reg_r with n; [exact Hn|]. unfold Rdiv.
    rewrite Rmult_assoc, Rinv_l by lra. lra.
  - apply Rmult_le_reg_r with n; [exact Hn|]. unfold Rdiv.
    rewrite Rmult_assoc, Rinv_l by lra. lra.
  - apply Rmult_le_reg_r with n; [exact Hn|]. unfold Rdiv.
    rewrite Rmult_assoc, Rinv_l by lra. lra.
Qed.

End RealView.


(** ** The simple detector: hysteresis and what it can report *)

Section HysteresisFacts.
Context {num : Type} {N : Number num}.
Local Open Scope num_scope.
Import SimpleGestureState.

Lemma updateGestureState_counters (d : Detector (num:=num)) (g : GestureState num) :
  (gestureCounter (updateGestureState d g) <= 3)%nat
  /\ (noGestureCounter (updateGestureState d g) <= 5)%nat
  /\ (gestureCounter (updateGestureState d g) = 0%nat
      \/ noGestureCounter (updateGestureState d g) = 0%nat).
Proof.
  unfold updateGestureState.
  destruct (negb _).
  - destruct (confidence g >? lit 0.3);
      match goal with |- context [Nat.leb ?a ?b] => destruct (Nat.leb a b) eqn:E end;
      cbn [gestureCounter noGestureCounter];
      try apply Nat.leb_gt in E; repeat split; auto; lia.
  - match goal with |- context [Nat.leb ?a ?b] => destruct (Nat.leb a b) eqn:E end;
      cbn [gestureCounter noGestureCounter];
      try apply Nat.leb_gt in E; repeat split; auto; lia.
Qed.

(** X14.  Whatever gestures the hysteresis of the simple detector is fed,
    its detection counter stays at most 3, its miss counter at most 5, and
    one of the two is 0. *)
Theorem hysteresis_counters_bounded (gs : list (GestureState num)) :
  let d := fold_left updateGestureState gs initialDetector in
  (gestureCounter d <= 3)%nat /\ (noGestureCounter d <= 5)%nat
  /\ (gestureCounter d = 0%nat \/ noGestureCounter d = 0%nat).
Proof.
  cbv zeta. destruct gs as [|g gs] using rev_ind.
  - cbn. repeat split; auto; lia.
  - rewrite fold_left_app. cbn [fold_left]. apply updateGestureState_counters.
Qed.

Lemma updateGestureState_detect (d : Detector (num:=num)) (g : GestureState num) :
  isNone g = false ->
  (1 <= gestureCounter (updateGestureState d g))%nat
  /\ (gestureCounter d < gestureCounter (updateGestureState d g)
      \/ currentGesture (updateGestureState d g) = g)%nat
  /\ (2 <= gestureCounter d -> currentGesture (updateGestureState d g) = g)%nat
  /\ (1 <= gestureCounter d -> (confidence g >? lit 0.3) = true ->
      currentGesture (updateGestureState d g) = g)%nat.
Proof.
  unfold isNone, updateGestureState. intros ->. cbn [negb].
  destruct (confidence g >? lit 0.3);
    match goal with |- context [Nat.leb ?a ?b] => destruct (Nat.leb a b) eqn:E end;
    cbn [gestureCounter currentGesture];
    first [apply Nat.leb_gt in E|apply Nat.leb_le in E];
    repeat split; auto; intros; try lia; try discriminate.
Qed.

(** X15.  Three detections in a row, of any types other than none and of
    any confidence, make the third one the current gesture; two in a row do
    when the second has confidence above 0.3. *)
Theorem hysteresis_switch (d : Detector (num:=num)) (g1 g2 g3 : GestureState num) :
  isNone g1 = false -> isNone g2 = false -> isNone g3 = false ->
  currentGesture (updateGestureState (updateGestureState (updateGestureState d g1) g2) g3)
  = g3
  /\ ((confidence g2 >? lit 0.3) = true ->
      currentGesture (updateGestureState (updateGestureState d g1) g2) = g2).
Proof.
  intros H1 H2 H3.
  destruct (updateGestureState_detect d g1 H1) as (A1 & _).
  set (d1 := updateGestureState d g1) in *.
  destruct (updateGestureState_detect d1 g2 H2) as (A2 & B2 & _ & D2).
  set (d2 := updateGestureState d1 g2) in *.
  destruct (updateGestureState_detect d2 g3 H3) as (_ & _ & C3 & _).
  split; [|auto].
  apply C3. destruct B2 as [B2|B2]; [lia|].
  (* the second gesture was adopted: the counter was capped at 2 or 3 *)
  subst d2. revert B2. unfold updateGestureState. unfold isNone in H2. rewrite H2.
  cbn [negb].
  destruct (confidence g2 >? lit 0.3);
    match goal with |- context [Nat.leb ?a ?b] => destruct (Nat.leb a b) eqn:E end;
    cbn [gestureCounter currentGesture]; intros; try lia;
    apply Nat.leb_gt in E; lia.
Qed.

Lemma updateGestureState_miss (d : Detector (num:=num)) (g : GestureState num) :
  isNone g = true ->
  noGestureCounter (updateGestureState d g) = Nat.min 5 (S (noGestureCounter d))
  /\ ((S (noGestureCounter d) < 5)%nat ->
      currentGesture (updateGestureState d g) = currentGesture d)
  /\ ((5 <= S (noGestureCounter d))%nat ->
      currentGesture (updateGestureState d g) = g).
Proof.
  unfold isNone, updateGestureState. intros ->. cbn [negb].
  match goal with |- context [Nat.leb ?a ?b] => destruct (Nat.leb a b) eqn:E end;
    cbn [noGestureCounter currentGesture];
    first [apply Nat.leb_gt in E|apply Nat.leb_le in E];
    repeat split; auto; intros; lia.
Qed.

(** X16.  A run of misses keeps the current gesture as long as the miss
    counter stays below 5, and clears it (type none) from the fifth miss
    on. *)
Theorem hysteresis_misses (d : Detector (num:=num)) (gs : list (GestureState num)) :
  forallb isNone gs = true ->
  let d' := fold_left updateGestureState gs d in
  ((noGestureCounter d + length gs < 5)%nat -> currentGesture d' = currentGesture d)
  /\ ((5 <= noGestureCounter d + length gs)%nat -> gs <> [] ->
      gtype (currentGesture d') = none).
Proof.
  cbv zeta. revert d. induction gs as [|g gs IH]; intros d H.
  - split; [reflexivity|intros _ C; contradiction].
  - cbn [forallb] in H. apply andb_prop in H. destruct H as [Hg Hgs].
    cbn [fold_left length].
    destruct (updateGestureState_miss d g Hg) as (C & K & S5).
    destruct (IH (updateGestureState d g) Hgs) as [IH1 IH2].
    rewrite C in IH1, IH2. split.
    + intros L. rewrite IH1 by lia. apply K. lia.
    + intros L _. destruct gs as [|g' gs'].
      * cbn [fold_left]. rewrite S5 by (cbn in L; lia).
        apply GestureType_eqb_eq. exact Hg.
      * apply IH2; [cbn [length] in *; lia|discriminate].
Qed.

End HysteresisFacts.

Lemma hysteresis_switch_witness :
  let g1 := gesture (num:=R) pinch 0.2 (pt 0.5 0.5) in
  let g2 := gesture (num:=R) palm 0.2 (pt 0.5 0.5) in
  let g3 := gesture (num:=R) pinch 0.1 (pt 0.5 0.5) in
  let d := SimpleGestureState.initialDetector in
  SimpleGestureState.currentGesture
    (SimpleGestureState.updateGestureState
       (SimpleGestureState.updateGestureState
          (SimpleGestureState.updateGestureState d g1) g2) g3) = g3
  /\ ((confidence g2 >? lit 0.3)%num = true ->
      SimpleGestureState.currentGesture
        (SimpleGestureState.updateGestureState
           (SimpleGestureState.updateGestureState d g1) g2) = g2).
Proof.
  intros g1 g2 g3 d. apply (hysteresis_switch d g1 g2 g3); reflexivity.
Defined.

Lemma hysteresis_misses_witness :
  let d := SimpleGestureState.mkDetector 2 0 (gesture (num:=R) pinch 0.5 (pt 0.5 0.5)) in
  let gs := [noGesture; noGesture] in
  let d' := fold_left SimpleGestureState.updateGestureState gs d in
  ((SimpleGestureState.noGestureCounter d + length gs < 5)%nat ->
   SimpleGestureState.currentGesture d' = SimpleGestureState.currentGesture d)
  /\ ((5 <= SimpleGestureState.noGestureCounter d + length gs)%nat -> gs <> [] ->
      gtype (SimpleGestureState.currentGesture d') = none).
Proof.
  intros d gs. apply (hysteresis_misses d gs). reflexivity.
Defined.

Section SimpleDetectorFacts.
Import SimpleGestureState.

Lemma determineGesture_simple (regions : Regions) (motionScore : float) :
  simpleGesture (determineGesture regions motionScore).
Proof.
  unfold determineGesture, simpleGesture.
  repeat match goal with |- context [if ?c then _ else _] => destruct c end;
    cbn; auto.
Qed.

Lemma updateGestureState_either (d : Detector (num:=float)) (g : GestureState float) :
  currentGesture (updateGestureState d g) = g
  \/ currentGesture (updateGestureState d g) = currentGesture d.
Proof.
  unfold updateGestureState.
  repeat match goal with |- context [if ?c then _ else _] => destruct c end;
    cbn; auto.
Qed.

(** X17.  Over any sequence of frames, the gesture the simple detector
    reports is a pinch, a palm or none and carries no distance: it never
    reports a zoom or a fist. *)
Theorem simple_detector_never_zooms (frames : list (Regions * float)) :
  let g := currentGesture (analyzeFrames initialDetector frames) in
  (gtype g = pinch \/ gtype g = palm \/ gtype g = none) /\ distance g = None.
Proof.
  cbv zeta. unfold analyzeFrames.
  induction frames as [|[r m] frames IH] using rev_ind.
  - cbn. auto.
  - rewrite fold_left_app. cbn [fold_left fst snd]. unfold analyzeFrame.
    destruct (updateGestureState_either
                (fold_left (fun d rm => updateGestureState d
                                          (determineGesture (fst rm) (snd rm)))
                           frames initialDetector)
                (determineGesture r m)) as [E|E]; rewrite E.
    + apply determineGesture_simple.
    + exact IH.
Qed.

End SimpleDetectorFacts.

Section ThrottleFacts.
Context {num : Type} {N : Number num}.

Lemma gestureTick_type (lastGesture g : GestureState num) :
  gtype (gestureTick lastGesture g) = gtype g.
Proof.
  unfold gestureTick.
  destruct (GestureType_eqb (gtype g) (gtype lastGesture)) eqn:E; cbn [negb orb].
  - destruct (_ >? _)%num; [reflexivity|].
    symmetry. apply GestureType_eqb_eq. exact E.
  - reflexivity.
Qed.

End ThrottleFacts.

(** ** The gesture interval of [CameraView] *)

Local Open Scope R_scope.

Section RealThrottle.

(** X18.  The gesture the interval of [CameraView] forwards has the type
    of the gesture just classified and a confidence within 0.1 of it. *)
Theorem gestureTick_close (lastGesture g : GestureState R) :
  gtype (gestureTick lastGesture g) = gtype g
  /\ Rabs (confidence (gestureTick lastGesture g) - confidence g) <= 0.1.
Proof.
  split; [apply gestureTick_type|].
  unfold gestureTick.
  destruct (negb _ || _) eqn:E.
  - replace (confidence g - confidence g) with 0 by lra. rewrite Rabs_R0. lra.
  - apply orb_false_elim in E. destruct E as [_ E].
    apply Real_ltb_false in E. cbn [Math_abs lit nsub R_Number] in E.
    rewrite Rabs_minus_sym. exact E.
Qed.

Lemma gestureTick_same (lastGesture g : GestureState R) :
  gtype g = gtype lastGesture -> confidence g = confidence lastGesture ->
  gestureTick lastGesture g = lastGesture.
Proof.
  intros T C. unfold gestureTick. rewrite T, C.
  replace (GestureType_eqb (gtype lastGesture) (gtype lastGesture)) with true
    by (symmetry; apply GestureType_eqb_eq; reflexivity).
  cbn [negb orb nltb Math_abs nsub lit R_Number].
  replace (Real.ltb _ _) with false; [reflexivity|].
  symmetry. apply Real_ltb_false.
  replace (confidence lastGesture - confidence lastGesture) with 0 by lra.
  rewrite Rabs_R0. lra.
Qed.

Lemma gestureTicks_frozen_aux (lastGesture : GestureState R)
    (gs : list (GestureState R)) :
  Forall (fun g => gtype g = gtype lastGesture
                   /\ confidence g = confidence lastGesture) gs ->
  gestureTicks lastGesture gs = repeat lastGesture (length gs).
Proof.
  induction 1 as [|g gs [T C] _ IH]; [reflexivity|].
  cbn [gestureTicks length repeat]. rewrite (gestureTick_same lastGesture g T C).
  rewrite IH. reflexivity.
Qed.

End RealThrottle.

Section RealRepeat.

Lemma repeated_steps_view (w : Window R) (app : App R) (g : GestureState R) (n : nat) :
  0.1 <= scale (drawingState app) <= 5 ->
  scale (drawingState (runEvents (step w app (GestureDetected g))
                                 (repeat (w, GestureDetected g) n)))
  = scale (drawingState (step w app (GestureDetected g)))
  /\ offset (drawingState (runEvents (step w app (GestureDetected g))
                                     (repeat (w, GestureDetected g) n)))
     = offset (drawingState (step w app (GestureDetected g))).
Proof.
  revert app. induction n as [|n IH]; intros app H; [split; reflexivity|].
  cbn [repeat].
  change (runEvents ?a ((w, GestureDetected g) :: ?l))
    with (runEvents (step w a (GestureDetected g)) l).
  destruct (IH (step w app (GestureDetected g))
               (step_scale_range w app (GestureDetected g) H)) as [-> ->].
  apply repeated_step_view. exact H.
Qed.

(** X12.  Delivering the same gesture again, any number of times, changes
    neither the scale nor the offset reached after its first delivery. *)
Theorem repeated_gesture_keeps_view (w : Window R) (app : App R) (g : GestureState R)
    (n : nat) :
  0.1 <= scale (drawingState app) <= 5 ->
  let app1 := step w app (GestureDetected g) in
  let app' := runEvents app1 (repeat (w, GestureDetected g) n) in
  scale (drawingState app') = scale (drawingState app1)
  /\ offset (drawingState app') = offset (drawingState app1).
Proof. intros H. exact (repeated_steps_view w app g n H). Qed.

(** X19.  When the classified gestures keep their type and confidence
    (a palm always has confidence 0.8), the interval of [CameraView]
    forwards the first of them again and again, with its first position; so
    after the first delivery neither the offset nor the scale changes,
    wherever the hand moves. *)
Theorem throttled_gesture_freezes_view (w : Window R) (app : App R)
    (lastGesture g : GestureState R) (rest : list (GestureState R)) :
  0.1 <= scale (drawingState app) <= 5 ->
  GestureType_eqb (gtype g) (gtype lastGesture) = false ->
  Forall (fun g' => gtype g' = gtype g /\ confidence g' = confidence g) rest ->
  let forwarded := gestureTicks lastGesture (g :: rest) in
  let app' := runEvents app (map (fun g' => (w, GestureDetected g')) forwarded) in
  forwarded = repeat g (S (length rest))
  /\ scale (drawingState app') = scale (drawingState (step w app (GestureDetected g)))
  /\ offset (drawingState app') = offset (drawingState (step w app (GestureDetected g))).
Proof.
  intros H T F. cbv zeta.
  assert (E : gestureTicks lastGesture (g :: rest) = repeat g (S (length rest))).
  { cbn [gestureTicks repeat]. unfold gestureTick at 1 2. rewrite T. cbn [negb orb].
    rewrite (gestureTicks_frozen_aux g rest F). reflexivity. }
  rewrite E. split; [reflexivity|].
  cbn [repeat map].
  change (runEvents app ((w, GestureDetected g) :: ?l))
    with (runEvents (step w app (GestureDetected g)) l).
  rewrite map_repeat. apply repeated_steps_view. exact H.
Qed.

End RealRepeat.

Lemma repeated_gesture_keeps_view_witness :
  let g := zoomGesture (num:=R) 0.2 in
  let app1 := step win zoomingApp (GestureDetected g) in
  let app' := runEvents app1 (repeat (win, GestureDetected g) 3) in
  scale (drawingState app') = scale (drawingState app1)
  /\ offset (drawingState app') = offset (drawingState app1).
Proof.
  intros g. apply (repeated_gesture_keeps_view win zoomingApp g 3).
  unfold zoomingApp. apply step_scale_range.
  cbn [initialApp drawingState initialDrawingState scale lit R_Number].
  rewrite Q2R_int. lra.
Defined.

Lemma throttled_gesture_freezes_view_witness :
  let g := gesture (num:=R) palm 0.8 (pt 0.5 0.5) in
  let rest := [gesture palm 0.8 (pt 0.6 0.5); gesture palm 0.8 (pt 0.7 0.5)] in
  let forwarded := gestureTicks noGesture (g :: rest) in
  let app' := runEvents panningApp
                (map (fun g' => (win, GestureDetected g')) forwarded) in
  forwarded = repeat g (S (length rest))
  /\ scale (drawingState app')
     = scale (drawingState (step win panningApp (GestureDetected g)))
  /\ offset (drawingState app')
     = offset (drawingState (step win panningApp (GestureDetected g))).
Proof.
  intros g rest.
  apply (throttled_gesture_freezes_view win panningApp noGesture g rest);
    [cbn [panningApp drawingState scale lit R_Number]; rewrite Q2R_int; lra
    |reflexivity|].
  apply Forall_cons; [|apply Forall_cons; [|apply Forall_nil]]; split; reflexivity.
Defined.

(** ** The one-euro filter *)

Local Open Scope R_scope.


Section OneEuroFacts.
Import OneEuro.

Lemma alpha_unit (cutoff dt : R) :
  0 < cutoff -> 0 < dt -> 0 < alpha PI cutoff dt < 1.
Proof.
  intros Hc Hd. unfold alpha. cbn [lit R_Number ndiv nmul nadd].
  replace (Q2R 1) with 1 by (unfold Q2R; cbn; lra).
  replace (Q2R 2) with 2 by (unfold Q2R; cbn; lra).
  assert (Hp := PI_RGT_0).
  assert (Ht : 0 < 1 / (2 * PI * cutoff)).
  { apply Rdiv_lt_0_compat; [lra|]. apply Rmult_lt_0_compat; lra. }
  assert (Hq : 0 < 1 / (2 * PI * cutoff) / dt) by (apply Rdiv_lt_0_compat; lra).
  set (q := 1 / (2 * PI * cutoff) / dt) in *.
  split.
  - apply Rdiv_lt_0_compat; lra.
  - apply Rmult_lt_reg_r with (1 + q); [lra|].
    unfold Rdiv. rewrite Rmult_assoc, Rinv_l by lra. lra.
Qed.

Lemma filter_step (f : OneEuroFilter (num:=R)) (x timestamp lo hi : R) :
  lowPass f -> estimateIn lo hi f -> lo <= x <= hi ->
  lowPass (fst (filter PI f x timestamp))
  /\ xHatPrev (fst (filter PI f x timestamp)) = Some (snd (filter PI f x timestamp))
  /\ lo <= snd (filter PI f x timestamp) <= hi
  /\ (xHatPrev f = None -> snd (filter PI f x timestamp) = x)
  /\ (forall h, xHatPrev f = Some h ->
      Rmin h x <= snd (filter PI f x timestamp) <= Rmax h x).
Proof.
  intros (Hm & Hb & Hd & Hf) He Hx. unfold filter. cbn [fst snd].
  split; [exact (conj Hm (conj Hb (conj Hd Hf)))|]. cbn [xHatPrev].
  split; [reflexivity|].
  set (dt := match lastTime f with Some last => _ | None => _ end).
  assert (Hdt : 0 < dt).
  { assert (H1 : 0 < lit 1 / freq f).
    { cbn [lit R_Number ndiv]. replace (Q2R 1) with 1 by (unfold Q2R; cbn; lra).
      apply Rdiv_lt_0_compat; lra. }
    subst dt. destruct (lastTime f); [|exact H1].
    cbn [Math_max R_Number]. eapply Rlt_le_trans; [exact H1|apply Rmax_r]. }
  set (dxHat := (dxHatPrev f + _ * _)%num).
  assert (Hc : 0 < (minCutoff f + beta f * Math_abs dxHat)%num).
  { cbn [nadd nmul Math_abs R_Number].
    assert (0 <= beta f * Rabs dxHat)
      by (apply Rmult_le_pos; [exact Hb|apply Rabs_pos]).
    lra. }
  set (a := alpha PI _ dt).
  assert (A : 0 < a < 1) by (subst a; apply alpha_unit; [exact Hc|exact Hdt]).
  destruct A as [A0 A1]. clearbody a.
  unfold estimateIn in He.
  destruct (xHatPrev f) as [h|].
  - cbn [nadd nmul nsub R_Number].
    assert (B : Rmin h x <= h + a * (x - h) <= Rmax h x).
    { unfold Rmin, Rmax. destruct (Rle_dec h x) as [L|L].
      - assert (0 <= a * (x - h)) by (apply Rmult_le_pos; lra).
        assert (0 <= (1 - a) * (x - h)) by (apply Rmult_le_pos; lra). lra.
      - assert (0 <= a * (h - x)) by (apply Rmult_le_pos; lra).
        assert (0 <= (1 - a) * (h - x)) by (apply Rmult_le_pos; lra). lra. }
    split; [|split; [discriminate|intros h' [= <-]; exact B]].
    unfold Rmin, Rmax in B. destruct (Rle_dec h x); lra.
  - split; [exact Hx|]. split; [reflexivity|discriminate].
Qed.

Lemma filterAll_range (f : OneEuroFilter (num:=R)) (samples : list (R * R)) (lo hi : R) :
  lowPass f -> estimateIn lo hi f ->
  Forall (fun xt => lo <= fst xt <= hi) samples ->
  Forall (fun y => lo <= y <= hi) (snd (filterAll PI f samples))
  /\ length (snd (filterAll PI f samples)) = length samples.
Proof.
  intros Hl He H. revert f Hl He.
  induction H as [|[x t] samples Hx _ IH]; intros f Hl He.
  - cbn. split; [constructor|reflexivity].
  - cbn [filterAll]. cbn [fst] in Hx.
    destruct (filter_step f x t lo hi Hl He Hx) as (Hl1 & E1 & R1 & _).
    destruct (filter PI f x t) as [f1 y]. cbn [fst snd] in *.
    assert (He1 : estimateIn lo hi f1) by (unfold estimateIn; rewrite E1; exact R1).
    destruct (IH f1 Hl1 He1) as [IH1 IH2].
    destruct (filterAll PI f1 samples) as [f2 ys]. cbn [snd] in *.
    split; [constructor; assumption|cbn; congruence].
Qed.

(** X21.  A freshly constructed filter with positive cutoffs and
    frequency and non-negative beta returns one value per sample, the first
    sample unchanged, and no value outside the range of the samples,
    whatever the timestamps. *)
Theorem filtered_within_samples (options : OneEuroFilter2DOptions (num:=R))
    (samples : list (R * R)) (lo hi : R) :
  lowPass (newOneEuroFilter options) ->
  Forall (fun xt => lo <= fst xt <= hi) samples ->
  let outputs := snd (filterAll PI (newOneEuroFilter options) samples) in
  length outputs = length samples
  /\ Forall (fun y => lo <= y <= hi) outputs
  /\ (forall x t rest, samples = (x, t) :: rest -> hd_error outputs = Some x).
Proof.
  intros Hl H. cbv zeta.
  destruct (filterAll_range (newOneEuroFilter options) samples lo hi Hl I H)
    as [A B].
  split; [exact B|]. split; [exact A|].
  intros x t rest ->. cbn [filterAll].
  unfold filter. cbn [xHatPrev newOneEuroFilter].
  destruct (filterAll PI _ rest) as [f2 ys]. reflexivity.
Qed.

End OneEuroFacts.

Lemma filtered_within_samples_witness :
  let samples := [(0.5, 0); (0.7, 16); (0.6, 33)] in
  let outputs :=
    snd (OneEuro.filterAll PI (OneEuro.newOneEuroFilter defaultOptions) samples) in
  length outputs = length samples
  /\ Forall (fun y => 0 <= y <= 1) outputs
  /\ (forall x t rest, samples = (x, t) :: rest -> hd_error outputs = Some x).
Proof.
  intros samples.
  apply (filtered_within_samples defaultOptions samples 0 1).
  - unfold lowPass.
    cbn [OneEuro.newOneEuroFilter defaultOptions OneEuro.orDefault OneEuro.opt_minCutoff
           OneEuro.opt_beta OneEuro.opt_dCutoff OneEuro.opt_freq OneEuro.minCutoff
           OneEuro.beta OneEuro.dCutoff OneEuro.freq lit R_Number].
    rewrite !Q2R_int. lra.
  - apply Forall_cons; [|apply Forall_cons; [|apply Forall_cons; [|apply Forall_nil]]];
      cbn [fst]; lra.
Defined.

Section OneEuroGeneric.
Context {num : Type} {N : Number num}.
Variable Math_PI : num.
Import OneEuro.

Lemma filter_reset (f : OneEuroFilter (num:=num)) (x timestamp : num) :
  reset (fst (filter Math_PI f x timestamp)) = reset f.
Proof. reflexivity. Qed.

Lemma filterAll_reset (f : OneEuroFilter (num:=num)) (samples : list (num * num)) :
  reset (fst (filterAll Math_PI f samples)) = reset f.
Proof.
  revert f. induction samples as [|[x t] samples IH]; intros f; [reflexivity|].
  cbn [filterAll]. specialize (IH (fst (filter Math_PI f x t))).
  destruct (filter Math_PI f x t) as [f1 y] eqn:E1. cbn [fst] in IH.
  destruct (filterAll Math_PI f1 samples) as [f2 ys]. cbn [fst] in *.
  rewrite IH. change f1 with (fst (f1, y)). rewrite <- E1. apply filter_reset.
Qed.

Lemma filter2D_reset (f : OneEuroFilter2D (num:=num)) (point : Point num)
    (timestamp : num) :
  reset2D (fst (filter2D Math_PI f point timestamp)) = reset2D f.
Proof. reflexivity. Qed.

Lemma filterAll2D_reset (f : OneEuroFilter2D (num:=num))
    (samples : list (Point num * num)) :
  reset2D (fst (filterAll2D Math_PI f samples)) = reset2D f.
Proof.
  revert f. induction samples as [|[p t] samples IH]; intros f; [reflexivity|].
  cbn [filterAll2D]. specialize (IH (fst (filter2D Math_PI f p t))).
  destruct (filter2D Math_PI f p t) as [f1 q] eqn:E1. cbn [fst] in IH.
  destruct (filterAll2D Math_PI f1 samples) as [f2 qs]. cbn [fst] in *.
  rewrite IH. change f1 with (fst (f1, q)). rewrite <- E1. apply filter2D_reset.
Qed.

(** X22.  [reset] restores the filter as constructed, whatever samples it
    has been fed, and the [reset] of the 2D filter restores the 2D filter as
    constructed, whatever points it has been fed. *)
Theorem reset_restores (options : OneEuroFilter2DOptions (num:=num))
    (samples : list (num * num)) (points : list (Point num * num)) :
  reset (fst (filterAll Math_PI (newOneEuroFilter options) samples))
  = newOneEuroFilter options
  /\ reset2D (fst (filterAll2D Math_PI (newOneEuroFilter2D options) points))
     = newOneEuroFilter2D options.
Proof.
  split.
  - rewrite filterAll_reset. reflexivity.
  - rewrite filterAll2D_reset. reflexivity.
Qed.

End OneEuroGeneric.

Local Open Scope R_scope.

Section OneEuro2D.
Import OneEuro.

(** X20.  The 2D filter does not overshoot: with positive cutoffs and
    frequency and non-negative beta, each coordinate it returns lies between
    its previous estimate and the new sample, whatever the timestamp. *)
Theorem filter2D_no_overshoot (f : OneEuroFilter2D (num:=R)) (point : Point R)
    (timestamp hx hy : R) :
  lowPass (xFilter f) -> lowPass (yFilter f) ->
  xHatPrev (xFilter f) = Some hx -> xHatPrev (yFilter f) = Some hy ->
  let q := snd (filter2D PI f point timestamp) in
  Rmin hx (px point) <= px q <= Rmax hx (px point)
  /\ Rmin hy (py point) <= py q <= Rmax hy (py point).
Proof.
  intros Lx Ly Ex Ey. cbv zeta. unfold filter2D.
  assert (Bx : forall (g : OneEuroFilter (num:=R)) x h, lowPass g ->
            xHatPrev g = Some h ->
            Rmin h x <= snd (filter PI g x timestamp) <= Rmax h x).
  { intros g x h Lg Eg.
    assert (He : estimateIn (Rmin h x) (Rmax h x) g).
    { unfold estimateIn. rewrite Eg. split; [apply Rmin_l|apply Rmax_l]. }
    assert (Hx : Rmin h x <= x <= Rmax h x) by (split; [apply Rmin_r|apply Rmax_r]).
    destruct (filter_step g x timestamp _ _ Lg He Hx) as (_ & _ & _ & _ & B).
    exact (B h Eg). }
  pose proof (Bx (xFilter f) (px point) hx Lx Ex) as B1.
  pose proof (Bx (yFilter f) (py point) hy Ly Ey) as B2.
  destruct (filter PI (xFilter f) (px point) timestamp) as [fx x].
  destruct (filter PI (yFilter f) (py point) timestamp) as [fy y].
  cbn [snd px py] in *. split; assumption.
Qed.

End OneEuro2D.

Lemma filter2D_no_overshoot_witness :
  let f := OneEuro.mkFilter2D (warmFilter (num:=R)) warmFilter in
  let q := snd (OneEuro.filter2D PI f (pt 0.8 0.2) 16) in
  Rmin 0.5 (px (pt (num:=R) 0.8 0.2)) <= px q <= Rmax 0.5 (px (pt (num:=R) 0.8 0.2))
  /\ Rmin 0.5 (py (pt (num:=R) 0.8 0.2)) <= py q <= Rmax 0.5 (py (pt (num:=R) 0.8 0.2)).
Proof.
  intros f.
  assert (L : lowPass (warmFilter (num:=R))).
  { unfold lowPass.
    cbn [warmFilter OneEuro.minCutoff OneEuro.beta OneEuro.dCutoff OneEuro.freq
           lit R_Number].
    rewrite !Q2R_int. lra. }
  apply (filter2D_no_overshoot f (pt 0.8 0.2) 16 0.5 0.5 L L); reflexivity.
Defined.

Section ViewReset.

(** X23.  After a view reset the canvas point of a screen point is its
    position in pixels; the strokes are untouched. *)
Theorem reset_view_pixels (w : Window R) (s : DrawingState R) (screenPoint : Point R) :
  screenToCanvas w (handleResetView s) screenPoint
  = mkPoint (px screenPoint * innerWidth w) (py screenPoint * innerHeight w)
  /\ paths (handleResetView s) = paths s
  /\ currentPath (handleResetView s) = currentPath s.
Proof.
  unfold screenToCanvas, handleResetView.
  cbn [scale offset px py paths currentPath lit ndiv nsub nmul R_Number].
  rewrite !Q2R_int. repeat split. f_equal; field.
Qed.

End ViewReset.

(** ** The classifier and the hand position of [CameraView] *)

Section CameraFacts.
Context {num : Type} {N : Number num}.
Local Open Scope num_scope.

(* The inlined classifier and the hand position on a 21-landmark hand, in
   terms of its tips, landmarks 0 and 9 and the five finger tests. *)
Lemma camera_21 (l : list (Landmark num)) (t i m l0 l9 : Landmark num)
    (b0 b1 b2 b3 b4 : bool) :
  length l = 21%nat ->
  nth_error l 4 = Some t -> nth_error l 8 = Some i -> nth_error l 12 = Some m ->
  nth_error l 0 = Some l0 -> nth_error l 9 = Some l9 ->
  isFingerExtended l 0 = Some b0 -> isFingerExtended l 1 = Some b1 ->
  isFingerExtended l 2 = Some b2 -> isFingerExtended l 3 = Some b3 ->
  isFingerExtended l 4 = Some b4 ->
  let n := length (List.filter (fun b : bool => b) [b0; b1; b2; b3; b4]) in
  let close := (CameraView.calculateDistance t i <? lit 0.06) && Nat.leb n 1 in
  let mid := mkPoint ((lx t + lx i) / lit 2) ((ly t + ly i) / lit 2) in
  CameraView.detectGesture (Some l) = Some
    (if close then
       mkGesture pinch (Math_max (lit 0.5) (lit 1 - CameraView.calculateDistance t i * lit 15))
         mid None
     else if b0 && b2 && negb b1 && negb b3 && negb b4 then
       mkGesture zoom (lit 0.8)
         (mkPoint ((lx t + lx m) / lit 2) ((ly t + ly m) / lit 2))
         (Some (CameraView.calculateDistance t m))
     else if Nat.eqb n 0 then mkGesture fist (lit 0.9) (mkPoint (lx l9) (ly l9)) None
     else if Nat.leb 4 n then mkGesture palm (lit 0.8) (mkPoint (lx l0) (ly l0)) None
     else if Nat.eqb n 1 && b1 then
       mkGesture pinch (lit 0.7) (mkPoint (lx i) (ly i)) None
     else noGesture)
  /\ CameraView.handPosition l = Some (if close then Some mid else None).
Proof.
  intros Hlen Ht Hi Hm H0 H9 E0 E1 E2 E3 E4 n close mid.
  assert (Hn : getExtendedFingerCount l = Some n).
  { unfold getExtendedFingerCount. cbn [filterM]. rewrite E0, E1, E2, E3, E4.
    subst n. destruct b0, b1, b2, b3, b4; reflexivity. }
  unfold CameraView.detectGesture, CameraView.handPosition.
  rewrite Hlen. cbn [Nat.eqb negb].
  destruct (getFingerTip_eq l) as (-> & -> & ->). rewrite Ht, Hi, Hm, Hn.
  fold close. fold mid.
  destruct close; [split; reflexivity|].
  split; [|reflexivity].
  rewrite E0, E1, E2, E3, E4, H9, H0.
  repeat match goal with |- context [if ?c then _ else _] => destruct c end; reflexivity.
Qed.

Lemma camera_data (l : list (Landmark num)) :
  length l = 21%nat ->
  exists t i m l0 l9 b0 b1 b2 b3 b4,
    nth_error l 4 = Some t /\ nth_error l 8 = Some i /\ nth_error l 12 = Some m
    /\ nth_error l 0 = Some l0 /\ nth_error l 9 = Some l9
    /\ isFingerExtended l 0 = Some b0 /\ isFingerExtended l 1 = Some b1
    /\ isFingerExtended l 2 = Some b2 /\ isFingerExtended l 3 = Some b3
    /\ isFingerExtended l 4 = Some b4.
Proof.
  intros Hlen.
  destruct (hand21_data l Hlen)
    as (t & i & m & l9 & b0 & b1 & b2 & b3 & b4 & Ht & Hi & Hm & H9
        & E0 & E1 & E2 & E3 & E4).
  destruct (length21_nth_error (i:=0) l Hlen) as [l0 H0]; [lia|].
  exists t, i, m, l0, l9, b0, b1, b2, b3, b4. repeat split; assumption.
Qed.

(** X24.  On a hand of 21 landmarks, [CameraView] hands a position to the
    hand-position callback exactly when its classifier reports the pinch of
    close thumb and index tips, and the position is that of the gesture;
    for every other result it hands over [null], the pointing gesture (type
    pinch, confidence 0.7, at the index tip) included. *)
Theorem camera_position_iff_pinch (l : list (Landmark num)) :
  length l = 21%nat ->
  exists g r,
    CameraView.detectGesture (Some l) = Some g
    /\ CameraView.handPosition l = Some r
    /\ match r with
       | Some p => gtype g = pinch /\ position g = p /\ distance g = None
       | None =>
           gtype g = pinch ->
           confidence g = lit 0.7
           /\ exists i, nth_error l 8 = Some i /\ position g = mkPoint (lx i) (ly i)
       end.
Proof.
  intros Hlen.
  destruct (camera_data l Hlen)
    as (t & i & m & l0 & l9 & b0 & b1 & b2 & b3 & b4 & Ht & Hi & Hm & H0 & H9
        & E0 & E1 & E2 & E3 & E4).
  destruct (camera_21 l t i m l0 l9 b0 b1 b2 b3 b4 Hlen Ht Hi Hm H0 H9
              E0 E1 E2 E3 E4) as [-> ->].
  do 2 eexists. split; [reflexivity|]. split; [reflexivity|].
  destruct (_ && Nat.leb _ 1).
  - cbn. auto.
  - repeat match goal with |- context [if ?c then _ else _] => destruct c end;
      cbn [gtype confidence position noGesture]; intros H; try discriminate H.
    split; [reflexivity|]. exists i. split; [exact Hi|reflexivity].
Qed.

Lemma handleGestureDetected_noStroke (w : Window num) (ds : DrawingState num)
    (refs : Refs num) (g : GestureState num) (base : list (list (Point num))) :
  Forall (fun u => forall s, currentPath s = [] /\ incl (paths s) base ->
                             currentPath (u s) = [] /\ incl (paths (u s)) base)
         (snd (handleGestureDetected w ds refs g)).
Proof.
  destruct (handleGestureDetected_updaters w ds refs g) as (r2 & r3 & r4 & -> & _).
  rewrite !Forall_app. repeat split.
  - unfold drawingChannel.
    repeat match goal with |- context [if ?c then _ else _] => destruct c end;
      cbn [snd]; repeat (apply Forall_cons || apply Forall_nil).
    + intros s [Hc Hp]. split; [reflexivity|exact Hp].
    + intros s [Hc Hp]. unfold finishStroke. rewrite Hc. cbn. auto.
  - unfold panningChannel.
    repeat match goal with
           | |- context [if ?c then _ else _] => destruct c
           | |- context [match panStartRef ?r with _ => _ end] => destruct (panStartRef r)
           end; cbn [snd]; repeat (apply Forall_cons || apply Forall_nil);
      intros s H; exact H.
  - unfold zoomChannel. destruct (zoomAction ds r3 g); cbn [snd];
      repeat (apply Forall_cons || apply Forall_nil); intros s H; exact H.
  - unfold eraseChannel.
    repeat match goal with |- context [if ?c then _ else _] => destruct c end;
      cbn [snd app]; repeat (apply Forall_cons || apply Forall_nil);
      try (intros s H; exact H).
    all: intros s [Hc Hp]; split; [exact Hc|];
      intros path Hin; apply Hp; unfold erasePaths in Hin; cbn [paths] in Hin;
      apply filter_In in Hin; tauto.
Qed.

Lemma step_noPosition (w : Window num) (app : App num) (ev : Event num)
    (base : list (list (Point num))) :
  noPosition ev = true ->
  currentPath (drawingState app) = [] /\ incl (paths (drawingState app)) base ->
  currentPath (drawingState (step w app ev)) = []
  /\ incl (paths (drawingState (step w app ev))) base.
Proof.
  intros Hev H. destruct ev as [g|[p|]| |]; try discriminate Hev; cbn [step].
  - pose proof (handleGestureDetected_noStroke w (drawingState app) (appRefs app) g base)
      as F.
    destruct (handleGestureDetected _ _ _ _) as [r us]. cbn [snd] in F.
    cbn [drawingState].
    apply (runUpdaters_preserves
             (fun s => currentPath s = [] /\ incl (paths s) base)); assumption.
  - unfold handleHandPositionUpdate.
    destruct (lastGestureTypeRef (appRefs app)) as [[| | | |]|]; exact H.
  - split; [reflexivity|]. cbn. intros x [].
  - exact H.
Qed.

(** X25.  Without a hand position nothing is drawn: from a state with no
    stroke in progress, gestures of any kind, [null] hand positions, canvas
    clears and view resets leave the stroke in progress empty and add no
    completed stroke. *)
Theorem no_position_no_drawing (app : App num) (evs : list (Window num * Event num)) :
  forallb (fun we => noPosition (snd we)) evs = true ->
  currentPath (drawingState app) = [] ->
  currentPath (drawingState (runEvents app evs)) = []
  /\ incl (paths (drawingState (runEvents app evs))) (paths (drawingState app)).
Proof.
  intros H Hc.
  assert (G : forall a,
            currentPath (drawingState a) = []
            /\ incl (paths (drawingState a)) (paths (drawingState app)) ->
            currentPath (drawingState (runEvents a evs)) = []
            /\ incl (paths (drawingState (runEvents a evs))) (paths (drawingState app))).
  { induction evs as [|[w ev] evs IH]; intros a Ha; [exact Ha|].
    cbn [forallb snd] in H. apply andb_prop in H. destruct H as [H1 H2].
    change (runEvents a ((w, ev) :: evs)) with (runEvents (step w a ev) evs).
    apply (IH H2). apply step_noPosition; assumption. }
  apply G. split; [exact Hc|apply incl_refl].
Qed.

End CameraFacts.

Lemma camera_position_iff_pinch_witness :
  exists g r,
    CameraView.detectGesture (Some (closedHand (num:=R))) = Some g
    /\ CameraView.handPosition (closedHand (num:=R)) = Some r
    /\ match r with
       | Some p => gtype g = pinch /\ position g = p /\ distance g = None
       | None =>
           gtype g = pinch ->
           confidence g = lit 0.7
           /\ exists i, nth_error (closedHand (num:=R)) 8 = Some i
                        /\ position g = mkPoint (lx i) (ly i)
       end.
Proof. apply (camera_position_iff_pinch (closedHand (num:=R))). reflexivity. Defined.

Lemma no_position_no_drawing_witness :
  let evs := [(win (num:=R), GestureDetected (gesture pinch 0.7 (pt 0.5 0.5)));
              (win, HandPositionUpdate None);
              (win, GestureDetected (gesture palm 0.8 (pt 0.5 0.5)))] in
  currentPath (drawingState (runEvents initialApp evs)) = []
  /\ incl (paths (drawingState (runEvents initialApp evs)))
          (paths (drawingState (initialApp (num:=R)))).
Proof.
  intros evs. apply (no_position_no_drawing (num:=R) initialApp evs); reflexivity.
Defined.

Local Open Scope R_scope.

Section CameraReal.

(** X26.  With the classifier of [CameraView], a result of type pinch
    exceeds the drawing threshold 0.6 of the handler exactly when it is the
    pointing gesture, for which no hand position is handed over, or the
    thumb and index tips are closer than 2/75. *)
Theorem camera_pinch_draws (l : list (Landmark R)) (t i : Landmark R) :
  length l = 21%nat -> nth_error l 4 = Some t -> nth_error l 8 = Some i ->
  exists g r,
    CameraView.detectGesture (Some l) = Some g
    /\ CameraView.handPosition l = Some r
    /\ (gtype g = pinch ->
        (0.6 < confidence g <-> r = None \/ CameraView.calculateDistance t i < 2 / 75)).
Proof.
  intros Hlen Ht Hi.
  destruct (camera_data l Hlen)
    as (t' & i' & m & l0 & l9 & b0 & b1 & b2 & b3 & b4 & Ht' & Hi' & Hm & H0 & H9
        & E0 & E1 & E2 & E3 & E4).
  rewrite Ht in Ht'. rewrite Hi in Hi'. injection Ht' as <-. injection Hi' as <-.
  destruct (camera_21 l t i m l0 l9 b0 b1 b2 b3 b4 Hlen Ht Hi Hm H0 H9
              E0 E1 E2 E3 E4) as [-> ->].
  do 2 eexists. split; [reflexivity|]. split; [reflexivity|].
  set (d := CameraView.calculateDistance t i).
  destruct (_ && Nat.leb _ 1).
  - intros _. cbn [confidence Math_max lit nsub nmul R_Number].
    rewrite !Q2R_int. split.
    + intros H. right. unfold Rmax in H. destruct (Rle_dec _ _); lra.
    + intros [H|H]; [discriminate H|].
      eapply Rlt_le_trans; [|apply Rmax_r]. lra.
  - repeat match goal with |- context [if ?c then _ else _] => destruct c end;
      cbn [gtype confidence noGesture]; intros H; try discriminate H.
    cbn [lit R_Number]. split; [intros _; left; reflexivity|intros _; lra].
Qed.

End CameraReal.

Lemma camera_pinch_draws_witness :
  exists g r,
    CameraView.detectGesture (Some (closedHand (num:=R))) = Some g
    /\ CameraView.handPosition (closedHand (num:=R)) = Some r
    /\ (gtype g = pinch ->
        (0.6 < confidence g
         <-> r = None
             \/ CameraView.calculateDistance (lm (num:=R) 0.5 0.5) (lm 0.5 0.5) < 2 / 75)).
Proof.
  apply (camera_pinch_draws closedHand (lm 0.5 0.5) (lm 0.5 0.5)); reflexivity.
Defined.

(** ** Rounded arithmetic: the coordinate round trip and the smoothing *)

Section RoundTrip.

Lemma rounded_close (u : R) (rnd : R -> R) (x M : R) :
  Rounded.accurate u rnd -> 0 <= u <= 1 -> Rabs x <= M ->
  Rabs (rnd x - x) <= u * M /\ Rabs (rnd x) <= 2 * M.
Proof.
  intros Ha Hu Hx.
  assert (H0 : 0 <= Rabs x) by apply Rabs_pos.
  assert (H1 : Rabs (rnd x - x) <= u * M).
  { eapply Rle_trans; [apply Ha|]. apply Rmult_le_compat_l; lra. }
  assert (H2 : u * M <= M).
  { rewrite <- (Rmult_1_l M) at 2. apply Rmult_le_compat_r; lra. }
  split; [exact H1|].
  replace (rnd x) with ((rnd x - x) + x) by ring.
  eapply Rle_trans; [apply Rabs_triang|]. lra.
Qed.



End RoundTrip.


Section RoundedSmoothing.
Variables (u : R) (rnd : R -> R).
Hypothesis Hu : 0 <= u <= / 2.
Hypothesis Ha : Rounded.accurate u rnd.

Lemma rounding_unit_le_1 : 0 <= u <= 1.
Proof. lra. Qed.

Lemma rnd_zero : rnd 0 = 0.
Proof.
  pose proof (Ha 0) as H. rewrite Rabs_R0, Rmult_0_r, Rminus_0_r in H.
  pose proof (Rabs_pos (rnd 0)).
  destruct (Req_dec (rnd 0) 0) as [E|E]; [exact E|].
  apply Rabs_pos_lt in E. lra.
Qed.

(* The sum of at most three coordinates bounded by M, every addition
   rounded: the rounded sum [s] against the exact sum [S]. *)
Lemma rounded_sum (f : Point R -> R) (history : list (Point R)) (M : R) :
  (length history <= 3)%nat -> 0 <= M ->
  Forall (fun p => Rabs (f p) <= M) history ->
  let s := fold_left (fun sum p => rnd (sum + f p)) history (rnd (Q2R 0)) in
  let S := fold_left (fun sum p => sum + f p) history (Q2R 0) in
  Rabs (s - S) <= 11 * u * M /\ Rabs s <= 14 * M
  /\ Rabs S <= INR (length history) * M.
Proof.
  intros Hlen HM0 HM. cbv zeta.
  replace (Q2R 0) with 0 by (unfold Q2R; cbn; lra). rewrite rnd_zero.
  assert (UM : 0 <= u * M) by (apply Rmult_le_pos; lra).
  destruct history as [|p1 [|p2 [|p3 [|p4 rest]]]]; cbn [length] in Hlen; try lia.
  - cbn. rewrite Rminus_diag, Rabs_R0. lra.
  - apply Forall_cons_iff in HM. destruct HM as [H1 _].
    cbn [fold_left length INR]. rewrite Rplus_0_l.
    destruct (rounded_close u rnd (f p1) M Ha rounding_unit_le_1 H1) as [a1 a2].
    repeat split; lra.
  - apply Forall_cons_iff in HM. destruct HM as [H1 HM].
    apply Forall_cons_iff in HM. destruct HM as [H2 _].
    cbn [fold_left length INR]. rewrite Rplus_0_l.
    destruct (rounded_close u rnd (f p1) M Ha rounding_unit_le_1 H1) as [a1 a2].
    set (s1 := rnd (f p1)) in *.
    assert (T2 : Rabs (s1 + f p2) <= 3 * M)
      by (eapply Rle_trans; [apply Rabs_triang|lra]).
    destruct (rounded_close u rnd (s1 + f p2) (3 * M) Ha rounding_unit_le_1 T2) as [b1 b2].
    set (s2 := rnd (s1 + f p2)) in *.
    repeat split.
    + replace (s2 - (f p1 + f p2)) with ((s2 - (s1 + f p2)) + (s1 - f p1)) by ring.
      eapply Rle_trans; [apply Rabs_triang|lra].
    + lra.
    + eapply Rle_trans; [apply Rabs_triang|lra].
  - apply Forall_cons_iff in HM. destruct HM as [H1 HM].
    apply Forall_cons_iff in HM. destruct HM as [H2 HM].
    apply Forall_cons_iff in HM. destruct HM as [H3 _].
    cbn [fold_left length INR]. rewrite Rplus_0_l.
    destruct (rounded_close u rnd (f p1) M Ha rounding_unit_le_1 H1) as [a1 a2].
    set (s1 := rnd (f p1)) in *.
    assert (T2 : Rabs (s1 + f p2) <= 3 * M)
      by (eapply Rle_trans; [apply Rabs_triang|lra]).
    destruct (rounded_close u rnd (s1 + f p2) (3 * M) Ha rounding_unit_le_1 T2) as [b1 b2].
    set (s2 := rnd (s1 + f p2)) in *.
    assert (T3 : Rabs (s2 + f p3) <= 7 * M)
      by (eapply Rle_trans; [apply Rabs_triang|lra]).
    destruct (rounded_close u rnd (s2 + f p3) (7 * M) Ha rounding_unit_le_1 T3) as [c1 c2].
    set (s3 := rnd (s2 + f p3)) in *.
    repeat split.
    + replace (s3 - (f p1 + f p2 + f p3))
        with ((s3 - (s2 + f p3)) + ((s2 - (s1 + f p2)) + (s1 - f p1))) by ring.
      eapply Rle_trans; [apply Rabs_triang|].
      eapply Rle_trans; [apply Rplus_le_compat_l, Rabs_triang|]. lra.
    + lra.
    + eapply Rle_trans; [apply Rabs_triang|].
      eapply Rle_trans; [apply Rplus_le_compat_r, Rabs_triang|]. lra.
Qed.

(* The rounded quotient of the rounded sum by the rounded count against the
   exact mean. *)
Lemma rounded_mean (s S n M : R) :
  1 <= n -> 0 <= M ->
  Rabs (s - S) <= 11 * u * M -> Rabs s <= 14 * M -> Rabs S <= n * M ->
  Rabs (rnd (s / rnd n) - S / n) <= 56 * u * M.
Proof.
  intros Hn HM Hs Hs2 HS.
  assert (UM : 0 <= u * M) by (apply Rmult_le_pos; lra).
  pose proof (Ha n) as Hn'. rewrite (Rabs_pos_eq n) in Hn' by lra.
  set (n' := rnd n) in *.
  assert (Un : u * n <= n / 2) by nra.
  assert (Bn : n / 2 <= n').
  { unfold Rabs in Hn'. destruct (Rcase_abs (n' - n)); lra. }
  assert (Pn : 0 < n') by lra.
  (* the exact quotient of the rounded operands *)
  assert (Q : Rabs (s / n' - S / n) <= 24 * u * M).
  { replace (s / n' - S / n) with (((s - S) * n + S * (n - n')) / (n' * n))
      by (field; lra).
    unfold Rdiv. rewrite Rabs_mult, (Rabs_pos_eq (/ _))
      by (left; apply Rinv_0_lt_compat; nra).
    apply Rmult_le_reg_r with (n' * n); [nra|].
    rewrite Rmult_assoc, Rinv_l, Rmult_1_r by nra.
    eapply Rle_trans; [apply Rabs_triang|].
    rewrite !Rabs_mult, (Rabs_pos_eq n) by lra.
    set (v := u * M) in *.
    assert (X1 : Rabs (s - S) * n <= 11 * v * n).
    { apply Rmult_le_compat_r; [lra|]. unfold v. lra. }
    assert (X2 : Rabs S * Rabs (n - n') <= (n * M) * (u * n)).
    { apply Rmult_le_compat; try apply Rabs_pos; [exact HS|].
      rewrite Rabs_minus_sym. exact Hn'. }
    assert (X2' : (n * M) * (u * n) = v * (n * n)) by (unfold v; ring).
    assert (N1 : n <= n * n) by nra.
    assert (N2 : n * n <= 2 * (n' * n)) by nra.
    assert (X4 : v * n <= v * (n * n)) by (apply Rmult_le_compat_l; lra).
    assert (X3 : v * (n * n) <= v * (2 * (n' * n)))
      by (apply Rmult_le_compat_l; lra).
    replace (24 * u * M * (n' * n)) with (12 * (v * (2 * (n' * n))))
      by (unfold v; ring).
    lra. }
  assert (Q2 : Rabs (s / n') <= 28 * M).
  { unfold Rdiv. rewrite Rabs_mult, (Rabs_pos_eq (/ n'))
      by (left; apply Rinv_0_lt_compat; lra).
    apply Rmult_le_reg_r with n'; [lra|].
    rewrite Rmult_assoc, Rinv_l, Rmult_1_r by lra.
    assert (14 * M <= 28 * M * n') by nra. lra. }
  destruct (rounded_close u rnd (s / n') (28 * M) Ha rounding_unit_le_1 Q2) as [r1 _].
  replace (rnd (s / n') - S / n) with ((rnd (s / n') - s / n') + (s / n' - S / n))
    by ring.
  eapply Rle_trans; [apply Rabs_triang|]. lra.
Qed.

End RoundedSmoothing.

Section RoundedSmoothingThm.

(** X13.  The smoothed position is the average of the positions in the
    smoothing window, at most three.  In exact arithmetic it lies in their
    bounding box; computed with operations of relative rounding error at
    most [u <= 1/2], each coordinate is within [56 u M] of that exact
    average, for coordinates of absolute value at most [M]. *)
Theorem smoothedPosition_in_range (history : list (Point R)) (lo hi : Point R)
    (u M : R) (rnd : R -> R) :
  history <> [] -> (length history <= SMOOTHING_WINDOW)%nat ->
  Forall (fun p => px lo <= px p <= px hi /\ py lo <= py p <= py hi) history ->
  Forall (fun p => Rabs (px p) <= M /\ Rabs (py p) <= M) history ->
  0 <= u <= / 2 -> Rounded.accurate u rnd ->
  let exact := smoothedPosition history in
  let computed := smoothedPosition (N:=Rounded.number rnd) history in
  (px lo <= px exact <= px hi /\ py lo <= py exact <= py hi)
  /\ Rabs (px computed - px exact) <= 56 * u * M
  /\ Rabs (py computed - py exact) <= 56 * u * M.
Proof.
  intros Hne Hlen Hbox HM Hu Ha. cbv zeta.
  split; [exact (smoothedPosition_exact_range history lo hi Hne Hbox)|].
  assert (M0 : 0 <= M).
  { destruct history as [|p rest]; [contradiction|].
    apply Forall_inv in HM. destruct HM as [HM _].
    eapply Rle_trans; [apply Rabs_pos|exact HM]. }
  assert (Hn : 1 <= INR (length history)).
  { destruct history; [contradiction|].
    change 1 with (INR 1). apply le_INR. cbn. lia. }
  assert (En : Q2R (inject_Z (Z.of_nat (length history))) = INR (length history)).
  { unfold inject_Z. rewrite Q2R_int. symmetry. apply INR_IZR_INZ. }
  unfold SMOOTHING_WINDOW in Hlen.
  unfold smoothedPosition, ofNat.
  cbn [px py lit nadd ndiv Rounded.number R_Number]. rewrite En.
  split.
  - destruct (rounded_sum u rnd Hu Ha (@px R) history M Hlen M0
                (Forall_impl _ (fun p Hp => proj1 Hp) HM)) as (A & B & C).
    apply (rounded_mean u rnd Hu Ha); assumption.
  - destruct (rounded_sum u rnd Hu Ha (@py R) history M Hlen M0
                (Forall_impl _ (fun p Hp => proj2 Hp) HM)) as (A & B & C).
    apply (rounded_mean u rnd Hu Ha); assumption.
Qed.

End RoundedSmoothingThm.

Lemma smoothedPosition_in_range_witness :
  let rnd := fun x : R => x * (1 + / 1024) in
  let history := [pt (num:=R) 0.2 0.2; pt 0.4 0.6] in
  let exact := smoothedPosition history in
  let computed := smoothedPosition (N:=Rounded.number rnd) history in
  (px (pt (num:=R) 0 0) <= px exact <= px (pt (num:=R) 1 1)
   /\ py (pt (num:=R) 0 0) <= py exact <= py (pt (num:=R) 1 1))
  /\ Rabs (px computed - px exact) <= 56 * / 1024 * 1
  /\ Rabs (py computed - py exact) <= 56 * / 1024 * 1.
Proof.
  intros rnd history.
  apply (smoothedPosition_in_range history (pt 0 0) (pt 1 1) (/ 1024) 1 rnd).
  - discriminate.
  - subst history. unfold SMOOTHING_WINDOW. cbn [length]. lia.
  - apply Forall_cons; [|apply Forall_cons; [|apply Forall_nil]];
      cbn [pt px py lit R_Number]; rewrite !Q2R_int; lra.
  - apply Forall_cons; [|apply Forall_cons; [|apply Forall_nil]];
      cbn [pt px py lit R_Number]; split; apply Rabs_le; lra.
  - lra.
  - intros x. subst rnd. cbv beta.
    replace (x * (1 + / 1024) - x) with (/ 1024 * x) by ring.
    rewrite Rabs_mult, (Rabs_pos_eq (/ 1024)) by lra. lra.
Defined.

(** ** The scale under zoom gestures *)

Section ZoomClamp.

(* A zoom gesture the handler acts on, in a zooming state with a nonzero
   baseline, takes the scale-multiplying branch. *)
Lemma zoomAction_scales (ds : DrawingState R) (refs : Refs R) (g : GestureState R)
    (d last : R) :
  gtype g = zoom -> distance g = Some d -> d <> 0 -> 0.7 < confidence g ->
  isZooming ds = true -> lastZoomDistanceRef refs = Some last -> last <> 0 ->
  zoomAction ds refs g = ZoomScale d last.
Proof.
  intros T D Hd C Z L Hl. unfold zoomAction, isType. rewrite T, D, Z, L.
  cbn [GestureType_eqb negb truthy nltb R_Number].
  replace (Real.truthy d) with true by (symmetry; apply Real_truthy_true; exact Hd).
  replace (Real.truthy last) with true by (symmetry; apply Real_truthy_true; exact Hl).
  replace (Real.ltb (lit 0.7) (confidence g)) with true
    by (symmetry; apply Real_ltb_true; exact C).
  reflexivity.
Qed.

Lemma zoom_step (w : Window R) (app : App R) (g : GestureState R) (d last : R) :
  gtype g = zoom -> distance g = Some d -> d <> 0 -> 0.7 < confidence g ->
  isZooming (drawingState app) = true ->
  lastZoomDistanceRef (appRefs app) = Some last -> last <> 0 ->
  scale (drawingState (step w app (GestureDetected g)))
  = clampScale (scale (drawingState app) * (d / last))
  /\ isZooming (drawingState (step w app (GestureDetected g))) = true
  /\ lastZoomDistanceRef (appRefs (step w app (GestureDetected g))) = Some d.
Proof.
  intros T D Hd C Z L Hl.
  pose proof (zoomAction_scales (drawingState app) (appRefs app) g d last
                T D Hd C Z L Hl) as E.
  cbn [step].
  pose proof (handleGestureDetected_view w (drawingState app) (appRefs app) g
                (drawingState app)) as V.
  cbv zeta in V. destruct V as (Vs & _ & _ & Vz & _ & Vl).
  destruct (handleGestureDetected _ _ _ _) as [r us]. cbn [fst snd] in *.
  cbn [drawingState appRefs]. rewrite Vs, Vz, Vl.
  unfold zoomChannel. rewrite E. cbn. rewrite Z. auto.
Qed.

Lemma zoom_run_pinned (w : Window R) (down : bool) (gs : list (GestureState R))
    (app : App R) (last : R) :
  isZooming (drawingState app) = true ->
  lastZoomDistanceRef (appRefs app) = Some last -> 0 < last ->
  zoomRun down last gs ->
  scale (drawingState app) = (if down then 0.1 else 5) ->
  scale (drawingState (runEvents app (map (fun g => (w, GestureDetected g)) gs)))
  = (if down then 0.1 else 5).
Proof.
  revert app last. induction gs as [|g gs IH]; intros app last Z L Hl Hrun Hs;
    [exact Hs|].
  destruct Hrun as (d & T & D & C & Hd & Hord & Hrest).
  cbn [map].
  change (runEvents app ((w, GestureDetected g) :: ?l))
    with (runEvents (step w app (GestureDetected g)) l).
  destruct (zoom_step w app g d last T D ltac:(lra) C Z L ltac:(lra)) as (S1 & Z1 & L1).
  apply (IH _ d Z1 L1 Hd Hrest).
  rewrite S1, Hs.
  assert (Hq : 0 < d / last) by (apply Rdiv_lt_0_compat; lra).
  destruct down.
  - apply clamp_cases.
    assert (d / last <= 1).
    { apply Rmult_le_reg_r with last; [lra|].
      unfold Rdiv. rewrite Rmult_assoc, Rinv_l by lra. lra. }
    nra.
  - apply clamp_cases.
    assert (1 <= d / last).
    { apply Rmult_le_reg_r with last; [lra|].
      unfold Rdiv. rewrite Rmult_assoc, Rinv_l by lra. lra. }
    nra.
Qed.

(** C3.  From a state whose scale lies in [0.1, 5], every finite sequence
    of events leaves the scale in [0.1, 5].  In a zooming state with a
    nonzero baseline distance [last], a zoom gesture of confidence above 0.7
    with a nonzero distance [d] sets the scale to [scale * (d / last)] when
    that lies in [0.1, 5], to 0.1 when it is below and to 5 when it is
    above, and makes [d] the baseline.  Once the scale is at 0.1, every run
    of such gestures whose distances never grow leaves it at 0.1; once it
    is at 5, every run whose distances never shrink leaves it at 5. *)
Theorem zoom_scale_clamped (app : App R) (evs : list (Window R * Event R)) :
  0.1 <= scale (drawingState app) <= 5 ->
  0.1 <= scale (drawingState (runEvents app evs)) <= 5
  /\ (forall w g d last,
        gtype g = zoom -> distance g = Some d -> d <> 0 -> 0.7 < confidence g ->
        isZooming (drawingState app) = true ->
        lastZoomDistanceRef (appRefs app) = Some last -> last <> 0 ->
        let x := scale (drawingState app) * (d / last) in
        let app' := step w app (GestureDetected g) in
        (x <= 0.1 -> scale (drawingState app') = 0.1)
        /\ (5 <= x -> scale (drawingState app') = 5)
        /\ (0.1 <= x <= 5 -> scale (drawingState app') = x)
        /\ isZooming (drawingState app') = true
        /\ lastZoomDistanceRef (appRefs app') = Some d)
  /\ (forall w down last gs,
        isZooming (drawingState app) = true ->
        lastZoomDistanceRef (appRefs app) = Some last -> 0 < last ->
        zoomRun down last gs ->
        scale (drawingState app) = (if down then 0.1 else 5) ->
        scale (drawingState (runEvents app (map (fun g => (w, GestureDetected g)) gs)))
        = (if down then 0.1 else 5)).
Proof.
  intros H. split; [|split].
  - revert app H. induction evs as [|[w ev] evs IH]; intros app H; [exact H|].
    change (runEvents app ((w, ev) :: evs)) with (runEvents (step w app ev) evs).
    apply (IH (step w app ev)). apply step_scale_range. exact H.
  - intros w g d last T D Hd C Z L Hl x app'.
    destruct (zoom_step w app g d last T D Hd C Z L Hl) as (S1 & Z1 & L1).
    subst app' x. rewrite S1.
    destruct (clamp_cases (scale (drawingState app) * (d / last))) as (A & B & K).
    auto.
  - intros w down last gs Z L Hl Hrun Hs.
    exact (zoom_run_pinned w down gs app last Z L Hl Hrun Hs).
Qed.

End ZoomClamp.

Lemma zoom_scale_clamped_witness :
  let shrink := [zoomGesture (num:=R) 0.01; zoomGesture 0.005; zoomGesture 0.005] in
  let pinned := step win zoomedApp (GestureDetected (zoomGesture (num:=R) 0.01)) in
  scale (drawingState pinned) = 0.1
  /\ scale (drawingState
             (runEvents pinned
                (map (fun g => (win (num:=R), GestureDetected g)) (tl shrink)))) = 0.1
  /\ 0.1 <= scale (drawingState
                     (runEvents (num:=R) zoomedApp
                        (map (fun g => (win, GestureDetected g)) shrink))) <= 5.
Proof.
  intros shrink pinned.
  assert (H0 : 0.1 <= scale (drawingState (zoomedApp (num:=R))) <= 5).
  { cbn [zoomedApp drawingState scale lit R_Number]. rewrite Q2R_int. lra. }
  assert (C : 0.7 < confidence (zoomGesture (num:=R) 0.01))
    by (cbn [zoomGesture confidence lit R_Number]; lra).
  destruct (zoom_scale_clamped zoomedApp
              (map (fun g => (win, GestureDetected g)) shrink) H0) as (A & B & _).
  assert (D1 : lit (Number:=R_Number) 0.01 <> 0) by (cbn [lit R_Number]; lra).
  assert (D2 : lit (Number:=R_Number) 0.2 <> 0) by (cbn [lit R_Number]; lra).
  assert (D3 : 0 < lit (Number:=R_Number) 0.01) by (cbn [lit R_Number]; lra).
  destruct (B win (zoomGesture 0.01) (lit 0.01) (lit 0.2) eq_refl eq_refl
              D1 C eq_refl eq_refl D2) as (P1 & _ & _ & Z1 & L1).
  assert (S1 : scale (drawingState pinned) = 0.1).
  { apply P1. cbn [zoomedApp drawingState scale lit R_Number]. rewrite Q2R_int. lra. }
  split; [exact S1|]. split; [|exact A].
  assert (H1 : 0.1 <= scale (drawingState pinned) <= 5) by (rewrite S1; lra).
  destruct (zoom_scale_clamped pinned [] H1) as (_ & _ & R).
  apply (R win true (lit 0.01) (tl shrink) Z1 L1 D3).
  - cbn [shrink tl zoomRun].
    exists (lit 0.005). repeat split; try reflexivity;
      try (cbn [zoomGesture confidence lit R_Number]; lra).
    exists (lit 0.005). repeat split; try reflexivity;
      cbn [zoomGesture confidence lit R_Number]; lra.
  - exact S1.
Defined.
